(* ===== verification/_CoqProject ===== *)
-Q . S2P
Prelude.v
JsString.v
JsRegExp.v
Escape.v
Lists.v
Tables.v
Format.v
Plain.v
PageContext.v
UI.v
Controller.v
Session.v
