(* ===== verification/Prelude.v ===== *)
(** * A verification development of the AI assistant of AI-course-review

    The repository ships one JavaScript file, [src/ai-assistant.js], with
    one class, [AIAssistant].  It has two parts that interact through a
    single call:

    - the markdown renderer, [formatMessage] (lines 375-445) with its
      helpers [formatLists] (447-496), [escapeHtml] (498-507),
      [formatTable] (509-542) and [buildTable] (544-578).  It is a chain
      of regular-expression substitutions over one string, with code
      protected by placeholders that are restored at the end;
    - the controller around it (lines 1-373): the constructor, the panel
      and settings toggles, [saveApiKey], [clearChat], [sendMessage] with
      the asynchronous [callDeepSeekAPI], [askAboutCode],
      [getPageContext], [addMessage] and [removeMessage].  Each message
      shown in the panel goes through [addMessage], which calls
      [formatMessage]; each request carries the text [getPageContext]
      builds from the page.

    ** Layout of the library

    - [Prelude] (this file): JavaScript strings as lists of UTF-16 code
      units ([list N]), string literals read as UTF-8 ([lit]), the
      character classes of ECMAScript regular expressions ([\s], [\w],
      [\d], [.]) and of [String.prototype.trim], the shared tactics, hint
      database and list lemmas.
    - [JsString]: the String and Array built-ins the source calls
      ([split], [join], [trim], [startsWith], [endsWith], [substring],
      [indexOf], [replace] with a string pattern and the GetSubstitution
      algorithm of ECMA-262 that interprets [$&], [$'], [$`], [$$] and
      [$n] in a replacement string, [Number.prototype.toString]).
    - [JsRegExp]: the fragment of ECMAScript regular expressions the
      source uses, as an abstract syntax and the backtracking matcher of
      ECMA-262 section 22.2.2 written in continuation-passing style
      (character classes, sequence, alternation, capturing groups, the
      anchors [^] and [$] with the multiline flag, and greedy and lazy
      quantifiers through RepeatMatcher with its empty-iteration check),
      [RegExpBuiltinExec], and [RegExp.prototype[@@replace]] with function
      and template replacers.  A replacer may thread a state through its
      calls, which is how the source's callbacks push to an array.
    - [Escape]: [escapeHtml].
    - [Lists]: [formatLists], the list state machine.
    - [Tables]: [formatTable] and [buildTable].
    - [Format]: [formatMessage], its thirteen stages in the source's
      order, and the list of the twenty regular-expression literals it
      uses ([source_regexps]).
    - [Plain]: [formatMessage] on a line of plain text, stage by stage.
    - [PageContext]: [getPageContext], from a record of what its DOM
      queries return (the record also gives the parent element of each
      [pre code] element), and the document as it is when the context is
      read: the page followed by the messages of the chat, each given by
      what the browser's parser finds in its markup ([Fragment],
      [live_page]).
    - [UI]: the markup [createAssistantUI] inserts (the template literal
      of lines 17-81, kept verbatim around the interpolated key), the
      value of the key input an HTML parser reads from it, and the code
      blocks [addCodeBlockButtons] gives a button to, its guard searching
      the descendants of the code element's parent.
    - [Controller]: the document the assistant is loaded in (record
      [Document]: the page and the browser's parser of a message, a
      parameter of every theorem, so that they hold for every parser),
      the state of an [AIAssistant] object and of the
      document and storage it writes (record [Assistant]), every method
      as a function in a state monad, [sendMessage] and [callDeepSeekAPI]
      split at their [await] into a pending request and its resumption,
      the listeners of [attachEventListeners] and the two asynchronous
      continuations as the type [Event], and the reachable states.
    - [Session]: consequences of the controller over short sequences of
      events.

    ** What the theorems show

    - [escapeHtml] equals a per-code-unit rewrite, never outputs an angle
      bracket or a quote, and is undone by decoding its five entities.
    - [formatLists] and [formatTable] refine specifications by maximal
      runs of lines; the list state machine keeps its invariant;
      [buildTable] falls back to the literal lines.
    - A line of plain text comes out of [formatMessage] as one paragraph
      holding the line unchanged ([formatMessage_plain_line]).
    - The context sent to the model is at most 4011 code units long, and
      only the first three code blocks of the document reach it, so the
      code shown in the chat is read as page code only while the page has
      fewer than three code blocks ([context_ignores_chat_code]).
    - The key input of a new assistant shows the key in memory, read
      from the markup, when the key has no double quote or ampersand;
      after [addCodeBlockButtons] every code element has a button inside
      its parent, and no parent gets two ([code_buttons_cover]).
    - Lemmas on the engine: a match of [RegExpBuiltinExec] has one
      capture per group ([builtin_exec_width]); the translated literals
      are well formed ([source_regexps_wf]).  Examples computed on the
      model record where the code departs from the specification or its
      intent (a [$&] inside code, a placeholder text in the input, the
      level-3 heading, [***], raw HTML, fenced blocks wrapped in a
      paragraph, a key with a double quote, the code of a question sent
      back as page code, code blocks without a button).
    - In every state reachable from the constructor the history
      alternates user and assistant entries and has at most twenty
      entries, each pending request has a key and a non-empty message and
      a context read after the user's message was added to the chat,
      the key in memory is the stored key, and the panel's class follows
      [isOpen].  The history is the last twenty entries of the log of
      exchanges since the last clear ([conversation_refines]).
    - Sending, and each outcome of a response (answer, HTTP error,
      exception), on every path; the loading message removed by an id
      made from [Date.now()], which removes the user's message when both
      ids are made in the same millisecond.

    ** Bounds and fuel

    The loops that are not structural take fuel: [split] and the [replace]
    collection loop one more than the length of the string (each step
    consumes a code unit or ends), RepeatMatcher one more than the
    minimum count plus the code units left (each iteration past the
    minimum consumes one, by the empty-iteration check).  The theorems
    [repeat_fuel_enough] and [collect_fuel_enough] show that more fuel
    gives the same result, so the bounds chosen are enough.

    ** Scope of the model

    JavaScript strings are sequences of UTF-16 code units; the model keeps
    them as [list N].  [Date.now()] is a function of the index of the
    call, so that two calls within one millisecond can return the same
    value.  Timers fire in the order they were set (all have the same
    delay); responses arrive in any order.  Not modelled: the parsing of
    the markup of [createAssistantUI] beyond the key input's value (the
    DOM it builds is the state of [Controller]), the browser's rendering
    of the HTML the renderer produces, the DOM insertion of the code
    buttons, the scrolling and the textarea height, the unused
    [htmlContent] of [getPageContext], the network beyond the three
    outcomes of a request, and the HTML parser itself: the theorems take
    it as a parameter ([doc_parse]), and the examples use a parser that
    only finds the code blocks the renderer writes.  A code button asks
    about the text its code element had when the page loaded.  [getElementById] is searched among the chat
    messages only: the other ids of the page never have the form
    [msg-<digits>]. *)

From Stdlib Require Export NArith String Ascii Lia.
From stdpp Require Export base list options.

Declare Scope js_scope.
Delimit Scope js_scope with js.

(** A JavaScript string: its UTF-16 code units. *)
Abbreviation jstr := (list N).

(** String literals: [lit "<p>"] is the JavaScript string ['<p>'].  The
    literal is read as UTF-8 and turned into UTF-16 code units, so the
    source's Chinese strings are written as they are; as in JavaScript
    source, the two characters [\n] denote a line feed. *)
Definition utf8_cont (b : ascii) : N := (N_of_ascii b - 128)%N.

Definition utf16_of_code_point (cp : N) : jstr :=
  if (cp <? 0x10000)%N then [cp]
  else [(0xD800 + (cp - 0x10000) / 0x400)%N; (0xDC00 + (cp - 0x10000) mod 0x400)%N].

Fixpoint lit_units (l : list ascii) : jstr :=
  match l with
  | [] => []
  | "\"%char :: "n"%char :: l' => 10%N :: lit_units l'
  | a :: l' =>
      let n := N_of_ascii a in
      if (n <? 128)%N then n :: lit_units l'
      else if (n <? 224)%N then
        match l' with
        | b :: l'' => utf16_of_code_point ((n - 192) * 64 + utf8_cont b)%N ++ lit_units l''
        | [] => []
        end
      else if (n <? 240)%N then
        match l' with
        | b :: c :: l'' =>
            utf16_of_code_point ((n - 224) * 4096 + utf8_cont b * 64 + utf8_cont c)%N
              ++ lit_units l''
        | _ => []
        end
      else
        match l' with
        | b :: c :: d :: l'' =>
            utf16_of_code_point ((n - 240) * 262144 + utf8_cont b * 4096 + utf8_cont c * 64
                                 + utf8_cont d)%N ++ lit_units l''
        | _ => []
        end
  end.

Definition lit (s : string) : jstr := lit_units (list_ascii_of_string s).

(** The code unit of one ASCII character. *)
Definition ch (a : ascii) : N := N_of_ascii a.


(** ** Character classes of ECMA-262 *)

(** LineTerminator: LF, CR, LS, PS. *)
Definition is_line_terminator (c : N) : bool :=
  (c =? 10)%N || (c =? 13)%N || (c =? 0x2028)%N || (c =? 0x2029)%N.

(** WhiteSpace: TAB, VT, FF, SP, NBSP, ZWNBSP and the Zs category. *)
Definition is_whitespace (c : N) : bool :=
  (c =? 9)%N || (c =? 11)%N || (c =? 12)%N || (c =? 32)%N || (c =? 0xA0)%N
  || (c =? 0xFEFF)%N || (c =? 0x1680)%N || ((0x2000 <=? c)%N && (c <=? 0x200A)%N)
  || (c =? 0x202F)%N || (c =? 0x205F)%N || (c =? 0x3000)%N.

(** [\s] of a regular expression, and the code units [trim] removes. *)
Definition is_space (c : N) : bool := is_whitespace c || is_line_terminator c.

(** [\d] and [\w]. *)
Definition is_digit (c : N) : bool := (48 <=? c)%N && (c <=? 57)%N.

Definition is_word (c : N) : bool :=
  ((97 <=? c)%N && (c <=? 122)%N) || ((65 <=? c)%N && (c <=? 90)%N)
  || is_digit c || (c =? 95)%N.

(** [.] without the dotAll flag: anything but a line terminator. *)
Definition is_dot (c : N) : bool := negb (is_line_terminator c).

(** [s] contains no code unit satisfying [p]. *)
Definition avoids (p : N -> bool) (s : jstr) : bool := forallb (fun c => negb (p c)) s.

(** [pre] is a prefix of [s]. *)
Fixpoint is_prefix (pre s : jstr) : bool :=
  match pre, s with
  | [], _ => true
  | a :: pre', b :: s' => (a =? b)%N && is_prefix pre' s'
  | _ :: _, [] => false
  end.

(** ** Automation *)

Create HintDb jsdb.
Create Rewrite HintDb jsrw.

(** Close a goal about concrete strings by evaluation. *)
Ltac js_eval := vm_compute; reflexivity.

(** [Forall P l] for a concrete list: the list is computed first, then
    each instance of [P] by itself, so that [P] is never normalised under
    its binder. *)
Ltac forall_vm :=
  lazymatch goal with
  | |- Forall _ ?l =>
      let l' := eval vm_compute in l in
      replace l with l' by js_eval;
      repeat (constructor; [js_eval|]); constructor
  end.

(** Turn the boolean tests on code units into propositions. *)
Ltac N_bool :=
  repeat match goal with
  | H : (_ =? _)%N = true |- _ => apply N.eqb_eq in H
  | H : (_ =? _)%N = false |- _ => apply N.eqb_neq in H
  | H : (_ <=? _)%N = true |- _ => apply N.leb_le in H
  | H : (_ <=? _)%N = false |- _ => apply N.leb_gt in H
  | H : (_ && _) = true |- _ => apply andb_prop in H as [? ?]
  end.

(** ** Shared lemmas *)

Lemma is_prefix_spec (pre s : jstr) : is_prefix pre s = true <-> exists t, s = pre ++ t.
Proof.
  revert s; induction pre as [|a pre IH]; intros [|b s]; simpl.
  - split; eauto.
  - split; eauto.
  - split; [discriminate | intros [t Ht]; discriminate].
  - rewrite andb_true_iff, N.eqb_eq, IH. split.
    + intros [-> [t ->]]. eauto.
    + intros [t Ht]. injection Ht as -> ->. eauto.
Qed.

Lemma is_prefix_app (pre t : jstr) : is_prefix pre (pre ++ t) = true.
Proof. apply is_prefix_spec. eauto. Qed.

Lemma is_prefix_cons_ne (a c : N) (pre s : jstr) : a <> c -> is_prefix (a :: pre) (c :: s) = false.
Proof. intros H. cbn [is_prefix]. rewrite (proj2 (N.eqb_neq a c) H). reflexivity. Qed.

Lemma avoids_app (p : N -> bool) (s t : jstr) : avoids p (s ++ t) = avoids p s && avoids p t.
Proof. unfold avoids. apply forallb_app. Qed.

Lemma avoids_cons (p : N -> bool) (c : N) (s : jstr) :
  avoids p (c :: s) = negb (p c) && avoids p s.
Proof. reflexivity. Qed.

Lemma avoids_spec (p : N -> bool) (s : jstr) :
  avoids p s = true <-> Forall (fun c => p c = false) s.
Proof.
  unfold avoids. rewrite forallb_forall, List.Forall_forall.
  split; intros H c Hc; specialize (H c Hc); destruct (p c); simpl in *; congruence.
Qed.

(** A text that avoids a class avoids every smaller class. *)
Lemma avoids_weaken (p q : N -> bool) (s : jstr) :
  (forall c, p c = true -> q c = true) -> avoids q s = true -> avoids p s = true.
Proof.
  intros Hpq. rewrite !avoids_spec. apply List.Forall_impl.
  intros c Hq. destruct (p c) eqn:E; [by rewrite (Hpq c E) in Hq | done].
Qed.

#[export] Hint Rewrite avoids_app avoids_cons : jsrw.
#[export] Hint Resolve is_prefix_app : jsdb.
