(* ===== verification/JsString.v ===== *)
(** * String and Array built-ins called by [src/ai-assistant.js]

    Each definition follows the algorithm of ECMA-262 for the built-in, on
    strings of UTF-16 code units: [String.prototype.split] with a string
    separator, [Array.prototype.join], [String.prototype.trim],
    [startsWith], [endsWith], [substring], [StringIndexOf], the
    [GetSubstitution] algorithm that interprets a replacement string, and
    [String.prototype.replace] with a string pattern.  The lemmas are the
    facts the renderer's proofs share: split and join are inverse, a
    separator never occurs inside a piece, and a replacement string with no
    [$] is inserted verbatim. *)

From S2P Require Import Prelude.

(** ** [String.prototype.split] with a non-empty string separator *)

(** The scan of ECMA-262: the current piece grows until the separator
    occurs at the scan position; the separator is then skipped and a new
    piece begins.  The fuel bounds the number of scan steps; [js_split]
    gives one more than the length of the string, which is enough
    ([split_go_fuel]). *)
Fixpoint split_go (fuel : nat) (sep s cur : jstr) : list jstr :=
  match fuel with
  | 0 => [cur ++ s]
  | S f =>
      match s with
      | [] => [cur]
      | c :: s' =>
          if is_prefix sep s then cur :: split_go f sep (drop (length sep) s) []
          else split_go f sep s' (cur ++ [c])
      end
  end.

(** [s.split(sep)]; an empty separator splits into code units. *)
Definition js_split (s sep : jstr) : list jstr :=
  match sep with
  | [] => map (fun c => [c]) s
  | _ :: _ => split_go (S (length s)) sep s []
  end.

(** [arr.join(sep)]. *)
Fixpoint js_join (sep : jstr) (l : list jstr) : jstr :=
  match l with
  | [] => []
  | [x] => x
  | x :: l' => x ++ sep ++ js_join sep l'
  end.

(** ** Trimming and prefix tests *)

Fixpoint trim_start (s : jstr) : jstr :=
  match s with
  | [] => []
  | c :: s' => if is_space c then trim_start s' else s
  end.

(** [s.trim()]: TrimString with where = start+end. *)
Definition js_trim (s : jstr) : jstr := rev (trim_start (rev (trim_start s))).

(** [s.startsWith(p)] and [s.endsWith(p)]. *)
Definition starts_with (s p : jstr) : bool := is_prefix p s.
Definition ends_with (s p : jstr) : bool := is_prefix (rev p) (rev s).

(** [s.substring(a, b)]: both ends clamped to the length, then ordered. *)
Definition substring (s : jstr) (a b : nat) : jstr :=
  let a' := Nat.min a (length s) in
  let b' := Nat.min b (length s) in
  take (Nat.max a' b' - Nat.min a' b') (drop (Nat.min a' b') s).

(** ** [StringIndexOf] *)

Fixpoint index_from (pat s : jstr) (i : nat) : option nat :=
  if is_prefix pat s then Some i
  else match s with
       | [] => None
       | _ :: s' => index_from pat s' (S i)
       end.

Definition string_index_of (s pat : jstr) (from : nat) : option nat :=
  if from <=? length s then index_from pat (drop from s) from else None.

(** ** [Number.prototype.toString] on the non-negative integers *)

Fixpoint dec_go (fuel : nat) (n : N) (acc : jstr) : jstr :=
  match fuel with
  | 0 => acc
  | S f =>
      let acc' := (48 + n mod 10)%N :: acc in
      if (n <? 10)%N then acc' else dec_go f (n / 10)%N acc'
  end.

(** The decimal digits of [n]; [N.size_nat n] bounds their number. *)
Definition N_to_string (n : N) : jstr := dec_go (S (N.size_nat n)) n [].

Definition number_to_string (n : nat) : jstr := N_to_string (N.of_nat n).

(** ** [GetSubstitution] *)

Section GetSubstitution.
(** The matched substring, the whole string, the match position and the
    captures of the match; [namedCaptures] is undefined throughout the
    source, so [$<] is a literal. *)
Variables (matched str : jstr) (position : nat) (captures : list (option jstr)).

Definition dollar : N := 36.

(** The text of capture [i] (1-based); an undefined capture is empty. *)
Definition capture_text (i : nat) : jstr :=
  match nth_error captures (pred i) with
  | Some (Some t) => t
  | _ => []
  end.

Definition digit_value (d : N) : nat := N.to_nat (d - 48).

Fixpoint get_substitution (template : jstr) : jstr :=
  match template with
  | [] => []
  | c :: rest =>
      if negb (c =? dollar)%N then c :: get_substitution rest
      else
        match rest with
        | [] => [dollar]
        | d :: rest' =>
            if (d =? dollar)%N then dollar :: get_substitution rest'
            else if (d =? ch "&")%N then matched ++ get_substitution rest'
            else if (d =? ch "`")%N then take position str ++ get_substitution rest'
            else if (d =? ch "'")%N then
              drop (Nat.min (position + length matched) (length str)) str
                ++ get_substitution rest'
            else if is_digit d then
              match rest' with
              | e :: rest'' =>
                  if is_digit e then
                    let index := 10 * digit_value d + digit_value e in
                    if length captures <? index then
                      (* the two-digit reference is read as one digit *)
                      let index1 := digit_value d in
                      if (1 <=? index1) && (index1 <=? length captures)
                      then capture_text index1 ++ get_substitution rest'
                      else [dollar; d] ++ get_substitution rest'
                    else if 1 <=? index then capture_text index ++ get_substitution rest''
                    else [dollar; d; e] ++ get_substitution rest''
                  else
                    let index := digit_value d in
                    if (1 <=? index) && (index <=? length captures)
                    then capture_text index ++ get_substitution rest'
                    else [dollar; d] ++ get_substitution rest'
              | [] =>
                  let index := digit_value d in
                  if (1 <=? index) && (index <=? length captures)
                  then capture_text index
                  else [dollar; d]
              end
            else dollar :: get_substitution rest
        end
  end.
End GetSubstitution.

(** ** [String.prototype.replace] with a string pattern *)

(** [s.replace(pat, repl)]: only the first occurrence is replaced, and the
    replacement string goes through [GetSubstitution] with no captures. *)
Definition str_replace (s pat repl : jstr) : jstr :=
  match string_index_of s pat 0 with
  | None => s
  | Some pos =>
      take pos s ++ get_substitution pat s pos [] repl ++ drop (pos + length pat) s
  end.

(** ** Lemmas *)

(** Prepend [cur] to the first piece of a split. *)
Definition prepend_head (cur : jstr) (l : list jstr) : list jstr :=
  match l with
  | [] => []
  | x :: l' => (cur ++ x) :: l'
  end.

Lemma split_go_nonempty f sep s cur : split_go f sep s cur <> [].
Proof.
  revert s cur; induction f as [|f IH]; intros [|c s] cur; simpl; try discriminate.
  destruct (is_prefix sep (c :: s)); [discriminate | apply IH].
Qed.

Lemma js_join_cons sep x l : l <> [] -> js_join sep (x :: l) = x ++ sep ++ js_join sep l.
Proof. destruct l; [congruence | reflexivity]. Qed.

Lemma split_go_cur f sep s cur cur' :
  split_go f sep s (cur ++ cur') = prepend_head cur (split_go f sep s cur').
Proof.
  revert s cur'; induction f as [|f IH]; intros [|c s] cur'; simpl;
    rewrite ?app_assoc; try reflexivity.
  destruct (is_prefix sep (c :: s)); [reflexivity|].
  rewrite <- app_assoc. apply IH.
Qed.

(** Enough fuel: one more step changes nothing. *)
Lemma split_go_fuel f sep s cur :
  sep <> [] -> length s < f -> split_go f sep s cur = split_go (S f) sep s cur.
Proof.
  intros Hsep. revert s cur; induction f as [|f IH]; intros s cur Hlen; [lia|].
  destruct s as [|c s]; [reflexivity|].
  simpl. destruct (is_prefix sep (c :: s)) eqn:Hp.
  - f_equal. apply IH. rewrite length_drop. destruct sep; [congruence|]. simpl in *. lia.
  - apply IH. simpl in Hlen. lia.
Qed.

Lemma split_go_fuel_ge f g sep s cur :
  sep <> [] -> length s < f -> f <= g -> split_go f sep s cur = split_go g sep s cur.
Proof.
  intros Hsep Hf Hg. induction Hg as [|g Hg IH]; [reflexivity|].
  rewrite IH. apply split_go_fuel; [done | lia].
Qed.

(** The equations of [js_split] on a non-empty separator. *)
Lemma js_split_go sep s : sep <> [] -> js_split s sep = split_go (S (length s)) sep s [].
Proof. destruct sep; [congruence | reflexivity]. Qed.

Lemma js_split_nil sep : sep <> [] -> js_split [] sep = [[]].
Proof. intros H. rewrite js_split_go by done. reflexivity. Qed.

Lemma split_go_step f sep c s cur :
  split_go (S f) sep (c :: s) cur =
    if is_prefix sep (c :: s) then cur :: split_go f sep (drop (length sep) (c :: s)) []
    else split_go f sep s (cur ++ [c]).
Proof. reflexivity. Qed.

Lemma js_split_cons sep c s :
  sep <> [] ->
  js_split (c :: s) sep =
    if is_prefix sep (c :: s) then [] :: js_split (drop (length sep) (c :: s)) sep
    else prepend_head [c] (js_split s sep).
Proof.
  intros Hsep. rewrite !js_split_go by done. rewrite split_go_step.
  destruct (is_prefix sep (c :: s)) eqn:Hp.
  - f_equal. destruct sep as [|a sep']; [congruence|].
    symmetry. apply split_go_fuel_ge; [done| |]; rewrite ?length_drop; simpl; lia.
  - rewrite <- split_go_cur. reflexivity.
Qed.

(** Splitting then joining with the same separator gives the string back. *)
Lemma split_go_join f sep s cur : js_join sep (split_go f sep s cur) = cur ++ s.
Proof.
  revert s cur; induction f as [|f IH]; intros [|c s] cur; simpl;
    rewrite ?app_nil_r; try reflexivity.
  destruct (is_prefix sep (c :: s)) eqn:Hp.
  - rewrite js_join_cons by apply split_go_nonempty. rewrite IH.
    apply is_prefix_spec in Hp as [t Ht]. rewrite Ht, drop_app_length. simpl.
    rewrite <- Ht. reflexivity.
  - rewrite IH, <- app_assoc. reflexivity.
Qed.

Lemma js_join_singletons sep (s : jstr) : sep = [] -> js_join sep (map (fun c => [c]) s) = s.
Proof. intros ->. induction s as [|c [|d s] IH]; simpl in *; try rewrite IH; reflexivity. Qed.

(** A replacement string with no [$] is inserted verbatim. *)
Lemma get_substitution_plain m str pos caps t :
  avoids (fun c => (c =? dollar)%N) t = true -> get_substitution m str pos caps t = t.
Proof.
  induction t as [|c t IH]; simpl; [done|].
  intros [Hc Ht]%andb_prop. destruct (c =? dollar)%N; [discriminate|]. simpl.
  rewrite IH; done.
Qed.

Lemma index_from_spec pat s i j :
  index_from pat s i = Some j ->
  i <= j /\ is_prefix pat (drop (j - i) s) = true
  /\ forall k, k < j - i -> is_prefix pat (drop k s) = false.
Proof.
  revert i; induction s as [|c s IH]; intros i; simpl.
  - destruct (is_prefix pat []) eqn:Hp; intros H; inversion H; subst.
    rewrite Nat.sub_diag. split; [lia | split; [done | intros; lia]].
  - destruct (is_prefix pat (c :: s)) eqn:Hp; intros H.
    + inversion H; subst. rewrite Nat.sub_diag. split; [lia | split; [done | intros; lia]].
    + destruct (IH _ H) as (Hij & Hpre & Hmin).
      split; [lia|]. replace (j - i) with (S (j - S i)) by lia. split; [done|].
      intros [|k] Hk; [done|]. apply Hmin. lia.
Qed.

(** [replace] with a string pattern that does not occur changes nothing. *)
Lemma str_replace_absent s pat repl :
  string_index_of s pat 0 = None -> str_replace s pat repl = s.
Proof. unfold str_replace. intros ->. reflexivity. Qed.

(** Splitting then joining with the same separator gives the string back. *)
Lemma js_join_split sep s : js_join sep (js_split s sep) = s.
Proof.
  unfold js_split. destruct sep as [|a sep'].
  - by apply js_join_singletons.
  - apply split_go_join.
Qed.

(** [join('')] is concatenation. *)
Lemma js_join_nil_sep (l : list jstr) : js_join [] l = concat l.
Proof. induction l as [|x [|y l] IH]; simpl in *; rewrite ?app_nil_r; try rewrite IH; reflexivity. Qed.

Lemma index_from_first pat s i j :
  is_prefix pat (drop j s) = true -> (forall k, k < j -> is_prefix pat (drop k s) = false) ->
  index_from pat s i = Some (i + j).
Proof.
  revert i j; induction s as [|c s IH]; intros i j Hj Hmin; simpl.
  - destruct j as [|j]; [rewrite Nat.add_0_r; simpl in Hj; by rewrite Hj|].
    specialize (Hmin 0 (Nat.lt_0_succ j)). simpl in Hmin.
    simpl in Hj. rewrite Hmin in Hj. discriminate.
  - destruct j as [|j].
    + simpl in Hj. rewrite Hj, Nat.add_0_r. reflexivity.
    + pose proof (Hmin 0 (Nat.lt_0_succ j)) as H0. simpl in H0. rewrite H0.
      rewrite IH with (j := j); [f_equal; lia | done |].
      intros k Hk. apply (Hmin (S k)). lia.
Qed.

(** [s.replace(pat, repl)] where [pat] first occurs after [a] and [repl]
    has no [$] puts [repl] in its place. *)
Lemma str_replace_first_plain a pat b repl :
  (forall k, k < length a -> is_prefix pat (drop k (a ++ pat ++ b)) = false) ->
  avoids (fun c => (c =? dollar)%N) repl = true ->
  str_replace (a ++ pat ++ b) pat repl = a ++ repl ++ b.
Proof.
  intros Hmin Hrepl. unfold str_replace, string_index_of. simpl.
  rewrite (index_from_first pat _ 0 (length a)).
  - simpl. rewrite get_substitution_plain by done.
    rewrite take_app_length. f_equal. f_equal.
    replace (length a + length pat) with (length (a ++ pat)) by (rewrite length_app; lia).
    rewrite (app_assoc a pat b). apply drop_app_length.
  - rewrite drop_0, drop_app_length. apply is_prefix_app.
  - rewrite drop_0. exact Hmin.
Qed.

(** [s.substring(0, n)] is the first [n] code units. *)
Lemma substring_0 s n : substring s 0 n = take n s.
Proof.
  unfold substring. rewrite Nat.min_0_l, drop_0, Nat.sub_0_r.
  destruct (Nat.le_ge_cases n (length s)).
  - rewrite Nat.min_l, Nat.max_r by lia. reflexivity.
  - rewrite Nat.min_r, Nat.max_r, take_ge by lia; rewrite ?take_ge; try lia. reflexivity.
Qed.

(** A string that begins and ends with a non-space code unit is its own
    trim. *)
Lemma js_trim_fixed a m b :
  is_space a = false -> is_space b = false -> js_trim (a :: m ++ [b]) = a :: m ++ [b].
Proof.
  intros Ha Hb. unfold js_trim. cbn [trim_start]. rewrite Ha, app_comm_cons, rev_app_distr.
  change (rev [b]) with [b]. cbn [app trim_start]. rewrite Hb.
  change (b :: rev (a :: m)) with (rev [b] ++ rev (a :: m)).
  by rewrite <- rev_app_distr, rev_involutive.
Qed.

(** A string without the first code unit of the separator is one piece. *)
Lemma js_split_avoid c0 sep' s :
  avoids (fun d => (d =? c0)%N) s = true -> js_split s (c0 :: sep') = [s].
Proof.
  induction s as [|c s IH]; intros H; [reflexivity|].
  rewrite avoids_cons in H. apply andb_prop in H as [Hc H].
  rewrite js_split_cons by done. rewrite is_prefix_cons_ne.
  - by rewrite IH.
  - intros ->. by rewrite N.eqb_refl in Hc.
Qed.

Lemma trim_start_snoc l c :
  is_space c = false -> exists l', trim_start (l ++ [c]) = l' ++ [c].
Proof.
  intros Hc. induction l as [|d l IH]; cbn [app trim_start].
  - rewrite Hc. by exists [].
  - destruct (is_space d); [done|]. by exists (d :: l).
Qed.

(** Trimming keeps a first code unit that is not white space. *)
Lemma js_trim_head c s : is_space c = false -> exists t, js_trim (c :: s) = c :: t.
Proof.
  intros Hc. unfold js_trim. cbn [trim_start]. rewrite Hc. cbn [rev].
  destruct (trim_start_snoc (rev s) c Hc) as [l' ->]. rewrite rev_app_distr. by exists (rev l').
Qed.
