(* ===== verification/JsRegExp.v ===== *)
(** * ECMAScript regular expressions, as far as [src/ai-assistant.js] uses them

    The source performs its markdown conversion with regular-expression
    literals and [String.prototype.replace], [match] and [test].  This file
    gives the pattern semantics of ECMA-262 section 22.2.2 for the fragment
    those literals use: the matcher [m] takes a state (end index and
    captures) and a continuation, exactly as the standard's Matcher and
    MatcherContinuation do, so that backtracking, greedy and lazy
    quantifiers and the empty-iteration check of RepeatMatcher behave as in
    a JavaScript engine.  [builtin_exec] is RegExpBuiltinExec (the search
    for the leftmost match from lastIndex), [regexp_matches] is the loop of
    [RegExp.prototype[@@replace]] that collects the matches of a global
    expression, and [replace_st] is its accumulation of the result, calling
    the replacer once per match in order and threading the replacer's state.

    RepeatMatcher is a recursion bounded by fuel: each iteration either
    lowers the minimum count or, by the empty-iteration check, advances the
    end index, so [S min + S (length input - endIndex)] iterations are
    enough; the collection loop of [@@replace] strictly advances lastIndex,
    so [length input + 2] iterations are enough. *)

From S2P Require Import Prelude JsString.

(** ** Syntax *)

Inductive regex : Type :=
  | RChar (p : N -> bool)      (** a pattern character, [.], an escape or a class *)
  | REmpty                     (** the empty alternative *)
  | RSeq (r1 r2 : regex)       (** Alternative: a term followed by a term *)
  | RAlt (r1 r2 : regex)       (** Disjunction [r1|r2] *)
  | RGroup (n : nat) (r : regex)  (** the capturing group number [n] (from 1) *)
  | RBol                       (** the assertion [^] *)
  | REol                       (** the assertion [$] *)
  | RRepeat (min : nat) (max : option nat) (greedy : bool)
            (parenIndex parenCount : nat) (r : regex).
            (** a quantified atom; [None] is an unbounded maximum;
                [parenIndex] counts the groups to its left and
                [parenCount] the groups inside it *)

(** The usual quantifiers of an atom without groups inside. *)
Definition RStar (r : regex) : regex := RRepeat 0 None true 0 0 r.
Definition RStarLazy (r : regex) : regex := RRepeat 0 None false 0 0 r.
Definition RPlus (r : regex) : regex := RRepeat 1 None true 0 0 r.
Definition RPlusLazy (r : regex) : regex := RRepeat 1 None false 0 0 r.

(** A sequence of atoms. *)
Fixpoint RCat (rs : list regex) : regex :=
  match rs with
  | [] => REmpty
  | [r] => r
  | r :: rs' => RSeq r (RCat rs')
  end.

(** A string of pattern characters. *)
Definition RLit (s : jstr) : regex := RCat (map (fun c => RChar (fun d => (d =? c)%N)) s).

(** A regular expression object: its pattern, the number of its capturing
    groups and the flags [g] and [m]. *)
Record RegExp := mkRegExp {
  re_body : regex;
  re_ncaps : nat;
  re_global : bool;
  re_multiline : bool
}.

(** ** Well-formed patterns *)

(** The group numbers of a pattern, in the order of their opening
    parentheses. *)
Fixpoint groups (r : regex) : list nat :=
  match r with
  | RGroup n r1 => n :: groups r1
  | RSeq r1 r2 | RAlt r1 r2 => groups r1 ++ groups r2
  | RRepeat _ _ _ _ _ r1 => groups r1
  | _ => []
  end.

(** Each quantifier's [parenIndex] and [parenCount] name the groups of its
    atom: [parenIndex + 1] .. [parenIndex + parenCount]. *)
Fixpoint repeats_ok (r : regex) : bool :=
  match r with
  | RGroup _ r1 => repeats_ok r1
  | RSeq r1 r2 | RAlt r1 r2 => repeats_ok r1 && repeats_ok r2
  | RRepeat _ _ _ pi pc r1 => bool_decide (groups r1 = seq (S pi) pc) && repeats_ok r1
  | _ => true
  end.

(** The groups are numbered [1] .. [re_ncaps] from left to right, as
    the parser of ECMA-262 numbers them, and the quantifiers agree. *)
Definition re_wf (rx : RegExp) : bool :=
  bool_decide (groups (re_body rx) = seq 1 (re_ncaps rx)) && repeats_ok (re_body rx).

(** ** Pattern semantics *)

(** The maximum count of a quantifier is 0. *)
Definition max_is_zero (mx : option nat) : bool :=
  match mx with
  | Some 0 => true
  | _ => false
  end.

Record MatchState := mkState {
  endIndex : nat;
  captures : list (option (nat * nat))   (** capture [k] at position [k - 1] *)
}.

Section Matcher.
Variables (input : jstr) (multiline : bool).

Definition char_at (i : nat) : option N := nth_error input i.

Definition at_line_start (e : nat) : bool :=
  match e with
  | 0 => true
  | S e' => multiline && match char_at e' with Some c => is_line_terminator c | None => false end
  end.

Definition at_line_end (e : nat) : bool :=
  (e =? length input) || (multiline && match char_at e with Some c => is_line_terminator c | None => false end).

(** Set the captures [parenIndex + 1 .. parenIndex + parenCount] to undefined. *)
Definition reset_captures (pi pc : nat) (caps : list (option (nat * nat))) :=
  imap (fun k v => if (pi <=? k) && (k <? pi + pc) then None else v) caps.

(** RepeatMatcher(m, min, max, greedy, x, c, parenIndex, parenCount) of
    ECMA-262, for the matcher [mr] of the quantified atom.  [fuel] bounds
    the iterations (see [repeat_matcher_fuel]). *)
Fixpoint repeat_matcher (mr : MatchState -> (MatchState -> option MatchState) -> option MatchState)
    (c : MatchState -> option MatchState) (greedy : bool) (pi pc : nat)
    (fuel mn : nat) (mx : option nat) (x : MatchState) : option MatchState :=
  match fuel with
  | 0 => None
  | S fuel' =>
      if max_is_zero mx then c x else
      let d := fun y =>
        if (mn =? 0) && (endIndex y =? endIndex x) then None
        else repeat_matcher mr c greedy pi pc fuel' (pred mn) (option_map pred mx) y in
      let xr := mkState (endIndex x) (reset_captures pi pc (captures x)) in
      if negb (mn =? 0) then mr xr d
      else if greedy then
        match mr xr d with
        | Some z => Some z
        | None => c x
        end
      else
        match c x with
        | Some z => Some z
        | None => mr xr d
        end
  end.

(** The fuel given to RepeatMatcher: each iteration lowers the minimum or
    advances the end index. *)
Definition repeat_fuel (mn : nat) (x : MatchState) : nat := S mn + S (length input - endIndex x).

Fixpoint m (r : regex) (x : MatchState) (c : MatchState -> option MatchState)
    {struct r} : option MatchState :=
  match r with
  | RChar p =>
      match char_at (endIndex x) with
      | Some ch => if p ch then c (mkState (S (endIndex x)) (captures x)) else None
      | None => None
      end
  | REmpty => c x
  | RSeq r1 r2 => m r1 x (fun y => m r2 y c)
  | RAlt r1 r2 =>
      match m r1 x c with
      | Some z => Some z
      | None => m r2 x c
      end
  | RGroup n r1 =>
      m r1 x (fun y =>
        c (mkState (endIndex y) (<[pred n := Some (endIndex x, endIndex y)]> (captures y))))
  | RBol => if at_line_start (endIndex x) then c x else None
  | REol => if at_line_end (endIndex x) then c x else None
  | RRepeat mn mx greedy pi pc r1 =>
      repeat_matcher (m r1) c greedy pi pc (repeat_fuel mn x) mn mx x
  end.
End Matcher.

(** ** [RegExpBuiltinExec] *)

Record MatchResult := mkResult {
  mr_index : nat;                        (** where the match starts *)
  mr_end : nat;                          (** where it ends *)
  mr_caps : list (option (nat * nat))
}.

(** The matcher run at index [i] with all captures undefined. *)
Definition match_at (rx : RegExp) (input : jstr) (i : nat) : option MatchState :=
  m input (re_multiline rx) (re_body rx) (mkState i (repeat None (re_ncaps rx))) Some.

(** Try the indices [i], [i + 1], ... for [k] steps. *)
Fixpoint search (rx : RegExp) (input : jstr) (i k : nat) : option MatchResult :=
  match k with
  | 0 => None
  | S k' =>
      match match_at rx input i with
      | Some y => Some (mkResult i (endIndex y) (captures y))
      | None => search rx input (S i) k'
      end
  end.

(** RegExpBuiltinExec from [lastIndex]: fails beyond the end of the input. *)
Definition builtin_exec (rx : RegExp) (input : jstr) (lastIndex : nat) : option MatchResult :=
  if length input <? lastIndex then None
  else search rx input lastIndex (S (length input - lastIndex)).

(** [str.match(rx)] and [rx.test(str)] for a non-global [rx]: lastIndex is 0. *)
Definition regexp_exec (rx : RegExp) (input : jstr) : option MatchResult := builtin_exec rx input 0.
Definition regexp_test (rx : RegExp) (input : jstr) : bool := if regexp_exec rx input is Some _ then true else false.

(** The text of a match and of its captures. *)
Definition slice (input : jstr) (i j : nat) : jstr := take (j - i) (drop i input).
Definition matched_text (input : jstr) (r : MatchResult) : jstr := slice input (mr_index r) (mr_end r).
Definition capture_texts (input : jstr) (r : MatchResult) : list (option jstr) :=
  map (option_map (fun '(i, j) => slice input i j)) (mr_caps r).

(** The text of capture [k] of a match, undefined as the empty string. *)
Definition group_text (input : jstr) (r : MatchResult) (k : nat) : jstr :=
  capture_text (capture_texts input r) k.

(** ** [RegExp.prototype[@@replace]] *)

(** The loop collecting the matches of a global expression: after an empty
    match lastIndex is advanced by one. *)
Fixpoint collect (fuel : nat) (rx : RegExp) (input : jstr) (lastIndex : nat) : list MatchResult :=
  match fuel with
  | 0 => []
  | S f =>
      match builtin_exec rx input lastIndex with
      | None => []
      | Some r =>
          r :: collect f rx input (if mr_end r =? mr_index r then S (mr_end r) else mr_end r)
      end
  end.

Definition regexp_matches (rx : RegExp) (input : jstr) : list MatchResult :=
  if re_global rx then collect (S (S (length input))) rx input 0
  else match regexp_exec rx input with
       | Some r => [r]
       | None => []
       end.

Section Replace.
Context {St : Type}.

(** The accumulation: each match's replacement is computed, in order,
    and the text between matches is copied. *)
Fixpoint accumulate (input : jstr) (repl : St -> MatchResult -> St * jstr)
    (results : list MatchResult) (next : nat) (acc : jstr) (st : St) : jstr * St :=
  match results with
  | [] => (acc ++ drop next input, st)
  | r :: rs =>
      let '(st', replacement) := repl st r in
      let position := Nat.min (mr_index r) (length input) in
      if next <=? position then
        accumulate input repl rs (position + (mr_end r - mr_index r))
          (acc ++ slice input next position ++ replacement) st'
      else accumulate input repl rs next acc st'
  end.

(** [str.replace(rx, fn)] where [fn] updates a state: it receives the
    matched text, the captures and the position. *)
Definition replace_st (rx : RegExp) (input : jstr)
    (fn : St -> jstr -> list (option jstr) -> nat -> St * jstr) (st : St) : jstr * St :=
  accumulate input
    (fun st r => fn st (matched_text input r) (capture_texts input r) (mr_index r))
    (regexp_matches rx input) 0 [] st.
End Replace.

(** [str.replace(rx, fn)] with a function without state. *)
Definition replace_fn (rx : RegExp) (input : jstr)
    (fn : jstr -> list (option jstr) -> nat -> jstr) : jstr :=
  fst (replace_st rx input (fun st mt caps pos => (st, fn mt caps pos)) tt).

(** [str.replace(rx, template)]: the template goes through GetSubstitution. *)
Definition replace_tpl (rx : RegExp) (input : jstr) (template : jstr) : jstr :=
  replace_fn rx input (fun mt caps pos => get_substitution mt input pos caps template).

(** ** Lemmas on the search and the replacement loop *)

Lemma search_index rx input i k r :
  search rx input i k = Some r -> i <= mr_index r < i + k.
Proof.
  revert i; induction k as [|k IH]; intros i; simpl; [discriminate|].
  destruct (match_at rx input i); [intros H; inversion H; simpl; lia|].
  intros H. apply IH in H. lia.
Qed.

Lemma builtin_exec_index rx input li r :
  builtin_exec rx input li = Some r -> li <= mr_index r <= length input.
Proof.
  unfold builtin_exec. destruct (length input <? li) eqn:E; [discriminate|].
  apply Nat.ltb_ge in E. intros H. apply search_index in H. lia.
Qed.

(** One step of the search: a failure at [li] moves on to [S li]. *)
Lemma builtin_exec_skip rx input li :
  li < length input -> match_at rx input li = None ->
  builtin_exec rx input li = builtin_exec rx input (S li).
Proof.
  intros Hli Hm. unfold builtin_exec.
  destruct (length input <? li) eqn:E1; [apply Nat.ltb_lt in E1; lia|].
  destruct (length input <? S li) eqn:E2; [apply Nat.ltb_lt in E2; lia|].
  replace (S (length input - li)) with (S (S (length input - S li))) by lia.
  simpl. rewrite Hm. reflexivity.
Qed.

Lemma builtin_exec_hit rx input li y :
  li <= length input -> match_at rx input li = Some y ->
  builtin_exec rx input li = Some (mkResult li (endIndex y) (captures y)).
Proof.
  intros Hli Hm. unfold builtin_exec.
  destruct (length input <? li) eqn:E1; [apply Nat.ltb_lt in E1; lia|].
  simpl. rewrite Hm. reflexivity.
Qed.

(** If the matcher fails at every index from [li] on, so does the search. *)
Lemma builtin_exec_none rx input li :
  (forall i, li <= i <= length input -> match_at rx input i = None) ->
  builtin_exec rx input li = None.
Proof.
  intros H. unfold builtin_exec.
  destruct (length input <? li) eqn:E; [reflexivity|]. apply Nat.ltb_ge in E.
  remember (S (length input - li)) as k eqn:Hk. revert li E H Hk.
  induction k as [|k IH]; intros li E H Hk; simpl; [reflexivity|].
  rewrite H by lia. destruct (decide (li = length input)) as [->|Hne].
  - replace k with 0 by lia. reflexivity.
  - apply IH; [lia | intros; apply H; lia | lia].
Qed.

(** A regular expression that matches nowhere leaves the string as it is. *)
Lemma replace_st_no_match {St} rx input fn (st : St) :
  (forall i, i <= length input -> match_at rx input i = None) ->
  replace_st rx input fn st = (input, st).
Proof.
  intros H. unfold replace_st, regexp_matches, regexp_exec.
  assert (E : builtin_exec rx input 0 = None) by (apply builtin_exec_none; intros; apply H; lia).
  destruct (re_global rx); [cbn [collect]|]; rewrite E; reflexivity.
Qed.

(** ** The matcher only looks forward, and its fuel is enough *)

Section Locality.
Variables (input : jstr) (ml : bool).

(** Two continuations agree on every state from index [lo] to the end. *)
Definition cont_agree (lo : nat) (c1 c2 : MatchState -> option MatchState) : Prop :=
  forall y, lo <= endIndex y <= length input -> c1 y = c2 y.

(** A matcher is local when its result only depends on what its
    continuation does from the current index to the end of the input. *)
Definition matcher_local (mr : MatchState -> (MatchState -> option MatchState) -> option MatchState) :=
  forall x d1 d2, endIndex x <= length input -> cont_agree (endIndex x) d1 d2 -> mr x d1 = mr x d2.

Lemma cont_agree_mono lo lo' c1 c2 : lo <= lo' -> cont_agree lo c1 c2 -> cont_agree lo' c1 c2.
Proof. intros Hle H y Hy. apply H. lia. Qed.

Lemma repeat_matcher_local mr c1 c2 g pi pc f mn mx x :
  matcher_local mr -> endIndex x <= length input -> cont_agree (endIndex x) c1 c2 ->
  repeat_matcher mr c1 g pi pc f mn mx x = repeat_matcher mr c2 g pi pc f mn mx x.
Proof.
  intros Hmr. revert mn mx x; induction f as [|f IH]; intros mn mx x Hx Hc; [reflexivity|].
  cbn [repeat_matcher]. rewrite (Hc x) by lia.
  destruct (max_is_zero mx); [reflexivity|].
  erewrite (Hmr _ _ (fun y => if (mn =? 0) && (endIndex y =? endIndex x) then None
                              else repeat_matcher mr c2 g pi pc f (pred mn) (option_map pred mx) y));
    [reflexivity | exact Hx |].
  intros y Hy. destruct (_ && _); [reflexivity|].
  apply IH; [lia | apply (cont_agree_mono (endIndex x)); [simpl in Hy; lia | exact Hc]].
Qed.

Lemma m_local r : matcher_local (m input ml r).
Proof.
  induction r as [p| |r1 IH1 r2 IH2|r1 IH1 r2 IH2|n r IH| | |mn mx g pi pc r IH];
    intros x c1 c2 Hx Hc; cbn [m].
  - unfold char_at. destruct (nth_error input (endIndex x)) as [ch|] eqn:E; [|reflexivity].
    destruct (p ch); [|reflexivity]. apply Hc. simpl.
    assert (endIndex x < length input) by (apply nth_error_Some; congruence). lia.
  - apply Hc. lia.
  - apply IH1; [done|]. intros y Hy. apply IH2; [lia|].
    apply (cont_agree_mono (endIndex x)); [lia | done].
  - rewrite (IH1 x c1 c2), (IH2 x c1 c2) by done. reflexivity.
  - apply IH; [done|]. intros y Hy. apply Hc. simpl. lia.
  - destruct (at_line_start _ _ _); [apply Hc; lia | reflexivity].
  - destruct (at_line_end _ _ _); [apply Hc; lia | reflexivity].
  - apply repeat_matcher_local; [exact IH | done | done].
Qed.

(** One more iteration of fuel changes nothing once the fuel covers the
    minimum count and the rest of the input. *)
Lemma repeat_matcher_fuel mr c g pi pc f mn mx x :
  matcher_local mr -> endIndex x <= length input ->
  S mn + S (length input - endIndex x) <= f ->
  repeat_matcher mr c g pi pc f mn mx x = repeat_matcher mr c g pi pc (S f) mn mx x.
Proof.
  intros Hmr. revert mn mx x; induction f as [|f IH]; intros mn mx x Hx Hf; [lia|].
  remember (S f) as f' eqn:Ef. cbn [repeat_matcher]. subst f'. cbn [repeat_matcher].
  destruct (max_is_zero mx); [reflexivity|].
  set (d1 := fun y => if (mn =? 0) && (endIndex y =? endIndex x) then None
                      else repeat_matcher mr c g pi pc f (pred mn) (option_map pred mx) y).
  set (d2 := fun y => if (mn =? 0) && (endIndex y =? endIndex x) then None
                      else repeat_matcher mr c g pi pc (S f) (pred mn) (option_map pred mx) y).
  assert (Hd : cont_agree (endIndex x) d1 d2).
  { intros y Hy. unfold d1, d2.
    destruct (mn =? 0) eqn:Emn; destruct (endIndex y =? endIndex x) eqn:Ey; simpl;
      try reflexivity; apply IH; try lia;
      (apply Nat.eqb_eq in Emn || apply Nat.eqb_neq in Emn);
      (apply Nat.eqb_eq in Ey || apply Nat.eqb_neq in Ey); simpl in Hy; lia. }
  rewrite (Hmr _ d1 d2) by (simpl; done || lia). reflexivity.
Qed.

Lemma repeat_matcher_fuel_ge mr c g pi pc f h mn mx x :
  matcher_local mr -> endIndex x <= length input ->
  S mn + S (length input - endIndex x) <= f -> f <= h ->
  repeat_matcher mr c g pi pc f mn mx x = repeat_matcher mr c g pi pc h mn mx x.
Proof.
  intros Hmr Hx Hf Hh. induction Hh as [|h Hh IH]; [reflexivity|].
  rewrite IH. apply repeat_matcher_fuel; [done | done | lia].
Qed.

(** RepeatMatcher never runs out of fuel: running a quantifier with
    any fuel at least [repeat_fuel] gives the matcher's result, so the
    bound chosen in [m] changes nothing. *)
Theorem repeat_fuel_enough mn mx g pi pc r x c f :
  endIndex x <= length input -> repeat_fuel input mn x <= f ->
  m input ml (RRepeat mn mx g pi pc r) x c
    = repeat_matcher (m input ml r) c g pi pc f mn mx x.
Proof.
  intros Hx Hf. cbn [m]. apply repeat_matcher_fuel_ge; [apply m_local | done | | done].
  unfold repeat_fuel. lia.
Qed.

(** The matcher's result is what its continuation returns on a state
    between the current index and the end. *)
Definition matcher_forward (mr : MatchState -> (MatchState -> option MatchState) -> option MatchState) :=
  forall x d z, endIndex x <= length input -> mr x d = Some z ->
  exists y, endIndex x <= endIndex y <= length input /\ d y = Some z.

Lemma repeat_matcher_forward mr c g pi pc f mn mx x z :
  matcher_forward mr -> endIndex x <= length input ->
  repeat_matcher mr c g pi pc f mn mx x = Some z ->
  exists y, endIndex x <= endIndex y <= length input /\ c y = Some z.
Proof.
  intros Hmr. revert mn mx x z; induction f as [|f IH]; intros mn mx x z Hx; [discriminate|].
  cbn [repeat_matcher].
  assert (Hd : forall z', mr (mkState (endIndex x) (reset_captures pi pc (captures x)))
      (fun y => if (mn =? 0) && (endIndex y =? endIndex x) then None
                else repeat_matcher mr c g pi pc f (pred mn) (option_map pred mx) y) = Some z' ->
      exists y, endIndex x <= endIndex y <= length input /\ c y = Some z').
  { intros z' H. apply Hmr in H as (y & Hy & Hdy); [|exact Hx]. simpl in Hy.
    destruct (_ && _); [discriminate|].
    apply IH in Hdy as (y' & Hy' & Hc); [|lia]. exists y'. split; [lia | done]. }
  destruct (max_is_zero mx); [intros H; exists x; split; [lia | done]|].
  destruct (negb (mn =? 0)); [apply Hd|].
  destruct g.
  - destruct (mr _ _) eqn:E; [intros [= <-]; by apply Hd|]. intros H. exists x. split; [lia | done].
  - destruct (c x) eqn:E; [intros [= <-]; exists x; split; [lia | done]|]. apply Hd.
Qed.

Lemma m_forward r : matcher_forward (m input ml r).
Proof.
  induction r as [p| |r1 IH1 r2 IH2|r1 IH1 r2 IH2|n r IH| | |mn mx g pi pc r IH];
    intros x c z Hx; cbn [m].
  - unfold char_at. destruct (nth_error input (endIndex x)) as [ch|] eqn:E; [|discriminate].
    destruct (p ch); [|discriminate]. intros H. eexists; split; [|exact H]. simpl.
    assert (endIndex x < length input) by (apply nth_error_Some; congruence). lia.
  - intros H. exists x. split; [lia | done].
  - intros H. apply IH1 in H as (y & Hy & H); [|done]. apply IH2 in H as (y' & Hy' & H); [|lia].
    exists y'. split; [lia | done].
  - destruct (m input ml r1 x c) eqn:E; [intros [= <-]; by apply (IH1 x c)|]. by apply IH2.
  - intros H. apply IH in H as (y & Hy & H); [|done]. eexists; split; [|exact H]. simpl. lia.
  - destruct (at_line_start _ _ _); [intros H; exists x; split; [lia | done] | discriminate].
  - destruct (at_line_end _ _ _); [intros H; exists x; split; [lia | done] | discriminate].
  - apply repeat_matcher_forward; [exact IH | done].
Qed.

End Locality.

Lemma repeat_fuel_enough_witness :
  m (lit "ab") false (RStar (RChar (fun _ => true))) (mkState 0 []) Some
  = repeat_matcher (m (lit "ab") false (RChar (fun _ => true))) Some true 0 0 10 0 None
      (mkState 0 []).
Proof. apply repeat_fuel_enough; vm_compute; lia. Defined.

(** ** First-character analysis *)

(** A class that the first code unit of every match satisfies, when the
    pattern starts with one (after assertions). *)
Fixpoint first_class (r : regex) : option (N -> bool) :=
  match r with
  | RChar p => Some p
  | RSeq r1 r2 =>
      match first_class r1 with
      | Some p => Some p
      | None => match r1 with
                | RBol | REol => first_class r2
                | _ => None
                end
      end
  | RAlt r1 r2 =>
      match first_class r1, first_class r2 with
      | Some p1, Some p2 => Some (fun c => p1 c || p2 c)
      | _, _ => None
      end
  | RGroup _ r1 => first_class r1
  | RRepeat mn mx _ _ _ r1 =>
      if (1 <=? mn) && negb (max_is_zero mx) then first_class r1 else None
  | _ => None
  end.

Definition fails_first (input : jstr) (p : N -> bool) (e : nat) : Prop :=
  match char_at input e with
  | Some c => p c = false
  | None => True
  end.

Lemma m_first_class input ml r p x c :
  first_class r = Some p -> fails_first input p (endIndex x) -> m input ml r x c = None.
Proof.
  revert p x c; induction r as [q| |r1 IH1 r2 IH2|r1 IH1 r2 IH2|n r IH| | |mn mx g pi pc r IH];
    intros p x c Hf Hfail; cbn [first_class] in Hf; try discriminate.
  - injection Hf as ->. unfold fails_first in Hfail. cbn [m].
    destruct (char_at input (endIndex x)) as [ch|]; [rewrite Hfail|]; reflexivity.
  - cbn [m]. destruct (first_class r1) as [p1|] eqn:E1.
    + injection Hf as <-. apply (IH1 p1); [reflexivity | exact Hfail].
    + destruct r1; cbn [m]; try discriminate.
      * destruct (at_line_start input ml (endIndex x)); [apply (IH2 p) | reflexivity]; assumption.
      * destruct (at_line_end input ml (endIndex x)); [apply (IH2 p) | reflexivity]; assumption.
  - cbn [m]. destruct (first_class r1) as [p1|] eqn:E1; [|discriminate].
    destruct (first_class r2) as [p2|] eqn:E2; [|discriminate].
    injection Hf as <-. unfold fails_first in Hfail.
    rewrite (IH1 p1), (IH2 p2); try reflexivity; unfold fails_first;
      destruct (char_at input (endIndex x)); auto; apply orb_false_iff in Hfail; tauto.
  - cbn [m]. apply (IH p); assumption.
  - destruct mn as [|mn]; [discriminate|].
    destruct mx as [[|k]|]; [discriminate| |]; cbn [m repeat_fuel Nat.add repeat_matcher]; simpl;
      apply (IH p); assumption.
Qed.

(** A global or non-global replacement whose pattern starts with a class
    that no code unit of the string satisfies changes nothing. *)
Lemma replace_st_avoids {St} rx input fn (st : St) p :
  first_class (re_body rx) = Some p -> avoids p input = true ->
  replace_st rx input fn st = (input, st).
Proof.
  intros Hf Hav. apply replace_st_no_match. intros i Hi. unfold match_at.
  apply (m_first_class _ _ _ p); [done|]. unfold fails_first, char_at. simpl.
  destruct (nth_error input i) as [c|] eqn:E; [|done].
  apply avoids_spec in Hav. apply nth_error_In in E.
  rewrite List.Forall_forall in Hav. auto.
Qed.

(** ** A global replacement of a single character class *)

Lemma drop_nth_error (l : jstr) i c : nth_error l i = Some c -> drop i l = c :: drop (S i) l.
Proof.
  revert i; induction l as [|d l IH]; intros [|i] H; simpl in *; try discriminate.
  - injection H as ->. rewrite drop_0. reflexivity.
  - apply IH, H.
Qed.

Lemma collect_head f rx input li :
  match collect f rx input li with
  | [] => True
  | r :: _ => li <= mr_index r <= length input
  end.
Proof.
  destruct f; simpl; [done|].
  destruct (builtin_exec rx input li) eqn:E; [|done]. by apply builtin_exec_index in E.
Qed.

Section CharClass.
Context {St : Type} (input : jstr) (g : jstr -> jstr).

(** The replacer of [replace_fn] with a function of the matched text. *)
Let R : St -> MatchResult -> St * jstr := fun st r => (st, g (matched_text input r)).

(** Copying the code unit at [i] before the next match is the same as
    starting after it. *)
Lemma accumulate_shift rs i c acc (st : St) :
  nth_error input i = Some c ->
  match rs with [] => True | r :: _ => S i <= mr_index r <= length input end ->
  accumulate input R rs i acc st = accumulate input R rs (S i) (acc ++ [c]) st.
Proof.
  intros Hc Hrs. destruct rs as [|r rs]; cbn [accumulate].
  - rewrite (drop_nth_error _ _ _ Hc), <- app_assoc. reflexivity.
  - rewrite Nat.min_l by lia.
    assert (E1 : (i <=? mr_index r) = true) by (apply Nat.leb_le; lia).
    assert (E2 : (S i <=? mr_index r) = true) by (apply Nat.leb_le; lia).
    rewrite E1, E2. f_equal. unfold slice. rewrite (drop_nth_error _ _ _ Hc).
    replace (mr_index r - i) with (S (mr_index r - S i)) by lia.
    simpl. rewrite <- app_assoc. reflexivity.
Qed.

Variables (p : N -> bool) (ml : bool).
Let rx := mkRegExp (RChar p) 0 true ml.

Lemma match_at_char i :
  match_at rx input i =
    match nth_error input i with
    | Some c => if p c then Some (mkState (S i) []) else None
    | None => None
    end.
Proof. unfold match_at. simpl. unfold char_at. destruct (nth_error input i); reflexivity. Qed.

Lemma accumulate_collect_char k i f acc (st : St) :
  length input - i = k -> i <= length input -> length input - i + 2 <= f ->
  fst (accumulate input R (collect f rx input i) i acc st)
    = acc ++ flat_map (fun c => if p c then g [c] else [c]) (drop i input).
Proof.
  revert i f acc st; induction k as [|k IH]; intros i f acc st Hk Hi Hf.
  - assert (i = length input) as -> by lia.
    destruct f as [|f]; [lia|]. simpl.
    rewrite builtin_exec_none; [simpl; rewrite drop_all, !app_nil_r; done|].
    intros j Hj. rewrite match_at_char. rewrite (proj2 (nth_error_None input j)); [done | lia].
  - destruct (nth_error input i) as [c|] eqn:Hc;
      [|apply nth_error_None in Hc; lia].
    destruct f as [|f]; [lia|].
    rewrite (drop_nth_error _ _ _ Hc). simpl flat_map.
    destruct (p c) eqn:Hp.
    + cbn [collect]. rewrite (builtin_exec_hit _ _ _ (mkState (S i) [])) by
        (lia || (rewrite match_at_char, Hc, Hp; reflexivity)).
      cbn [mr_index mr_end endIndex captures accumulate].
      replace (S i =? i) with false by (symmetry; apply Nat.eqb_neq; lia).
      rewrite Nat.min_l by lia. rewrite Nat.leb_refl.
      unfold R at 1. cbv beta iota. replace (i + (S i - i)) with (S i) by lia.
      rewrite IH by lia. unfold slice. rewrite Nat.sub_diag. simpl.
      unfold matched_text, slice. cbn [mr_index mr_end].
      rewrite (drop_nth_error _ _ _ Hc), Nat.sub_succ_l, Nat.sub_diag by lia.
      simpl. rewrite <- app_assoc. reflexivity.
    + assert (Hskip : collect (S f) rx input i = collect (S f) rx input (S i)).
      { cbn [collect]. rewrite builtin_exec_skip; [reflexivity | lia |].
        rewrite match_at_char, Hc, Hp. reflexivity. }
      rewrite Hskip, (accumulate_shift _ _ c) by (done || apply collect_head).
      rewrite IH by lia. rewrite <- app_assoc. reflexivity.
Qed.
End CharClass.

(** [str.replace(/[class]/g, fn)] with [fn] a function of the matched text
    replaces each code unit of the class by its image, and copies the
    others. *)
Lemma replace_fn_char_class p ml input (g : jstr -> jstr) :
  replace_fn (mkRegExp (RChar p) 0 true ml) input (fun mt _ _ => g mt)
    = flat_map (fun c => if p c then g [c] else [c]) input.
Proof.
  unfold replace_fn, replace_st, regexp_matches. simpl re_global. cbv iota.
  exact (accumulate_collect_char (St := unit) input g p ml (length input - 0) 0
           (S (S (length input))) [] tt eq_refl ltac:(lia) ltac:(lia)).
Qed.

Lemma replace_fn_avoids rx input fn p :
  first_class (re_body rx) = Some p -> avoids p input = true -> replace_fn rx input fn = input.
Proof. intros Hf Hav. unfold replace_fn. by rewrite (replace_st_avoids _ _ _ _ p). Qed.

Lemma replace_tpl_avoids rx input tpl p :
  first_class (re_body rx) = Some p -> avoids p input = true -> replace_tpl rx input tpl = input.
Proof. apply replace_fn_avoids. Qed.


(** ** The collection loop of a global replacement terminates *)

Lemma match_at_bounds rx input i y :
  i <= length input -> match_at rx input i = Some y -> i <= endIndex y <= length input.
Proof.
  intros Hi H. unfold match_at in H.
  apply (m_forward input (re_multiline rx) (re_body rx)) in H as (y' & Hy' & Hc); [|done].
  injection Hc as <-. exact Hy'.
Qed.

Lemma search_bounds rx input i k r :
  i + k <= S (length input) -> search rx input i k = Some r ->
  mr_index r <= mr_end r <= length input.
Proof.
  revert i; induction k as [|k IH]; intros i Hk; simpl; [discriminate|].
  destruct (match_at rx input i) eqn:E.
  - intros [= <-]. simpl. apply match_at_bounds in E; [lia | lia].
  - apply IH. lia.
Qed.

Lemma builtin_exec_bounds rx input li r :
  builtin_exec rx input li = Some r -> li <= mr_index r <= mr_end r /\ mr_end r <= length input.
Proof.
  intros H. pose proof (builtin_exec_index _ _ _ _ H) as Hi.
  unfold builtin_exec in H. destruct (length input <? li) eqn:E; [discriminate|].
  apply Nat.ltb_ge in E. apply search_bounds in H; [lia | lia].
Qed.

Lemma collect_S f rx input li :
  collect (S f) rx input li =
    match builtin_exec rx input li with
    | None => []
    | Some r => r :: collect f rx input (if mr_end r =? mr_index r then S (mr_end r) else mr_end r)
    end.
Proof. reflexivity. Qed.

Lemma collect_fuel f rx input li :
  S (S (length input)) <= f + li -> collect f rx input li = collect (S f) rx input li.
Proof.
  revert li; induction f as [|f IH]; intros li Hf.
  - simpl. unfold builtin_exec. destruct (length input <? li) eqn:E; [reflexivity|].
    apply Nat.ltb_ge in E. lia.
  - rewrite (collect_S f), (collect_S (S f)).
    destruct (builtin_exec rx input li) as [r|] eqn:E; [|reflexivity].
    apply builtin_exec_bounds in E. f_equal. apply IH.
    destruct (mr_end r =? mr_index r) eqn:Ee;
      [apply Nat.eqb_eq in Ee | apply Nat.eqb_neq in Ee]; lia.
Qed.

(** The loop of [RegExp.prototype[@@replace]] that collects the
    matches of a global expression ends within [length input + 2]
    iterations: any larger fuel gives the same list of matches. *)
Theorem collect_fuel_enough rx input f :
  S (S (length input)) <= f -> collect f rx input 0 = collect (S (S (length input))) rx input 0.
Proof.
  intros Hf. induction Hf as [|f Hf IH]; [reflexivity|].
  rewrite <- IH. symmetry. apply collect_fuel. lia.
Qed.

Lemma collect_fuel_enough_witness :
  collect 10 (mkRegExp (RChar (fun c => (c =? 97)%N)) 0 true false) (lit "aba") 0
  = collect 5 (mkRegExp (RChar (fun c => (c =? 97)%N)) 0 true false) (lit "aba") 0.
Proof. apply collect_fuel_enough. vm_compute. lia. Defined.

(** ** The width of the capture list *)

(** Captures change only by [insert] (a group) and [imap] (the reset of a
    quantifier), so the list keeps its length through a match. *)
Section CaptureWidth.
Variables (input : jstr) (ml : bool) (width : nat).

Definition keeps_width (mr : MatchState -> (MatchState -> option MatchState) -> option MatchState) :=
  forall x d z, length (captures x) = width -> mr x d = Some z ->
  exists y, length (captures y) = width /\ d y = Some z.

Lemma repeat_matcher_width mr c g pi pc f mn mx x z :
  keeps_width mr -> length (captures x) = width ->
  repeat_matcher mr c g pi pc f mn mx x = Some z ->
  exists y, length (captures y) = width /\ c y = Some z.
Proof.
  intros Hmr. revert mn mx x z; induction f as [|f IH]; intros mn mx x z Hx; [discriminate|].
  cbn [repeat_matcher].
  assert (Hd : forall z', mr (mkState (endIndex x) (reset_captures pi pc (captures x)))
      (fun y => if (mn =? 0) && (endIndex y =? endIndex x) then None
                else repeat_matcher mr c g pi pc f (pred mn) (option_map pred mx) y) = Some z' ->
      exists y, length (captures y) = width /\ c y = Some z').
  { intros z' H. apply Hmr in H as (y & Hy & Hdy); [|cbn [captures]; unfold reset_captures; by rewrite length_imap].
    destruct (_ && _); [discriminate|]. by apply IH in Hdy. }
  destruct (max_is_zero mx); [intros H; by exists x|].
  destruct (negb (mn =? 0)); [apply Hd|].
  destruct g.
  - destruct (mr _ _) eqn:E; [intros [= <-]; by apply Hd|]. intros H. by exists x.
  - destruct (c x) eqn:E; [intros [= <-]; by exists x|]. apply Hd.
Qed.

Lemma m_width r : keeps_width (m input ml r).
Proof.
  induction r as [p| |r1 IH1 r2 IH2|r1 IH1 r2 IH2|n r IH| | |mn mx g pi pc r IH];
    intros x c z Hx; cbn [m].
  - destruct (char_at input _) as [ch|]; [|discriminate].
    destruct (p ch); [|discriminate]. intros H. by eexists; split; [|exact H].
  - intros H. by exists x.
  - intros H. apply IH1 in H as (y & Hy & H); [|done]. by apply IH2 in H.
  - destruct (m input ml r1 x c) eqn:E; [intros [= <-]; by apply (IH1 x c)|]. by apply IH2.
  - intros H. apply IH in H as (y & Hy & H); [|done].
    eexists; split; [|exact H]. cbn [captures]. by rewrite length_insert.
  - destruct (at_line_start _ _ _); [intros H; by exists x | discriminate].
  - destruct (at_line_end _ _ _); [intros H; by exists x | discriminate].
  - apply repeat_matcher_width; [exact IH | done].
Qed.

End CaptureWidth.

Lemma match_at_width rx input i y :
  match_at rx input i = Some y -> length (captures y) = re_ncaps rx.
Proof.
  unfold match_at. intros H.
  apply (m_width input (re_multiline rx) (re_ncaps rx)) in H as (y' & Hy' & [= <-]);
    [done | cbn [captures]; by rewrite repeat_length].
Qed.

Lemma search_width rx input i k r :
  search rx input i k = Some r -> length (mr_caps r) = re_ncaps rx.
Proof.
  revert i; induction k as [|k IH]; intros i; cbn [search]; [discriminate|].
  destruct (match_at rx input i) eqn:E; [intros [= <-]; by apply match_at_width in E|].
  apply IH.
Qed.

(** A match found by [RegExpBuiltinExec] has exactly as many
    captures as the expression has capturing groups, whatever the pattern
    and the input: the indices [$1] .. [$n] and the callback's arguments
    always refer to a capture. *)
Theorem builtin_exec_width rx input li r :
  builtin_exec rx input li = Some r -> length (mr_caps r) = re_ncaps rx.
Proof.
  unfold builtin_exec. destruct (length input <? li); [discriminate|]. apply search_width.
Qed.

Lemma builtin_exec_width_witness :
  builtin_exec (mkRegExp (RGroup 1 (RChar (fun c => (c =? 97)%N))) 1 false false) (lit "ba") 0
    = Some (mkResult 1 2 [Some (1, 2)])
  /\ length [Some (1, 2)] = 1.
Proof.
  assert (H : builtin_exec (mkRegExp (RGroup 1 (RChar (fun c => (c =? 97)%N))) 1 false false)
                (lit "ba") 0 = Some (mkResult 1 2 [Some (1, 2)])) by js_eval.
  split; [exact H|]. exact (builtin_exec_width _ _ _ _ H).
Defined.

(** ** The matcher on literals, a starred class and anchored patterns *)

Section Shapes.
Variables (input : jstr) (ml : bool).

Lemma drop_char_at e :
  drop e input = match char_at input e with Some ch => ch :: drop (S e) input | None => [] end.
Proof.
  unfold char_at. destruct (nth_error input e) eqn:E; [by apply drop_nth_error|].
  apply nth_error_None in E. by apply drop_ge.
Qed.

(** A string of pattern characters matches exactly where the string
    occurs. *)
Lemma m_lit a e caps c :
  m input ml (RLit a) (mkState e caps) c =
  if is_prefix a (drop e input) then c (mkState (e + length a) caps) else None.
Proof.
  revert e; induction a as [|d a IH]; intros e.
  - cbn. by rewrite Nat.add_0_r.
  - assert (Hstep : m input ml (RLit (d :: a)) (mkState e caps) c =
      match char_at input e with
      | Some ch => if (ch =? d)%N then m input ml (RLit a) (mkState (S e) caps) c else None
      | None => None
      end).
    { destruct a as [|d' a]; [|reflexivity]. cbn [RLit map RCat m endIndex captures].
      destruct (char_at input e); [|done]. by destruct (_ =? _)%N. }
    rewrite Hstep, drop_char_at. destruct (char_at input e) as [ch|]; [|done].
    cbn [is_prefix length]. rewrite N.eqb_sym. destruct (d =? ch)%N; [|done].
    cbn [andb]. rewrite IH. by replace (S e + length a) with (e + S (length a)) by lia.
Qed.

Lemma reset_captures_none caps : reset_captures 0 0 caps = caps.
Proof.
  unfold reset_captures. rewrite (imap_ext _ (const id)) by (intros k v _; by destruct k).
  rewrite imap_const. apply list_fmap_id.
Qed.

Lemma repeat_star_class p c f e caps z :
  repeat_matcher (m input ml (RChar p)) c true 0 0 f 0 None (mkState e caps) = Some z ->
  exists k, k <= length input - e /\ forallb p (take k (drop e input)) = true /\
            c (mkState (e + k) caps) = Some z.
Proof.
  revert e z; induction f as [|f IH]; intros e z; [discriminate|].
  cbn [repeat_matcher max_is_zero Nat.eqb negb]. rewrite reset_captures_none.
  cbn [m endIndex captures]. rewrite drop_char_at.
  destruct (char_at input e) as [ch|] eqn:Hch.
  - assert (He : e < length input) by (apply nth_error_Some; unfold char_at in Hch; congruence).
    destruct (p ch) eqn:Hp.
    + cbn [andb]. rewrite (proj2 (Nat.eqb_neq (S e) e)) by lia.
      destruct (repeat_matcher _ _ _ _ _ f _ _ _) eqn:E.
      * intros [= <-]. apply IH in E as (k & Hk & Hall & Hc). exists (S k).
        cbn [take forallb]. rewrite Hp, Hall. split; [lia|]. split; [done|].
        by replace (e + S k) with (S e + k) by lia.
      * intros H. exists 0. rewrite Nat.add_0_r. split; [lia | done].
    + intros H. exists 0. rewrite Nat.add_0_r. split; [lia | done].
  - intros H. exists 0. rewrite Nat.add_0_r. split; [lia | done].
Qed.

(** [\s*] and the like: a match consumes a run of the class. *)
Lemma m_star_class p x c z :
  m input ml (RStar (RChar p)) x c = Some z ->
  exists k, k <= length input - endIndex x /\ forallb p (take k (drop (endIndex x) input)) = true
            /\ c (mkState (endIndex x + k) (captures x)) = Some z.
Proof. destruct x as [e caps]. apply repeat_star_class. Qed.

(** [\s*] followed by a pattern whose first code unit is of class [q]
    fails where the code unit is of neither class. *)
Lemma m_star_then sp r q x c :
  first_class r = Some q ->
  match char_at input (endIndex x) with Some ch => sp ch = false /\ q ch = false | None => True end ->
  m input ml (RSeq (RStar (RChar sp)) r) x c = None.
Proof.
  intros Hq Hch. cbn [m]. destruct (m input ml (RStar (RChar sp)) x _) eqn:E; [exfalso|done].
  apply m_star_class in E as ([|k] & Hk & Hall & Hc).
  - rewrite (m_first_class input ml r q) in Hc; [discriminate|done|].
    unfold fails_first. cbn [endIndex]. rewrite Nat.add_0_r. revert Hch. destruct (char_at input (endIndex x)); tauto.
  - rewrite drop_char_at in Hall. revert Hch.
    destruct (char_at input (endIndex x)) as [ch|] eqn:Hc'; intros Hch;
      [|unfold char_at in Hc'; apply nth_error_None in Hc'; lia].
    cbn [take forallb] in Hall. destruct Hch as [Hsp _]. by rewrite Hsp in Hall.
Qed.

(** In a text without line terminators, [^] holds at the start only. *)
Lemma at_line_start_single e :
  avoids is_line_terminator input = true -> at_line_start input ml e = true -> e = 0.
Proof.
  intros Hav. destruct e as [|e]; [done|]. cbn. destruct ml; [|discriminate].
  unfold char_at. destruct (nth_error input e) as [ch|] eqn:E; [|done]. cbn. intros Hlt.
  apply avoids_spec in Hav. apply nth_error_In in E. rewrite List.Forall_forall in Hav.
  apply Hav in E. by rewrite Hlt in E.
Qed.

Lemma m_bol_start r x c :
  avoids is_line_terminator input = true -> endIndex x <> 0 -> m input ml (RSeq RBol r) x c = None.
Proof.
  intros Hav Hx. cbn [m]. destruct (at_line_start input ml (endIndex x)) eqn:E; [|done].
  by apply at_line_start_single in E.
Qed.

End Shapes.
