(* ===== verification/Escape.v ===== *)
(** * [escapeHtml] (src/ai-assistant.js, lines 498-507)

    [text.replace(/[&<>QUOTE']/g, m => map[m])], where QUOTE stands for the
    double quote, with the object [map] of five
    entities.  The model keeps the object as an association list and the
    property read [map[m]] as a lookup that yields the string ["undefined"]
    when the key is absent, as JavaScript's conversion of the callback's
    result would.  The theorems: the replacement is a per-code-unit
    rewrite ([escapeHtml_spec]), its output holds no [<], no [>] and no
    quote, double or single ([escapeHtml_safe]), and decoding the five
    entities gives the text back ([escapeHtml_roundtrip]). *)

From S2P Require Import Prelude JsString JsRegExp.

Definition amp : N := 38.
Definition lt_ : N := 60.
Definition gt_ : N := 62.
Definition quot : N := 34.
Definition apos : N := 39.

(** The class of the literal: ampersand, angle brackets, both quotes. *)
Definition is_html_special (c : N) : bool :=
  (c =? amp)%N || (c =? lt_)%N || (c =? gt_)%N || (c =? quot)%N || (c =? apos)%N.

(** The object literal [map] (lines 499-505), as key/value pairs. *)
Definition escape_map : list (jstr * jstr) :=
  [([amp], lit "&amp;"); ([lt_], lit "&lt;"); ([gt_], lit "&gt;");
   ([quot], lit "&quot;"); ([apos], lit "&#039;")].

(** A property read on an object; [None] is undefined. *)
Fixpoint js_get (o : list (jstr * jstr)) (k : jstr) : option jstr :=
  match o with
  | [] => None
  | (k', v) :: o' => if bool_decide (k = k') then Some v else js_get o' k
  end.

(** The callback [m => map[m]]; its undefined result would print as
    ["undefined"]. *)
Definition escape_replacer (mt : jstr) : jstr :=
  match js_get escape_map mt with
  | Some v => v
  | None => lit "undefined"
  end.

(** The literal of line 506, a global class of the five code units. *)
Definition re_html_special : RegExp := mkRegExp (RChar is_html_special) 0 true false.

Definition escapeHtml (text : jstr) : jstr :=
  replace_fn re_html_special text (fun mt _ _ => escape_replacer mt).

(** ** Reference: one code unit at a time *)

Definition escape_unit (c : N) : jstr :=
  if (c =? amp)%N then lit "&amp;"
  else if (c =? lt_)%N then lit "&lt;"
  else if (c =? gt_)%N then lit "&gt;"
  else if (c =? quot)%N then lit "&quot;"
  else if (c =? apos)%N then lit "&#039;"
  else [c].

(** Decoding of the five entities, as an HTML parser reads the output. *)
Definition decode_entity (s : jstr) : option (N * jstr) :=
  if is_prefix (lit "&amp;") s then Some (amp, drop 5 s)
  else if is_prefix (lit "&lt;") s then Some (lt_, drop 4 s)
  else if is_prefix (lit "&gt;") s then Some (gt_, drop 4 s)
  else if is_prefix (lit "&quot;") s then Some (quot, drop 6 s)
  else if is_prefix (lit "&#039;") s then Some (apos, drop 6 s)
  else None.

Fixpoint unescape_go (fuel : nat) (s : jstr) : jstr :=
  match fuel with
  | 0 => s
  | S f =>
      match s with
      | [] => []
      | c :: s' =>
          match decode_entity s with
          | Some (d, rest) => d :: unescape_go f rest
          | None => c :: unescape_go f s'
          end
      end
  end.

Definition html_unescape (s : jstr) : jstr := unescape_go (length s) s.

(** ** Lemmas *)

Lemma escape_replacer_unit c :
  is_html_special c = true -> escape_replacer [c] = escape_unit c.
Proof.
  unfold is_html_special, escape_replacer, escape_unit. intros H.
  destruct (c =? amp)%N eqn:E1; [apply N.eqb_eq in E1; subst; reflexivity|].
  destruct (c =? lt_)%N eqn:E2; [apply N.eqb_eq in E2; subst; reflexivity|].
  destruct (c =? gt_)%N eqn:E3; [apply N.eqb_eq in E3; subst; reflexivity|].
  destruct (c =? quot)%N eqn:E4; [apply N.eqb_eq in E4; subst; reflexivity|].
  destruct (c =? apos)%N eqn:E5; [apply N.eqb_eq in E5; subst; reflexivity|].
  discriminate.
Qed.

Lemma escape_unit_plain c : is_html_special c = false -> escape_unit c = [c].
Proof.
  unfold is_html_special, escape_unit. intros H.
  repeat apply orb_false_iff in H as [H ?]. repeat match goal with E : _ = false |- _ => rewrite E end.
  reflexivity.
Qed.

Lemma decode_entity_unit c rest :
  is_html_special c = true -> decode_entity (escape_unit c ++ rest) = Some (c, rest).
Proof.
  unfold is_html_special, escape_unit, decode_entity. intros H.
  destruct (c =? amp)%N eqn:E1; [apply N.eqb_eq in E1; subst; reflexivity|].
  destruct (c =? lt_)%N eqn:E2; [apply N.eqb_eq in E2; subst; reflexivity|].
  destruct (c =? gt_)%N eqn:E3; [apply N.eqb_eq in E3; subst; reflexivity|].
  destruct (c =? quot)%N eqn:E4; [apply N.eqb_eq in E4; subst; reflexivity|].
  destruct (c =? apos)%N eqn:E5; [apply N.eqb_eq in E5; subst; reflexivity|].
  discriminate.
Qed.

(** Every entity begins with an ampersand. *)
Lemma decode_entity_not_amp c rest : c <> amp -> decode_entity (c :: rest) = None.
Proof.
  intros H. unfold decode_entity.
  change (lit "&amp;") with (amp :: lit "amp;"). change (lit "&lt;") with (amp :: lit "lt;").
  change (lit "&gt;") with (amp :: lit "gt;"). change (lit "&quot;") with (amp :: lit "quot;").
  change (lit "&#039;") with (amp :: lit "#039;").
  rewrite !is_prefix_cons_ne by congruence. reflexivity.
Qed.

Lemma decode_entity_plain c rest : is_html_special c = false -> decode_entity (c :: rest) = None.
Proof.
  unfold is_html_special. intros H. apply decode_entity_not_amp.
  repeat apply orb_false_iff in H as [H _]. by apply N.eqb_neq in H.
Qed.

(** The callback on one code unit of the class, and the copy of any other
    code unit, make the per-code-unit rewrite. *)
Lemma escape_replacer_class c :
  (if is_html_special c then escape_replacer [c] else [c]) = escape_unit c.
Proof.
  destruct (is_html_special c) eqn:E.
  - by apply escape_replacer_unit.
  - by rewrite escape_unit_plain.
Qed.

Lemma escapeHtml_flat_map text : escapeHtml text = flat_map escape_unit text.
Proof.
  unfold escapeHtml, re_html_special. rewrite replace_fn_char_class.
  apply flat_map_ext, escape_replacer_class.
Qed.

Lemma escape_unit_length c : 1 <= length (escape_unit c).
Proof. unfold escape_unit. repeat case_match; simpl; lia. Qed.

(** ** Properties of [escapeHtml] *)

(** C1: [escapeHtml] replaces each ampersand, angle bracket and quote by its entity
    and copies every other code unit: the regular-expression replacement
    equals the per-code-unit reference [escape_unit]. *)
Theorem escapeHtml_spec (text : jstr) : escapeHtml text = flat_map escape_unit text.
Proof.
  unfold escapeHtml, re_html_special. rewrite replace_fn_char_class.
  apply flat_map_ext, escape_replacer_class.
Qed.

(** The markup-significant code units: angle brackets and quotes. *)
Definition is_markup_char (c : N) : bool :=
  (c =? lt_)%N || (c =? gt_)%N || (c =? quot)%N || (c =? apos)%N.

Lemma escape_unit_safe c : avoids is_markup_char (escape_unit c) = true.
Proof.
  unfold escape_unit.
  destruct (c =? amp)%N eqn:E1; [reflexivity|].
  destruct (c =? lt_)%N eqn:E2; [reflexivity|].
  destruct (c =? gt_)%N eqn:E3; [reflexivity|].
  destruct (c =? quot)%N eqn:E4; [reflexivity|].
  destruct (c =? apos)%N eqn:E5; [reflexivity|].
  unfold avoids, is_markup_char. cbn [forallb]. by rewrite E2, E3, E4, E5.
Qed.

Lemma flat_map_escape_length s : length s <= length (flat_map escape_unit s).
Proof.
  induction s as [|c s IH]; simpl; [lia|].
  rewrite length_app. pose proof (escape_unit_length c). lia.
Qed.

Lemma unescape_go_step f s :
  unescape_go (S f) s =
    match s with
    | [] => []
    | c :: s' =>
        match decode_entity s with
        | Some (d, rest) => d :: unescape_go f rest
        | None => c :: unescape_go f s'
        end
    end.
Proof. reflexivity. Qed.

Lemma unescape_go_decode f s d rest :
  decode_entity s = Some (d, rest) -> unescape_go (S f) s = d :: unescape_go f rest.
Proof.
  intros H. destruct s as [|c s']; [vm_compute in H; discriminate|].
  rewrite unescape_go_step, H. reflexivity.
Qed.

Lemma unescape_go_plain f c s :
  decode_entity (c :: s) = None -> unescape_go (S f) (c :: s) = c :: unescape_go f s.
Proof. intros H. rewrite unescape_go_step, H. reflexivity. Qed.

Lemma unescape_go_escape f s : length s <= f -> unescape_go f (flat_map escape_unit s) = s.
Proof.
  revert f; induction s as [|c s IH]; intros f Hf; [destruct f; reflexivity|].
  destruct f as [|f]; [simpl in Hf; lia|]. simpl flat_map.
  destruct (is_html_special c) eqn:Hs.
  - rewrite (unescape_go_decode _ _ c (flat_map escape_unit s)) by (by apply decode_entity_unit).
    rewrite IH by (simpl in Hf; lia). reflexivity.
  - rewrite escape_unit_plain by done. cbn [app].
    rewrite unescape_go_plain by (by apply decode_entity_plain).
    rewrite IH by (simpl in Hf; lia). reflexivity.
Qed.

(** C2: The output of [escapeHtml] contains no [<], no [>] and no quote,
    double or single, whatever the input: escaped text can never open a
    tag or close an attribute value. *)
Theorem escapeHtml_safe (text : jstr) : avoids is_markup_char (escapeHtml text) = true.
Proof.
  rewrite escapeHtml_flat_map. induction text as [|c s IH]; [reflexivity|].
  simpl. rewrite avoids_app, escape_unit_safe, IH. reflexivity.
Qed.

(** C3: Escaping loses nothing: decoding the five entities of the output of
    [escapeHtml], as an HTML parser does, gives back the input text. *)
Theorem escapeHtml_roundtrip (text : jstr) : html_unescape (escapeHtml text) = text.
Proof.
  unfold html_unescape. rewrite escapeHtml_flat_map.
  apply unescape_go_escape, flat_map_escape_length.
Qed.
