(* ===== verification/Lists.v ===== *)
(** * [formatLists] (src/ai-assistant.js, lines 447-496)

    The list stage scans the lines of its input with four mutable
    variables ([result], [inList], [listType], [listItems]).  The model
    keeps them in the record [ListState]; one iteration of the [for] loop is
    [formatLists_step], the loop is a [fold_left], and the flush after the
    loop is [formatLists_finish].  A line is classified by the two
    regular-expression literals of lines 456-457, run by the engine of
    [JsRegExp].

    The abstract specification is [blocks_of]: classify every line, then
    group maximal runs of items of the same kind into one list block.  The
    refinement theorem [formatLists_refines] says that the loop computes
    exactly the rendering of these blocks; [formatLists_wf] is the
    invariant of the loop's variables. *)

From S2P Require Import Prelude JsString JsRegExp.

(** ** The code *)

(** The two values [listType] takes besides [null]. *)
Inductive ListType := UL | OL.

#[export] Instance ListType_eq_dec : EqDecision ListType.
Proof. solve_decision. Defined.

(** The string of [listType] in a template literal: ['ul'], ['ol'] or ['null']. *)
Definition list_tag (t : option ListType) : jstr :=
  match t with
  | Some UL => lit "ul"
  | Some OL => lit "ol"
  | None => lit "null"
  end.

Definition is_bullet (c : N) : bool := (c =? ch "-")%N || (c =? ch "*")%N || (c =? ch "+")%N.

(** [/^\s*[-*+]\s+(.+)$/] (line 456). *)
Definition re_unordered : RegExp :=
  mkRegExp (RCat [RBol; RStar (RChar is_space); RChar is_bullet; RPlus (RChar is_space);
                  RGroup 1 (RPlus (RChar is_dot)); REol]) 1 false false.

(** [/^\s*\d+\.\s+(.+)$/] (line 457). *)
Definition re_ordered : RegExp :=
  mkRegExp (RCat [RBol; RStar (RChar is_space); RPlus (RChar is_digit); RLit (lit ".");
                  RPlus (RChar is_space); RGroup 1 (RPlus (RChar is_dot)); REol]) 1 false false.

Record ListState := mkListState {
  ls_result : list jstr;
  ls_inList : bool;
  ls_listType : option ListType;
  ls_listItems : list jstr
}.

Definition formatLists_init : ListState := mkListState [] false None [].

(** [`<${listType}>${listItems.join('')}</${listType}>`] *)
Definition render_list (t : option ListType) (items : list jstr) : jstr :=
  lit "<" ++ list_tag t ++ lit ">" ++ js_join [] items ++ lit "</" ++ list_tag t ++ lit ">".

(** [result.push(...)] of the open list, then [listItems = []]. *)
Definition flush (st : ListState) : ListState :=
  mkListState (ls_result st ++ [render_list (ls_listType st) (ls_listItems st)])
              (ls_inList st) (ls_listType st) [].

(** The branch of an item of kind [kind] (lines 459-468 and 469-478): a list
    of another kind, or no list, is closed and a new one opened, then the
    item is pushed. *)
Definition push_item (kind : ListType) (item : jstr) (st : ListState) : ListState :=
  let st1 :=
    if negb (ls_inList st) || negb (bool_decide (ls_listType st = Some kind)) then
      let st0 := if ls_inList st then flush st else st in
      mkListState (ls_result st0) true (Some kind) (ls_listItems st0)
    else st in
  mkListState (ls_result st1) (ls_inList st1) (ls_listType st1)
              (ls_listItems st1 ++ [lit "<li>" ++ item ++ lit "</li>"]).

(** The branch of any other line (lines 479-487). *)
Definition push_line (line : jstr) (st : ListState) : ListState :=
  let st1 :=
    if ls_inList st then
      let st0 := flush st in mkListState (ls_result st0) false None (ls_listItems st0)
    else st in
  mkListState (ls_result st1 ++ [line]) (ls_inList st1) (ls_listType st1) (ls_listItems st1).

(** One iteration of the loop (lines 455-488). *)
Definition formatLists_step (st : ListState) (line : jstr) : ListState :=
  match regexp_exec re_unordered line with
  | Some um => push_item UL (group_text line um 1) st
  | None =>
      match regexp_exec re_ordered line with
      | Some om => push_item OL (group_text line om 1) st
      | None => push_line line st
      end
  end.

(** The flush after the loop (lines 491-493). *)
Definition formatLists_finish (st : ListState) : list jstr :=
  if ls_inList st then ls_result st ++ [render_list (ls_listType st) (ls_listItems st)]
  else ls_result st.

Definition formatLists (content : jstr) : jstr :=
  js_join (lit "\n")
    (formatLists_finish (fold_left formatLists_step (js_split content (lit "\n")) formatLists_init)).

(** ** The specification: maximal runs of items *)

Inductive LineClass :=
  | Item (kind : ListType) (text : jstr)
  | Other (line : jstr).

Inductive Block :=
  | ListBlock (kind : ListType) (texts : list jstr)
  | Plain (line : jstr).

Definition classify (line : jstr) : LineClass :=
  match regexp_exec re_unordered line with
  | Some um => Item UL (group_text line um 1)
  | None =>
      match regexp_exec re_ordered line with
      | Some om => Item OL (group_text line om 1)
      | None => Other line
      end
  end.

(** Put an item in front of the blocks that follow it: it joins the first
    block when that is a list of the same kind. *)
Definition cons_item (k : ListType) (t : jstr) (bs : list Block) : list Block :=
  match bs with
  | ListBlock k' ts :: bs' => if bool_decide (k = k') then ListBlock k (t :: ts) :: bs'
                              else ListBlock k [t] :: bs
  | _ => ListBlock k [t] :: bs
  end.

Fixpoint group (cs : list LineClass) : list Block :=
  match cs with
  | [] => []
  | Item k t :: cs' => cons_item k t (group cs')
  | Other l :: cs' => Plain l :: group cs'
  end.

Definition blocks_of (content : jstr) : list Block :=
  group (map classify (js_split content (lit "\n"))).

Definition li (t : jstr) : jstr := lit "<li>" ++ t ++ lit "</li>".

Definition render_block (b : Block) : jstr :=
  match b with
  | ListBlock k ts => render_list (Some k) (map li ts)
  | Plain l => l
  end.

Definition render_blocks (bs : list Block) : jstr := js_join (lit "\n") (map render_block bs).

(** ** The loop invariant *)

(** [inList] holds exactly when [listType] is a kind, and a closed list
    leaves no pending item. *)
Definition list_state_wf (st : ListState) : Prop :=
  (ls_inList st = true <-> exists k, ls_listType st = Some k)
  /\ (ls_inList st = false -> ls_listItems st = []).

Lemma list_state_wf_open r k its : list_state_wf (mkListState r true (Some k) its).
Proof. split; simpl; [split; eauto | discriminate]. Qed.

Lemma list_state_wf_closed r : list_state_wf (mkListState r false None []).
Proof. split; simpl; [split; [discriminate | intros [? ?]; discriminate] | done]. Qed.

(** A consistent state with no open list is [mkListState r false None []]. *)
Lemma list_state_wf_not_in st :
  list_state_wf st -> ls_inList st = false -> st = mkListState (ls_result st) false None [].
Proof.
  intros [Hin Hitems] E. destruct st as [r b t its]; simpl in *. subst b.
  rewrite Hitems by done. destruct t as [k|]; [|done].
  assert (false = true) by (apply Hin; eauto). discriminate.
Qed.

Lemma push_item_wf k t st : list_state_wf (push_item k t st).
Proof.
  unfold push_item, flush.
  destruct (negb (ls_inList st) || negb (bool_decide (ls_listType st = Some k))) eqn:E.
  - destruct (ls_inList st); apply list_state_wf_open.
  - apply orb_false_iff in E as [E1 E2]. apply negb_false_iff in E1, E2.
    apply bool_decide_eq_true in E2. rewrite E1, E2. apply list_state_wf_open.
Qed.

Lemma push_line_wf l st : list_state_wf st -> list_state_wf (push_line l st).
Proof.
  intros Hwf. unfold push_line, flush. destruct (ls_inList st) eqn:E; simpl.
  - apply list_state_wf_closed.
  - rewrite (list_state_wf_not_in st Hwf E). apply list_state_wf_closed.
Qed.

Lemma formatLists_step_wf st line : list_state_wf st -> list_state_wf (formatLists_step st line).
Proof.
  intros Hwf. unfold formatLists_step.
  destruct (regexp_exec re_unordered line); [apply push_item_wf|].
  destruct (regexp_exec re_ordered line); [apply push_item_wf | by apply push_line_wf].
Qed.

Lemma formatLists_init_wf : list_state_wf formatLists_init.
Proof. apply list_state_wf_closed. Qed.

(** C8: The variables of the list loop stay consistent on every input:
    after any sequence of lines, [inList] is true exactly when [listType]
    is ['ul'] or ['ol'] (so the tag [<null>] is never emitted), and no
    item is pending when no list is open. *)
Theorem formatLists_wf (lines : list jstr) :
  list_state_wf (fold_left formatLists_step lines formatLists_init).
Proof.
  assert (H : forall st, list_state_wf st -> list_state_wf (fold_left formatLists_step lines st)).
  { induction lines as [|l lines IH]; intros st Hst; [done|]. by apply IH, formatLists_step_wf. }
  apply H, formatLists_init_wf.
Qed.

(** ** Refinement *)

(** The rendering of the blocks that follow an open list of kind [k] with
    the pending (already wrapped) items [its]. *)
Definition open_run (k : ListType) (its : list jstr) (bs : list Block) : list jstr :=
  match bs with
  | ListBlock k' ts :: bs' =>
      if bool_decide (k = k') then render_list (Some k) (its ++ map li ts) :: map render_block bs'
      else render_list (Some k) its :: map render_block bs
  | _ => render_list (Some k) its :: map render_block bs
  end.

Lemma open_run_single k t bs : open_run k [li t] bs = map render_block (cons_item k t bs).
Proof. destruct bs as [|[k' ts|l] bs]; simpl; try case_bool_decide; reflexivity. Qed.

Lemma open_run_same k its t bs : open_run k its (cons_item k t bs) = open_run k (its ++ [li t]) bs.
Proof.
  destruct bs as [|[k' ts|l] bs]; simpl; repeat case_bool_decide; try congruence;
    subst; simpl; rewrite ?bool_decide_true by done; rewrite <- ?app_assoc; reflexivity.
Qed.

Lemma open_run_other k k' its t bs :
  k <> k' -> open_run k' its (cons_item k t bs) = render_list (Some k') its :: open_run k [li t] bs.
Proof.
  intros Hk. rewrite open_run_single.
  destruct bs as [|[k'' ts|l] bs]; simpl; repeat case_bool_decide; try congruence;
    subst; simpl; rewrite ?bool_decide_false by congruence; reflexivity.
Qed.

(** What the rest of the loop produces from a consistent state. *)
Definition pending_output (st : ListState) (bs : list Block) : list jstr :=
  match ls_inList st, ls_listType st with
  | true, Some k => open_run k (ls_listItems st) bs
  | _, _ => map render_block bs
  end.

Lemma pending_push_item k t st bs :
  list_state_wf st ->
  ls_result (push_item k t st) ++ pending_output (push_item k t st) bs
    = ls_result st ++ pending_output st (cons_item k t bs).
Proof.
  intros Hwf. destruct (ls_inList st) eqn:Ei.
  - destruct (proj1 (proj1 Hwf) Ei) as [k0 Hk0].
    unfold push_item, pending_output, flush. rewrite Ei, Hk0. simpl.
    destruct (decide (k0 = k)) as [->|Hne].
    + rewrite bool_decide_true by done. simpl. rewrite Ei, Hk0, open_run_same. reflexivity.
    + rewrite bool_decide_false by congruence. simpl.
      rewrite (open_run_other k k0) by congruence. rewrite <- app_assoc. reflexivity.
  - rewrite (list_state_wf_not_in st Hwf Ei).
    unfold push_item, pending_output. simpl. rewrite <- open_run_single. reflexivity.
Qed.

Lemma pending_push_line l st bs :
  list_state_wf st ->
  ls_result (push_line l st) ++ pending_output (push_line l st) bs
    = ls_result st ++ pending_output st (Plain l :: bs).
Proof.
  intros Hwf. destruct (ls_inList st) eqn:Ei.
  - destruct (proj1 (proj1 Hwf) Ei) as [k0 Hk0].
    unfold push_line, pending_output, flush. rewrite Ei, Hk0. simpl.
    rewrite <- !app_assoc. reflexivity.
  - rewrite (list_state_wf_not_in st Hwf Ei).
    unfold push_line, pending_output. simpl. rewrite <- app_assoc. reflexivity.
Qed.

Lemma formatLists_step_classify st line :
  formatLists_step st line =
    match classify line with
    | Item k t => push_item k t st
    | Other l => push_line l st
    end.
Proof.
  unfold formatLists_step, classify.
  destruct (regexp_exec re_unordered line); [|destruct (regexp_exec re_ordered line)]; reflexivity.
Qed.

Lemma fold_formatLists_step lines st :
  list_state_wf st ->
  formatLists_finish (fold_left formatLists_step lines st)
    = ls_result st ++ pending_output st (group (map classify lines)).
Proof.
  revert st; induction lines as [|line lines IH]; intros st Hwf.
  - unfold formatLists_finish, pending_output. simpl.
    destruct (ls_inList st) eqn:E.
    + destruct (proj1 (proj1 Hwf) E) as [k Hk]. rewrite Hk. reflexivity.
    + rewrite app_nil_r. reflexivity.
  - simpl fold_left. rewrite IH by (by apply formatLists_step_wf).
    rewrite formatLists_step_classify. cbn [map group].
    destruct (classify line); [by apply pending_push_item | by apply pending_push_line].
Qed.

(** C7: [formatLists] refines the block specification: its output is the
    rendering of the blocks obtained by classifying every line with the
    two list patterns and grouping maximal runs of items of one kind into
    one list; every other line is copied unchanged. *)
Theorem formatLists_refines (content : jstr) :
  formatLists content = render_blocks (blocks_of content).
Proof.
  unfold formatLists, render_blocks, blocks_of.
  rewrite fold_formatLists_step by apply formatLists_init_wf. reflexivity.
Qed.

(** A change of kind closes a run: two unordered items followed by an
    ordered one give one unordered list of two items and then one ordered
    list of one item. *)
Theorem formatLists_kind_change :
  blocks_of (lit "- a\n- b\n1. c") = [ListBlock UL [lit "a"; lit "b"]; ListBlock OL [lit "c"]]
  /\ formatLists (lit "- a\n- b\n1. c") = lit "<ul><li>a</li><li>b</li></ul>\n<ol><li>c</li></ol>".
Proof. split; vm_compute; reflexivity. Qed.

Lemma group_plain lines :
  Forall (fun l => classify l = Other l) lines -> group (map classify lines) = map Plain lines.
Proof. induction 1 as [|l lines Hl _ IH]; simpl; [done|]. by rewrite Hl, IH. Qed.

(** The list stage is the identity on a text none of whose lines is
    a list item. *)
Theorem formatLists_no_items (content : jstr) :
  Forall (fun l => classify l = Other l) (js_split content (lit "\n")) ->
  formatLists content = content.
Proof.
  intros H. unfold formatLists.
  rewrite fold_formatLists_step by apply formatLists_init_wf.
  cbn [ls_result ls_inList ls_listType formatLists_init pending_output app].
  rewrite group_plain, map_map, (map_ext _ (fun x => x)) by (done || reflexivity).
  rewrite map_id. apply js_join_split.
Qed.

Lemma formatLists_no_items_witness :
  Forall (fun l => classify l = Other l) (js_split (lit "-a\n1) b\n*x*") (lit "\n"))
  /\ formatLists (lit "-a\n1) b\n*x*") = lit "-a\n1) b\n*x*".
Proof.
  split; [forall_vm|].
  apply formatLists_no_items. forall_vm.
Defined.
