(* ===== verification/Tables.v ===== *)
(** * [formatTable] and [buildTable] (src/ai-assistant.js, lines 509-578)

    [formatTable] scans the lines with the variables [result], [inTable]
    and [tableRows] (the record [TableState]); a line belongs to a table
    when its trimmed text starts and ends with a bar.  Each maximal run of
    such lines goes to [buildTable], which returns the rows unchanged when
    there are fewer than two or when the second fails the separator test
    [/^\|[\s:-]+\|/], and otherwise builds the table markup with [+=] on
    the string [html] (kept as an accumulator through [fold_left]).

    The specification [table_blocks] groups maximal runs of table lines;
    [formatTable_refines] says the loop renders exactly these runs.  The
    error path of [buildTable] is [buildTable_literal]. *)

From S2P Require Import Prelude JsString JsRegExp.

(** ** The code *)

Definition bar : N := 124.

(** [line.trim().startsWith('|') && line.trim().endsWith('|')] (line 519). *)
Definition is_table_line (line : jstr) : bool :=
  starts_with (js_trim line) [bar] && ends_with (js_trim line) [bar].

Record TableState := mkTableState {
  ts_result : list jstr;
  ts_inTable : bool;
  ts_tableRows : list jstr
}.

Definition formatTable_init : TableState := mkTableState [] false [].

(** The class [[\s:-]]. *)
Definition is_separator_char (c : N) : bool := is_space c || (c =? ch ":")%N || (c =? ch "-")%N.

(** [/^\|[\s:-]+\|/] (line 549). *)
Definition re_separator : RegExp :=
  mkRegExp (RCat [RBol; RChar (fun c => (c =? bar)%N); RPlus (RChar is_separator_char);
                  RChar (fun c => (c =? bar)%N)]) 0 false false.

(** [row.split('|').filter(cell => cell.trim())]: the cells whose trimmed
    text is not empty. *)
Definition table_cells (row : jstr) : list jstr :=
  filter (fun cell => negb (bool_decide (js_trim cell = []))) (js_split row [bar]).

(** [html += `<th>${cell.trim()}</th>`] for each header cell. *)
Definition add_header_cells (html : jstr) (cells : list jstr) : jstr :=
  fold_left (fun h cell => h ++ lit "<th>" ++ js_trim cell ++ lit "</th>") cells html.

Definition add_row_cells (html : jstr) (cells : list jstr) : jstr :=
  fold_left (fun h cell => h ++ lit "<td>" ++ js_trim cell ++ lit "</td>") cells html.

(** One iteration of the body loop (lines 565-574): an empty row is skipped. *)
Definition add_body_row (html : jstr) (row : jstr) : jstr :=
  let cells := table_cells row in
  if length cells =? 0 then html
  else add_row_cells (html ++ lit "<tr>") cells ++ lit "</tr>".

(** [<table class="ai-table">]; the quotes are written as code units. *)
Definition table_open : jstr := lit "<table class=" ++ [34%N] ++ lit "ai-table" ++ [34%N] ++ lit ">".

Definition buildTable (rows : list jstr) : jstr :=
  if length rows <? 2 then js_join (lit "\n") rows
  else
    let separatorRow := default [] (nth_error rows 1) in
    if negb (regexp_test re_separator separatorRow) then js_join (lit "\n") rows
    else
      let html := table_open in
      let headerCells := table_cells (default [] (nth_error rows 0)) in
      let html := html ++ lit "<thead><tr>" in
      let html := add_header_cells html headerCells in
      let html := html ++ lit "</tr></thead>" in
      let html := html ++ lit "<tbody>" in
      let html := fold_left add_body_row (drop 2 rows) html in
      html ++ lit "</tbody></table>".

(** One iteration of the loop of [formatTable] (lines 517-533). *)
Definition formatTable_step (st : TableState) (line : jstr) : TableState :=
  if is_table_line line then
    let st0 := if negb (ts_inTable st) then mkTableState (ts_result st) true [] else st in
    mkTableState (ts_result st0) (ts_inTable st0) (ts_tableRows st0 ++ [line])
  else
    let st0 := if ts_inTable st
               then mkTableState (ts_result st ++ [buildTable (ts_tableRows st)]) false []
               else st in
    mkTableState (ts_result st0 ++ [line]) (ts_inTable st0) (ts_tableRows st0).

(** The flush after the loop (lines 537-539). *)
Definition formatTable_finish (st : TableState) : list jstr :=
  if ts_inTable st then ts_result st ++ [buildTable (ts_tableRows st)] else ts_result st.

Definition formatTable (content : jstr) : jstr :=
  js_join (lit "\n")
    (formatTable_finish (fold_left formatTable_step (js_split content (lit "\n")) formatTable_init)).

(** ** The specification: maximal runs of table lines *)

Inductive TableBlock :=
  | TableRun (rows : list jstr)
  | TextLine (line : jstr).

Definition cons_row (row : jstr) (bs : list TableBlock) : list TableBlock :=
  match bs with
  | TableRun rows :: bs' => TableRun (row :: rows) :: bs'
  | _ => TableRun [row] :: bs
  end.

Fixpoint table_blocks (lines : list jstr) : list TableBlock :=
  match lines with
  | [] => []
  | l :: ls => if is_table_line l then cons_row l (table_blocks ls) else TextLine l :: table_blocks ls
  end.

Definition render_table_block (b : TableBlock) : jstr :=
  match b with
  | TableRun rows => buildTable rows
  | TextLine l => l
  end.

(** ** Refinement *)

(** What the rest of the loop produces from a state: an open table takes
    the rows of the run that follows it. *)
Definition pending_table (st : TableState) (bs : list TableBlock) : list jstr :=
  if ts_inTable st then
    match bs with
    | TableRun rows :: bs' => buildTable (ts_tableRows st ++ rows) :: map render_table_block bs'
    | _ => buildTable (ts_tableRows st) :: map render_table_block bs
    end
  else map render_table_block bs.

Lemma pending_table_row st l bs :
  is_table_line l = true ->
  ts_result (formatTable_step st l) ++ pending_table (formatTable_step st l) bs
    = ts_result st ++ pending_table st (cons_row l bs).
Proof.
  intros Hl. unfold formatTable_step, pending_table. rewrite Hl.
  destruct st as [r [|] rows0]; destruct bs as [|[rows|l'] bs]; simpl;
    rewrite <- ?app_assoc; reflexivity.
Qed.

Lemma pending_table_text st l bs :
  is_table_line l = false ->
  ts_result (formatTable_step st l) ++ pending_table (formatTable_step st l) bs
    = ts_result st ++ pending_table st (TextLine l :: bs).
Proof.
  intros Hl. unfold formatTable_step, pending_table. rewrite Hl.
  destruct st as [r [|] rows0]; simpl; rewrite <- ?app_assoc; reflexivity.
Qed.

Lemma fold_formatTable_step lines st :
  formatTable_finish (fold_left formatTable_step lines st)
    = ts_result st ++ pending_table st (table_blocks lines).
Proof.
  revert st; induction lines as [|l lines IH]; intros st.
  - unfold formatTable_finish, pending_table. simpl.
    destruct (ts_inTable st); simpl; rewrite ?app_nil_r; reflexivity.
  - simpl fold_left. rewrite IH. simpl table_blocks.
    destruct (is_table_line l) eqn:Hl;
      [apply pending_table_row | apply pending_table_text]; assumption.
Qed.

(** C9: [formatTable] refines the run specification: its output is the
    lines of the input with every maximal run of consecutive table lines
    (trimmed text starting and ending with a bar) replaced by what
    [buildTable] makes of that run. *)
Theorem formatTable_refines (content : jstr) :
  formatTable content
    = js_join (lit "\n") (map render_table_block (table_blocks (js_split content (lit "\n")))).
Proof. unfold formatTable. rewrite fold_formatTable_step. reflexivity. Qed.

Lemma table_blocks_text lines :
  Forall (fun l => is_table_line l = false) lines -> table_blocks lines = map TextLine lines.
Proof. induction 1 as [|l lines Hl _ IH]; simpl; [done|]. by rewrite Hl, IH. Qed.

(** The table stage is the identity on a text none of whose lines is
    a table line. *)
Theorem formatTable_no_table (content : jstr) :
  Forall (fun l => is_table_line l = false) (js_split content (lit "\n")) ->
  formatTable content = content.
Proof.
  intros H. unfold formatTable. rewrite fold_formatTable_step, table_blocks_text by done.
  cbn [ts_result ts_inTable formatTable_init pending_table app].
  rewrite map_map, (map_ext _ (fun x => x)) by reflexivity.
  rewrite map_id. apply js_join_split.
Qed.

Lemma formatTable_no_table_witness :
  Forall (fun l => is_table_line l = false) (js_split (lit "a | b\n|x") (lit "\n"))
  /\ formatTable (lit "a | b\n|x") = lit "a | b\n|x".
Proof.
  split; [forall_vm|].
  apply formatTable_no_table. forall_vm.
Defined.

(** C20: [buildTable] degrades to the literal rows, joined by line feeds,
    when the run has fewer than two lines or when its second line fails
    the separator test [/^\|[\s:-]+\|/]. *)
Theorem buildTable_literal (rows : list jstr) :
  length rows < 2 \/ regexp_test re_separator (default [] (nth_error rows 1)) = false ->
  buildTable rows = js_join (lit "\n") rows.
Proof.
  intros H. unfold buildTable.
  destruct (length rows <? 2) eqn:E; [reflexivity|].
  apply Nat.ltb_ge in E. destruct H as [H|H]; [lia|]. cbv zeta. rewrite H. reflexivity.
Qed.

Lemma buildTable_literal_witness :
  regexp_test re_separator (lit "| c | d |") = false
  /\ buildTable [lit "| a | b |"; lit "| c | d |"] = lit "| a | b |\n| c | d |".
Proof.
  split; [vm_compute; reflexivity|].
  apply buildTable_literal. right. vm_compute. reflexivity.
Defined.

(** A header line, the separator [|---|---|] and one data row make
    one table with a header row of two cells and a body row of two
    cells. *)
Theorem buildTable_valid_example :
  buildTable [lit "| a | b |"; lit "|---|---|"; lit "| 1 | 2 |"]
  = table_open ++ lit "<thead><tr><th>a</th><th>b</th></tr></thead>"
    ++ lit "<tbody><tr><td>1</td><td>2</td></tr></tbody></table>".
Proof. vm_compute. reflexivity. Qed.

(** An empty cell inside a row is dropped, not only the empty cells
    at the bars of either end, so the header and the body rows can have
    different numbers of cells. *)
Theorem buildTable_drops_inner_empty_cell :
  buildTable [lit "| a |  | c |"; lit "|---|---|---|"; lit "| 1 | 2 | 3 |"]
  = table_open ++ lit "<thead><tr><th>a</th><th>c</th></tr></thead>"
    ++ lit "<tbody><tr><td>1</td><td>2</td><td>3</td></tr></tbody></table>".
Proof. vm_compute. reflexivity. Qed.

(** The separator test only reads a prefix of the second row: a data
    row [| - | x |] passes it, is taken for the separator and disappears
    from the output. *)
Theorem buildTable_loose_separator :
  buildTable [lit "| a | b |"; lit "| - | x |"]
  = table_open ++ lit "<thead><tr><th>a</th><th>b</th></tr></thead><tbody></tbody></table>".
Proof. vm_compute. reflexivity. Qed.
