(* ===== verification/Format.v ===== *)
(** * [formatMessage] (src/ai-assistant.js, lines 375-445)

    The renderer threads one string, [formatted], through thirteen stages.
    Each stage is modelled by the call the source makes: a
    [replace] with a regular-expression literal of [JsRegExp] and a
    template or a callback, [formatTable], [formatLists], the
    [split]/[map]/[join] of the paragraph stage, and the [forEach] loops
    that restore code by [String.prototype.replace] with a string pattern.
    The two callbacks of the code stages push to the arrays [codeBlocks]
    and [inlineCodes]; their state is threaded through [replace_st].

    Theorems of this file: the rendering of the empty message, the
    scenarios of the specification computed on the model, where the code
    departs from them, and the stage lemmas that make them hold for all
    inputs of a shape. *)

From S2P Require Import Prelude JsString JsRegExp Escape Lists Tables.

(** ** Regular-expression literals of [formatMessage] *)

Definition any_unit (c : N) : bool := true.
Definition is_unit (a : N) (c : N) : bool := (c =? a)%N.
Definition not_unit (a : N) (c : N) : bool := negb (c =? a)%N.

Definition backtick : N := 96.
Definition star : N := 42.

(** [/```(\w+)?\n([\s\S]*?)```/g] (line 381). *)
Definition re_code_block : RegExp :=
  mkRegExp (RCat [RLit (lit "```");
                  RRepeat 0 (Some 1) true 0 1 (RGroup 1 (RPlus (RChar is_word)));
                  RLit (lit "\n");
                  RGroup 2 (RStarLazy (RChar any_unit));
                  RLit (lit "```")]) 2 true false.

(** [/`([^`]+)`/g] (line 389). *)
Definition re_inline_code : RegExp :=
  mkRegExp (RCat [RChar (is_unit backtick); RGroup 1 (RPlus (RChar (not_unit backtick)));
                  RChar (is_unit backtick)]) 1 true false.

(** [/^### (.*?)$/gm], [/^## (.*?)$/gm], [/^# (.*?)$/gm] (lines 399-402). *)
Definition re_heading (marks : jstr) : RegExp :=
  mkRegExp (RCat [RBol; RLit marks; RGroup 1 (RStarLazy (RChar is_dot)); REol]) 1 true true.

(** [/\*\*\*(.+?)\*\*\*/g], [/\*\*(.+?)\*\*/g], [/\*(.+?)\*/g] (lines 405-407). *)
Definition re_emphasis (n : nat) : RegExp :=
  mkRegExp (RCat [RLit (repeat star n); RGroup 1 (RPlusLazy (RChar is_dot));
                  RLit (repeat star n)]) 1 true false.

(** [/\[([^\]]+)\]\(([^)]+)\)/g] (line 410). *)
Definition re_link : RegExp :=
  mkRegExp (RCat [RLit (lit "["); RGroup 1 (RPlus (RChar (not_unit (ch "]"))));
                  RLit (lit "]("); RGroup 2 (RPlus (RChar (not_unit (ch ")"))));
                  RLit (lit ")")]) 2 true false.

(** [/^>\s+(.+)$/gm] (line 416). *)
Definition re_blockquote : RegExp :=
  mkRegExp (RCat [RBol; RLit (lit ">"); RPlus (RChar is_space);
                  RGroup 1 (RPlus (RChar is_dot)); REol]) 1 true true.

(** [/^---+$/gm] and [/^\*\*\*+$/gm] (lines 419-420). *)
Definition re_rule (mark : N) : RegExp :=
  mkRegExp (RCat [RBol; RLit [mark; mark]; RPlus (RChar (is_unit mark)); REol]) 0 true true.

(** [/^<(h[234]|pre|ul|ol|blockquote|hr|table)/] (line 424). *)
Definition re_block_tag : RegExp :=
  mkRegExp (RCat [RBol; RLit (lit "<");
                  RGroup 1 (RAlt (RSeq (RLit (lit "h"))
                                       (RChar (fun c => (c =? ch "2")%N || (c =? ch "3")%N
                                                        || (c =? ch "4")%N)))
                           (RAlt (RLit (lit "pre")) (RAlt (RLit (lit "ul"))
                           (RAlt (RLit (lit "ol")) (RAlt (RLit (lit "blockquote"))
                           (RAlt (RLit (lit "hr")) (RLit (lit "table"))))))))]) 1 false false.

(** [/\n/g] (line 427). *)
Definition re_newline : RegExp := mkRegExp (RChar (is_unit 10)) 0 true false.

(** [/<p><\/p>/g] and [/<p>\s*<\/p>/g] (lines 441-442). *)
Definition re_empty_p : RegExp := mkRegExp (RLit (lit "<p></p>")) 0 true false.
Definition re_blank_p : RegExp :=
  mkRegExp (RCat [RLit (lit "<p>"); RStar (RChar is_space); RLit (lit "</p>")]) 0 true false.

(** ** The stages *)

(** [`__${kind}_${i}__`] *)
Definition placeholder (kind : jstr) (i : nat) : jstr :=
  lit "__" ++ kind ++ lit "_" ++ number_to_string i ++ lit "__".

Definition CODE_BLOCK : jstr := lit "CODE_BLOCK".
Definition INLINE_CODE : jstr := lit "INLINE_CODE".

(** The markup of a code block; the quotes of its class attribute are written as code units. *)
Definition code_block_html (lang code : jstr) : jstr :=
  lit "<pre><code class=" ++ [quot] ++ lit "language-" ++ lang ++ [quot] ++ lit ">"
    ++ escapeHtml (js_trim code) ++ lit "</code></pre>".

(** The callback of line 381: [lang || 'text'], then the push. *)
Definition code_block_replacer (codeBlocks : list jstr) (mt : jstr)
    (caps : list (option jstr)) (pos : nat) : list jstr * jstr :=
  let lang := match nth_error caps 0 with
              | Some (Some l) => if bool_decide (l = []) then lit "text" else l
              | _ => lit "text"
              end in
  let code := capture_text caps 2 in
  (codeBlocks ++ [code_block_html lang code], placeholder CODE_BLOCK (length codeBlocks)).

(** The callback of line 389. *)
Definition inline_code_replacer (inlineCodes : list jstr) (mt : jstr)
    (caps : list (option jstr)) (pos : nat) : list jstr * jstr :=
  (inlineCodes ++ [lit "<code>" ++ escapeHtml (capture_text caps 1) ++ lit "</code>"],
   placeholder INLINE_CODE (length inlineCodes)).

Definition stage_code_blocks (s : jstr) : jstr * list jstr :=
  replace_st re_code_block s code_block_replacer [].

Definition stage_inline_code (s : jstr) : jstr * list jstr :=
  replace_st re_inline_code s inline_code_replacer [].

(** Lines 399-402: the level-3 rule runs twice, the first time to [<h5>]. *)
Definition stage_headings (s : jstr) : jstr :=
  let s := replace_tpl (re_heading (lit "### ")) s (lit "<h5>$1</h5>") in
  let s := replace_tpl (re_heading (lit "### ")) s (lit "<h4>$1</h4>") in
  let s := replace_tpl (re_heading (lit "## ")) s (lit "<h3>$1</h3>") in
  replace_tpl (re_heading (lit "# ")) s (lit "<h2>$1</h2>").

(** Lines 405-407. *)
Definition stage_emphasis (s : jstr) : jstr :=
  let s := replace_tpl (re_emphasis 3) s (lit "<strong><em>$1</em></strong>") in
  let s := replace_tpl (re_emphasis 2) s (lit "<strong>$1</strong>") in
  replace_tpl (re_emphasis 1) s (lit "<em>$1</em>").

(** Line 410: [<a href="$2" target="_blank">$1</a>]. *)
Definition link_template : jstr :=
  lit "<a href=" ++ [quot] ++ lit "$2" ++ [quot] ++ lit " target=" ++ [quot] ++ lit "_blank"
    ++ [quot] ++ lit ">$1</a>".

Definition stage_links (s : jstr) : jstr := replace_tpl re_link s link_template.

Definition stage_blockquotes (s : jstr) : jstr :=
  replace_tpl re_blockquote s (lit "<blockquote>$1</blockquote>").

Definition stage_rules (s : jstr) : jstr :=
  let s := replace_tpl (re_rule (ch "-")) s (lit "<hr>") in
  replace_tpl (re_rule star) s (lit "<hr>").

(** The callback of the [map] of line 423. *)
Definition wrap_paragraph (para : jstr) : jstr :=
  if regexp_test re_block_tag para then para
  else if bool_decide (para = []) then []
  else lit "<p>" ++ replace_tpl re_newline para (lit "<br>") ++ lit "</p>".

Definition stage_paragraphs (s : jstr) : jstr :=
  js_join (lit "\n") (map wrap_paragraph (js_split s (lit "\n\n"))).

(** The [forEach] loops of lines 431-438: the [i]-th placeholder is
    replaced, at its first occurrence, by the [i]-th fragment. *)
Fixpoint restore (kind : jstr) (i : nat) (fragments : list jstr) (s : jstr) : jstr :=
  match fragments with
  | [] => s
  | f :: fs => restore kind (S i) fs (str_replace s (placeholder kind i) f)
  end.

Definition stage_cleanup (s : jstr) : jstr :=
  let s := replace_tpl re_empty_p s [] in
  replace_tpl re_blank_p s [].

Definition formatMessage (content : jstr) : jstr :=
  let formatted := content in
  let '(formatted, codeBlocks) := stage_code_blocks formatted in
  let '(formatted, inlineCodes) := stage_inline_code formatted in
  let formatted := formatTable formatted in
  let formatted := stage_headings formatted in
  let formatted := stage_emphasis formatted in
  let formatted := stage_links formatted in
  let formatted := formatLists formatted in
  let formatted := stage_blockquotes formatted in
  let formatted := stage_rules formatted in
  let formatted := stage_paragraphs formatted in
  let formatted := restore CODE_BLOCK 0 codeBlocks formatted in
  let formatted := restore INLINE_CODE 0 inlineCodes formatted in
  stage_cleanup formatted.

(** ** The regular-expression literals of the renderer *)

(** Every literal of [formatMessage] and its helpers, in the source's
    order (lines 381-549). *)
Definition source_regexps : list RegExp :=
  [re_code_block; re_inline_code; re_heading (lit "### "); re_heading (lit "## ");
   re_heading (lit "# "); re_emphasis 3; re_emphasis 2; re_emphasis 1; re_link;
   re_blockquote; re_rule (ch "-"); re_rule star; re_block_tag; re_newline;
   re_empty_p; re_blank_p; re_unordered; re_ordered; re_html_special; re_separator].

(** The translation of the literals is well formed: in each, the
    capturing groups are numbered [1] .. [n] from left to right with [n]
    the count the object declares, and each quantifier names the groups
    of its atom; with [builtin_exec_width], every match has one capture
    per group of the literal. *)
Theorem source_regexps_wf : Forall (fun rx => re_wf rx = true) source_regexps.
Proof. apply List.Forall_forall, forallb_forall. js_eval. Qed.

(** ** Stage lemmas *)

(** The emphasis stage (lines 405-407) leaves a text with no asterisk
    unchanged: none of its three patterns can match without one. *)
Theorem stage_emphasis_no_star (s : jstr) :
  avoids (is_unit star) s = true -> stage_emphasis s = s.
Proof.
  intros H. unfold stage_emphasis.
  rewrite (replace_tpl_avoids (re_emphasis 3) s _ (is_unit star)) by (reflexivity || assumption).
  rewrite (replace_tpl_avoids (re_emphasis 2) s _ (is_unit star)) by (reflexivity || assumption).
  apply (replace_tpl_avoids _ _ _ (is_unit star)); [reflexivity | assumption].
Qed.

Lemma stage_emphasis_no_star_witness :
  avoids (is_unit star) (lit "plain _text_") = true
  /\ stage_emphasis (lit "plain _text_") = lit "plain _text_".
Proof. split; [reflexivity | apply stage_emphasis_no_star; reflexivity]. Defined.

(** The heading stage (lines 399-402) leaves a text with no [#] unchanged. *)
Lemma stage_headings_no_hash (s : jstr) :
  avoids (is_unit (ch "#")) s = true -> stage_headings s = s.
Proof.
  intros H. unfold stage_headings.
  rewrite (replace_tpl_avoids (re_heading (lit "### ")) s _ (is_unit (ch "#")))
    by (reflexivity || assumption).
  rewrite (replace_tpl_avoids (re_heading (lit "### ")) s _ (is_unit (ch "#")))
    by (reflexivity || assumption).
  rewrite (replace_tpl_avoids (re_heading (lit "## ")) s _ (is_unit (ch "#")))
    by (reflexivity || assumption).
  apply (replace_tpl_avoids _ _ _ (is_unit (ch "#"))); [reflexivity | assumption].
Qed.

(** Restoring one code fragment (lines 431-438): when its placeholder
    occurs in the rendered text, its first occurrence is preceded by [a],
    and the fragment has no [$], the placeholder is replaced by the
    fragment verbatim. *)
Theorem restore_single_plain (kind : jstr) (i : nat) (a b f : jstr) :
  (forall k, k < length a ->
     is_prefix (placeholder kind i) (drop k (a ++ placeholder kind i ++ b)) = false) ->
  avoids (fun c => (c =? dollar)%N) f = true ->
  restore kind i [f] (a ++ placeholder kind i ++ b) = a ++ f ++ b.
Proof. intros Hfirst Hf. cbn [restore]. by apply str_replace_first_plain. Qed.

Lemma restore_single_plain_witness :
  restore CODE_BLOCK 0 [lit "<pre>x</pre>"] (lit "<p>" ++ placeholder CODE_BLOCK 0 ++ lit "</p>")
    = lit "<p><pre>x</pre></p>".
Proof.
  rewrite restore_single_plain; [reflexivity | | reflexivity].
  intros k Hk. simpl in Hk. destruct k as [|[|[|k]]]; [reflexivity.. | lia].
Defined.

(** ** The renderer on the scenarios of the specification *)

(** Rendering the empty message gives the empty string. *)
Theorem formatMessage_empty : formatMessage [] = [].
Proof. vm_compute. reflexivity. Qed.

(** The scenario [## Title], blank line, [Some **bold** and `code`
    text.] renders as a heading followed by one paragraph holding the bold
    text and the inline code, in that order; the heading of two marks is
    an [h3] node. *)
Theorem formatMessage_heading_paragraph :
  formatMessage (lit "## Title\n\nSome **bold** and `code` text.")
  = lit "<h3>Title</h3>\n<p>Some <strong>bold</strong> and <code>code</code> text.</p>".
Proof. vm_compute. reflexivity. Qed.

(** A fenced block tagged [python] renders as one code node of class
    [language-python] with its body escaped, and that node is wrapped in a
    paragraph: the paragraph stage runs while the block is still a
    placeholder, which the tag test of line 424 does not recognise. *)
Theorem formatMessage_fenced_block_wrapped :
  formatMessage (lit "```python\nprint('hi')\n```")
  = lit "<p>" ++ code_block_html (lit "python") (lit "print('hi')") ++ lit "</p>".
Proof. vm_compute. reflexivity. Qed.

(** Code is protected from the later stages: the markdown and the
    markup inside a fenced block come out literally, escaped, and are not
    turned into bold text or a tag. *)
Theorem formatMessage_code_protected :
  formatMessage (lit "```\n**not bold** <script>\n```")
  = lit "<p>" ++ code_block_html (lit "text") (lit "**not bold** <script>") ++ lit "</p>"
  /\ code_block_html (lit "text") (lit "**not bold** <script>")
     = lit "<pre><code class=" ++ [quot] ++ lit "language-text" ++ [quot]
       ++ lit ">**not bold** &lt;script&gt;</code></pre>".
Proof. split; vm_compute; reflexivity. Qed.

(** A heading of three marks becomes an [h5] node (the first of the two
    level-3 rules of lines 399-400 wins), and since [h5] is not among the
    tags of line 424 it is wrapped in a paragraph. *)
Theorem formatMessage_level3_heading :
  formatMessage (lit "### T") = lit "<p><h5>T</h5></p>".
Proof. vm_compute. reflexivity. Qed.

(** A line of three asterisks is not a horizontal rule: the italic rule
    of line 407 consumes it first and it renders as an emphasised
    asterisk. *)
Theorem formatMessage_asterisk_rule :
  formatMessage (lit "a\n\n***\n\nb") = lit "<p>a</p>\n<p><em>*</em></p>\n<p>b</p>".
Proof. vm_compute. reflexivity. Qed.

(** Restoring a code block goes through the replacement patterns of
    [String.prototype.replace]: a code block containing [$&] is rendered
    with the placeholder text in place of the [$&]. *)
Theorem formatMessage_dollar_in_code :
  formatMessage (lit "```\necho $&\n```")
  = lit "<p><pre><code class=" ++ [quot] ++ lit "language-text" ++ [quot]
    ++ lit ">echo __CODE_BLOCK_0__amp;</code></pre></p>".
Proof. vm_compute. reflexivity. Qed.

(** A placeholder typed by the user collides with the real one: the
    code block is restored at the first occurrence, the user's text, and
    the block's own position keeps the placeholder. *)
Theorem formatMessage_placeholder_collision :
  formatMessage (lit "x __CODE_BLOCK_0__\n```js\nA\n```")
  = lit "<p>x " ++ code_block_html (lit "js") (lit "A") ++ lit "<br>__CODE_BLOCK_0__</p>".
Proof. vm_compute. reflexivity. Qed.

(** Text outside code is not escaped: markup in a message reaches the
    panel as live markup. *)
Theorem formatMessage_raw_html :
  formatMessage (lit "<img src=x onerror=alert(1)>") = lit "<p><img src=x onerror=alert(1)></p>".
Proof. vm_compute. reflexivity. Qed.
