(* ===== verification/Plain.v ===== *)
(** * [formatMessage] on a line of plain text

    A line whose first code unit starts no block markup (white space, a
    digit, a bullet, a bar, [#] or [>]) and which holds none of the code
    units that start inline markup ([`], [*], [[], [<]) nor a line break
    goes through every stage of [formatMessage] unchanged and comes out as
    one paragraph.  Each stage is shown to leave the line alone by the
    shape of its patterns: a pattern that starts with a class the line
    avoids ([first_class]), a pattern anchored with [^] whose first code
    unit the line does not start with, or the literal [<p></p>] and
    [<p>\s*</p>] of the final clean-up. *)

From S2P Require Import Prelude JsString JsRegExp Escape Lists Tables Format.

(** ** Plain lines *)

(** Code units that start inline markup anywhere in a line, and line
    breaks. *)
Definition is_inline_special (c : N) : bool :=
  (c =? backtick)%N || (c =? star)%N || (c =? ch "[")%N || (c =? ch "<")%N || is_line_terminator c.

(** Code units that start block markup at the beginning of a line. *)
Definition is_line_start_special (c : N) : bool :=
  is_space c || is_digit c || is_bullet c || (c =? bar)%N || (c =? ch "#")%N || (c =? ch ">")%N.

Definition plain_line (s : jstr) : bool :=
  match s with
  | c :: _ => negb (is_line_start_special c) && avoids is_inline_special s
  | [] => false
  end.

(** ** Patterns that cannot match a plain line *)

Lemma replace_tpl_no_match rx input tpl :
  (forall i, i <= length input -> match_at rx input i = None) -> replace_tpl rx input tpl = input.
Proof. intros H. unfold replace_tpl, replace_fn. by rewrite replace_st_no_match. Qed.

Lemma regexp_test_no_match rx input :
  (forall i, i <= length input -> match_at rx input i = None) -> regexp_test rx input = false.
Proof.
  intros H. unfold regexp_test, regexp_exec. rewrite builtin_exec_none; [done|].
  intros i Hi. apply H. lia.
Qed.

(** A pattern [^r] where [r] starts with a class the first code unit of
    the input is not in. *)
Lemma match_at_anchored rx input rest q i :
  re_body rx = RSeq RBol rest -> first_class rest = Some q ->
  avoids is_line_terminator input = true -> fails_first input q 0 ->
  match_at rx input i = None.
Proof.
  intros Hb Hq Hav Hf. unfold match_at. rewrite Hb. destruct i as [|i].
  - cbn [m endIndex at_line_start]. by apply (m_first_class _ _ _ q).
  - by apply m_bol_start.
Qed.

(** A pattern [^\s*r] where [r] starts with a class [q], on an input
    whose first code unit is in neither class. *)
Lemma match_at_anchored_star rx input sp rest q i :
  re_body rx = RSeq RBol (RSeq (RStar (RChar sp)) rest) -> first_class rest = Some q ->
  avoids is_line_terminator input = true ->
  match char_at input 0 with Some ch => sp ch = false /\ q ch = false | None => True end ->
  match_at rx input i = None.
Proof.
  intros Hb Hq Hav Hf. unfold match_at. rewrite Hb. destruct i as [|i].
  - cbn [m endIndex at_line_start]. by apply (m_star_then _ _ _ _ q).
  - by apply m_bol_start.
Qed.

(** ** What a plain line avoids *)

Lemma line_start_not c k :
  is_line_start_special c = false -> is_line_start_special k = true -> (c =? k)%N = false.
Proof. intros Hc Hk. apply N.eqb_neq. intros ->. congruence. Qed.

Lemma line_start_classes c :
  is_line_start_special c = false ->
  is_space c = false /\ is_digit c = false /\ is_bullet c = false.
Proof.
  unfold is_line_start_special. intros H.
  destruct (is_space c), (is_digit c), (is_bullet c); cbn in H; try discriminate.
  repeat split.
Qed.

Lemma inline_avoid k s :
  is_inline_special k = true -> avoids is_inline_special s = true -> avoids (is_unit k) s = true.
Proof.
  intros Hk. apply avoids_weaken. intros d Hd. unfold is_unit in Hd. by apply N.eqb_eq in Hd as ->.
Qed.

Lemma inline_avoid_terminators s :
  avoids is_inline_special s = true -> avoids is_line_terminator s = true.
Proof.
  apply avoids_weaken. intros d Hd. unfold is_inline_special. rewrite Hd. by rewrite !orb_true_r.
Qed.

Lemma inline_not c s k :
  avoids is_inline_special (c :: s) = true -> is_inline_special k = true -> (c =? k)%N = false.
Proof.
  intros Hs Hk. rewrite avoids_cons in Hs. apply andb_prop in Hs as [Hc _].
  apply N.eqb_neq. intros ->. by rewrite Hk in Hc.
Qed.

(** The separators [\n] and [\n\n] do not occur in a plain line. *)
Lemma plain_split c s sep' :
  avoids is_inline_special (c :: s) = true -> js_split (c :: s) (10%N :: sep') = [c :: s].
Proof. intros Hs. apply js_split_avoid, (inline_avoid 10); [reflexivity | done]. Qed.

(** ** Each stage leaves a plain line unchanged *)

Section PlainStages.
Variables (c : N) (s : jstr).
Hypothesis Hc : is_line_start_special c = false.
Hypothesis Hs : avoids is_inline_special (c :: s) = true.

(** The first code unit is not [k], a code unit of block markup. *)
Ltac not_start := cbn; apply line_start_not; [exact Hc | reflexivity].

Lemma plain_code_blocks : stage_code_blocks (c :: s) = (c :: s, []).
Proof using Hc Hs.
  apply (replace_st_avoids _ _ _ _ (is_unit backtick)); [reflexivity|].
  apply inline_avoid; [reflexivity | exact Hs].
Qed.

Lemma plain_inline_code : stage_inline_code (c :: s) = (c :: s, []).
Proof using Hc Hs.
  apply (replace_st_avoids _ _ _ _ (is_unit backtick)); [reflexivity|].
  apply inline_avoid; [reflexivity | exact Hs].
Qed.

Lemma plain_table : formatTable (c :: s) = c :: s.
Proof using Hc Hs.
  apply formatTable_no_table. change (lit "\n") with [10%N]. rewrite plain_split by exact Hs.
  constructor; [|constructor]. unfold is_table_line.
  destruct (line_start_classes c Hc) as (Hsp & _ & _).
  destruct (js_trim_head c s Hsp) as [t ->]. unfold starts_with. cbn [is_prefix].
  rewrite N.eqb_sym, (line_start_not c bar Hc); reflexivity.
Qed.

Lemma plain_headings : stage_headings (c :: s) = c :: s.
Proof using Hc Hs.
  unfold stage_headings.
  repeat rewrite (replace_tpl_no_match _ (c :: s)) by
    (intros i _; eapply match_at_anchored;
     [reflexivity | reflexivity | exact (inline_avoid_terminators _ Hs) | not_start]).
  reflexivity.
Qed.

Lemma plain_emphasis : stage_emphasis (c :: s) = c :: s.
Proof using Hc Hs. apply stage_emphasis_no_star, inline_avoid; [reflexivity | exact Hs]. Qed.

Lemma plain_links : stage_links (c :: s) = c :: s.
Proof using Hc Hs.
  apply (replace_tpl_avoids _ _ _ (is_unit (ch "["))); [reflexivity|].
  apply inline_avoid; [reflexivity | exact Hs].
Qed.

Lemma plain_classify : classify (c :: s) = Other (c :: s).
Proof using Hc Hs.
  destruct (line_start_classes c Hc) as (Hsp & Hd & Hb).
  unfold classify, regexp_exec. rewrite !builtin_exec_none; [done| |];
    intros i _; (eapply match_at_anchored_star; [reflexivity | reflexivity | exact (inline_avoid_terminators _ Hs) |]);
    cbn; auto.
Qed.

Lemma plain_lists : formatLists (c :: s) = c :: s.
Proof using Hc Hs.
  apply formatLists_no_items. change (lit "\n") with [10%N]. rewrite plain_split by exact Hs.
  constructor; [apply plain_classify | constructor].
Qed.

Lemma plain_blockquotes : stage_blockquotes (c :: s) = c :: s.
Proof using Hc Hs.
  apply replace_tpl_no_match. intros i _.
  eapply match_at_anchored; [reflexivity | reflexivity | exact (inline_avoid_terminators _ Hs) | not_start].
Qed.

Lemma plain_rules : stage_rules (c :: s) = c :: s.
Proof using Hc Hs.
  unfold stage_rules.
  repeat rewrite (replace_tpl_no_match _ (c :: s)) by
    (intros i _; eapply match_at_anchored;
     [reflexivity | reflexivity | exact (inline_avoid_terminators _ Hs) | not_start]).
  reflexivity.
Qed.

Lemma plain_paragraphs : stage_paragraphs (c :: s) = lit "<p>" ++ c :: s ++ lit "</p>".
Proof using Hc Hs.
  unfold stage_paragraphs. change (lit "\n\n") with [10%N; 10%N]. rewrite plain_split by exact Hs.
  cbn [map js_join]. unfold wrap_paragraph.
  rewrite regexp_test_no_match.
  - rewrite bool_decide_eq_false_2 by discriminate.
    rewrite (replace_tpl_avoids _ _ _ (is_unit 10)); [done | reflexivity |].
    apply inline_avoid; [reflexivity | exact Hs].
  - intros i _. eapply match_at_anchored; [reflexivity | reflexivity | exact (inline_avoid_terminators _ Hs) |].
    cbn. apply (inline_not c s); [exact Hs | reflexivity].
Qed.

End PlainStages.

(** ** The clean-up finds no empty paragraph *)

Lemma drop_cons_nth (t : jstr) i a u : drop i t = a :: u -> nth_error t i = Some a.
Proof.
  revert i; induction t as [|d t IH]; intros [|i] H; cbn in *; try discriminate.
  - by injection H as -> _.
  - by apply IH.
Qed.

(** In [<p>line</p>] an opening angle bracket is at the start or at the
    closing tag. *)
Lemma paragraph_lt_positions c s i :
  avoids is_inline_special (c :: s) = true ->
  nth_error (lit "<p>" ++ c :: s ++ lit "</p>") i = Some 60%N ->
  i = 0 \/ i = 3 + length (c :: s).
Proof.
  intros Hs. change (lit "<p>") with [60%N; 112%N; 62%N]. change (lit "</p>") with [60%N; 47%N; 112%N; 62%N].
  rewrite app_comm_cons. destruct (Nat.lt_ge_cases i 3) as [Hi|Hi].
  - rewrite nth_error_app1 by (cbn; lia). destruct i as [|[|[|i]]]; cbn; try discriminate; [auto | lia].
  - rewrite nth_error_app2 by (cbn; lia). cbn [length].
    destruct (Nat.lt_ge_cases (i - 3) (length (c :: s))) as [Hj|Hj].
    + rewrite nth_error_app1 by done. intros Hn. apply nth_error_In in Hn.
      apply avoids_spec in Hs. rewrite List.Forall_forall in Hs. by apply Hs in Hn.
    + rewrite nth_error_app2 by done. intros Hn. right.
      destruct (i - 3 - length (c :: s)) as [|k] eqn:E; [cbn in *; lia|].
      destruct k as [|[|[|k]]]; cbn in Hn; try discriminate. apply nth_error_In in Hn. done.
Qed.

Lemma drop_paragraph_end c s :
  drop (3 + length (c :: s)) (lit "<p>" ++ c :: s ++ lit "</p>") = lit "</p>".
Proof.
  rewrite app_comm_cons, app_assoc. replace (3 + length (c :: s)) with (length (lit "<p>" ++ c :: s))
    by (rewrite length_app; reflexivity).
  apply drop_app_length.
Qed.

Lemma paragraph_prefix_at c s i pre :
  avoids is_inline_special (c :: s) = true ->
  is_prefix (60%N :: pre) (drop i (lit "<p>" ++ c :: s ++ lit "</p>")) = true ->
  i = 0 \/ i = 3 + length (c :: s).
Proof.
  intros Hs E. apply (paragraph_lt_positions c s i Hs).
  apply is_prefix_spec in E as [u Eu]. by apply (drop_cons_nth _ _ _ (pre ++ u)).
Qed.

Lemma plain_cleanup c s :
  is_space c = false -> avoids is_inline_special (c :: s) = true ->
  stage_cleanup (lit "<p>" ++ c :: s ++ lit "</p>") = lit "<p>" ++ c :: s ++ lit "</p>".
Proof.
  intros Hsp Hs. unfold stage_cleanup.
  assert (Hc60 : (c =? 60)%N = false) by (apply (inline_not c s); [exact Hs | reflexivity]).
  rewrite (replace_tpl_no_match re_empty_p), (replace_tpl_no_match re_blank_p); [done| |].
  - intros i _. unfold match_at. cbn [re_body re_blank_p RCat m].
    rewrite m_lit. destruct (is_prefix _ _) eqn:E; [|done].
    change (lit "<p>") with (60%N :: [112%N; 62%N]) in E at 1.
    destruct (paragraph_prefix_at c s i _ Hs E) as [-> | ->].
    + apply (m_star_then _ _ _ _ (fun d => (d =? 60)%N)); [reflexivity|].
      change (lit "<p>") with [60%N; 112%N; 62%N].
      cbn [char_at nth_error app endIndex Nat.add length]. auto.
    + rewrite drop_paragraph_end in E. discriminate E.
  - intros i _. unfold match_at. cbn [re_body re_empty_p].
    rewrite m_lit. destruct (is_prefix _ _) eqn:E; [|done].
    change (lit "<p></p>") with (60%N :: [112%N; 62%N; 60%N; 47%N; 112%N; 62%N]) in E at 1.
    destruct (paragraph_prefix_at c s i _ Hs E) as [-> | ->].
    + rewrite drop_0 in E. change (lit "<p>") with [60%N; 112%N; 62%N] in E.
      cbn [is_prefix app] in E.
      rewrite (N.eqb_sym 60 c), Hc60, andb_false_l, !andb_false_r in E. discriminate E.
    + rewrite drop_paragraph_end in E. discriminate E.
Qed.

(** ** The renderer on a plain line *)

(** C10: A line of plain text (it does not start with white space, a digit,
    a bullet, a bar, [#] or [>], and holds no backtick, asterisk, opening
    bracket, angle bracket or line break) is rendered as one paragraph
    holding the line unchanged: no stage of [formatMessage] alters it. *)
Theorem formatMessage_plain_line (s : jstr) :
  plain_line s = true -> formatMessage s = lit "<p>" ++ s ++ lit "</p>".
Proof.
  destruct s as [|c s]; [discriminate|]. cbn [plain_line]. intros H.
  apply andb_prop in H as [Hc Hs]. apply negb_true_iff in Hc.
  unfold formatMessage. cbv zeta.
  rewrite (plain_code_blocks c s Hc Hs). cbv beta iota.
  rewrite (plain_inline_code c s Hc Hs). cbv beta iota.
  rewrite (plain_table c s Hc Hs), (plain_headings c s Hc Hs), (plain_emphasis c s Hc Hs),
    (plain_links c s Hc Hs), (plain_lists c s Hc Hs), (plain_blockquotes c s Hc Hs),
    (plain_rules c s Hc Hs), (plain_paragraphs c s Hc Hs).
  cbn [restore]. apply plain_cleanup; [apply (line_start_classes c Hc) | exact Hs].
Qed.

Lemma formatMessage_plain_line_witness :
  plain_line (lit "Hello world, 42 times.") = true
  /\ formatMessage (lit "Hello world, 42 times.") = lit "<p>Hello world, 42 times.</p>".
Proof.
  split; [reflexivity|]. apply (formatMessage_plain_line (lit "Hello world, 42 times.")).
  reflexivity.
Defined.
