(* ===== verification/PageContext.v ===== *)
(** * [getPageContext] (src/ai-assistant.js, lines 226-280)

    The method reads the page through the DOM and builds the text that the
    request to the model carries in its system message.  The page is the
    record [Page]: what the selectors of the method return, in document
    order.  The unused [htmlContent] (line 228) is not modelled.  The
    context is cut to 4000 code units followed by a note when it is longer
    ([getPageContext_bound]).  The method queries the whole document, and
    the chat is part of it: [live_page] appends to the page what the
    selectors find in each message ([Fragment]).  Only the first three
    code blocks reach the context ([context_ignores_chat_code]). *)

From S2P Require Import Prelude JsString.

(** An element matched by [.homework-section]: the text of its first
    [h2, h3] ([None] when there is none) and its whole text. *)
Record HomeworkSection := mkSection {
  sec_heading : option jstr;
  sec_text : jstr
}.

(** The parts of the document the method reads: the first [h1],
    [document.title], the [.homework-section] elements, the text of each
    [pre code] element and the text of each [.question-box, .homework-section h3]
    element.  The last two fields are what [addCodeBlockButtons] reads
    (lines 120-137): for each [pre code] element, its parent element and
    the ancestors above that parent, nearest first (elements are named by
    numbers); and for each element of class [code-ai-btn] already in the
    page, its ancestors, nearest first. *)
Record Page := mkPage {
  page_h1 : option jstr;
  page_title : jstr;
  page_sections : list HomeworkSection;
  page_code : list jstr;
  page_questions : list jstr;
  page_code_at : list (nat * list nat);
  page_buttons : list (list nat)
}.

(** What the same selectors find in markup inserted at the end of the
    [body] after the page loaded (a message of the chat, lines 347-366):
    the text of its first [h1], its [.homework-section] elements, the
    text of its [pre code] elements and of its
    [.question-box, .homework-section h3] elements.  The markup of
    [createAssistantUI] itself holds none of them. *)
Record Fragment := mkFragment {
  frag_h1 : option jstr;
  frag_sections : list HomeworkSection;
  frag_code : list jstr;
  frag_questions : list jstr
}.

Definition no_fragment : Fragment := mkFragment None [] [] [].

(** The first element of a list of optional elements. *)
Definition first_some {A} (os : list (option A)) : option A :=
  foldr (fun o acc => match o with Some _ => o | None => acc end) None os.

(** The document as [getPageContext] sees it when the fragments [fs] have
    been appended after the page, in this order: [querySelector('h1')]
    finds the page's first [h1], or else that of the first fragment with
    one, and each [querySelectorAll] lists the page's elements before
    those of each fragment (document order).  The positions of the code
    elements and the buttons stay those of the page: the buttons are
    added once, by the constructor, before any message is shown. *)
Definition live_page (p : Page) (fs : list Fragment) : Page :=
  mkPage (first_some (page_h1 p :: map frag_h1 fs)) (page_title p)
    (page_sections p ++ mjoin (map frag_sections fs))
    (page_code p ++ mjoin (map frag_code fs))
    (page_questions p ++ mjoin (map frag_questions fs))
    (page_code_at p) (page_buttons p).

(** [a || b] on strings: the empty string is falsy. *)
Definition js_or (a b : jstr) : jstr := if bool_decide (a = []) then b else a.

(** [x?.textContent || b]: an absent element gives undefined. *)
Definition opt_or (o : option jstr) (b : jstr) : jstr :=
  match o with Some a => js_or a b | None => b end.

(** Line 231. *)
Definition page_title_text (p : Page) : jstr := opt_or (page_h1 p) (js_or (page_title p) []).

(** The callback of lines 235-241; [None] when nothing is pushed. *)
Definition section_entry (section : HomeworkSection) : option jstr :=
  let sectionTitle := opt_or (sec_heading section) [] in
  let sectionText := substring (sec_text section) 0 500 in
  if bool_decide (sectionTitle = []) then None
  else Some (sectionTitle ++ lit ": " ++ sectionText).

Definition push_some (acc : list jstr) (o : option jstr) : list jstr :=
  match o with Some x => acc ++ [x] | None => acc end.

Definition page_sections_text (p : Page) : list jstr :=
  fold_left (fun acc s => push_some acc (section_entry s)) (page_sections p) [].

(** Lines 244-248: [index] counts from zero. *)
Definition code_entry (index : nat) (code : jstr) : jstr :=
  lit "代码块" ++ number_to_string (index + 1) ++ lit ": " ++ substring code 0 300.

Definition page_code_text (p : Page) : list jstr := imap code_entry (page_code p).

(** Lines 251-257. *)
Definition question_entry (q : jstr) : option jstr :=
  let questionText := js_trim q in
  if bool_decide (questionText = []) then None else Some questionText.

Definition page_questions_text (p : Page) : list jstr :=
  fold_left (fun acc q => push_some acc (question_entry q)) (page_questions p) [].

(** [context += `${header}${items.slice(0, n).join(sep)}\n\n`] when [items]
    is not empty (lines 262-272). *)
Definition add_part (context header sep : jstr) (n : nat) (items : list jstr) : jstr :=
  if 0 <? length items then context ++ header ++ js_join sep (take n items) ++ lit "\n\n"
  else context.

(** The context before the length check (lines 260-272). *)
Definition build_context (p : Page) : jstr :=
  let context := lit "# 当前页面：" ++ page_title_text p ++ lit "\n\n" in
  let context := add_part context (lit "## 作业问题：\n") (lit "\n") 5 (page_questions_text p) in
  let context := add_part context (lit "## 主要内容：\n") (lit "\n\n") 8 (page_sections_text p) in
  add_part context (lit "## 代码示例：\n") (lit "\n\n") 3 (page_code_text p).

Definition truncation_note : jstr := lit "\n...(内容已截断)".

(** Lines 275-279. *)
Definition getPageContext (p : Page) : jstr :=
  let context := build_context p in
  if 4000 <? length context then substring context 0 4000 ++ truncation_note
  else context.

(** ** Properties *)

Lemma truncation_note_length : length truncation_note = 11.
Proof. reflexivity. Qed.

(** C16: The context sent to the model is never longer than 4000 code units
    plus the eleven of the truncation note, whatever the page holds. *)
Theorem getPageContext_bound (p : Page) :
  length (getPageContext p) <= 4000 + length truncation_note.
Proof.
  unfold getPageContext. destruct (4000 <? length (build_context p)) eqn:E.
  - rewrite length_app, substring_0, length_take. lia.
  - apply Nat.ltb_ge in E. lia.
Qed.

(** The truncation keeps the beginning: the first 4000 code units of
    the context are those of the text built from the page, and a text of
    at most 4000 code units is sent unchanged. *)
Theorem getPageContext_prefix (p : Page) :
  take 4000 (getPageContext p) = take 4000 (build_context p)
  /\ (length (build_context p) <= 4000 -> getPageContext p = build_context p).
Proof.
  unfold getPageContext. destruct (4000 <? length (build_context p)) eqn:E.
  - apply Nat.ltb_lt in E. split; [|lia].
    rewrite substring_0, take_app_le, take_take, Nat.min_id; [reflexivity|].
    rewrite length_take. lia.
  - split; reflexivity.
Qed.

(** A part of the context reads only the first [n] of its items. *)
Lemma add_part_app context header sep n (l1 l2 : list jstr) :
  0 < n -> n <= length l1 ->
  add_part context header sep n (l1 ++ l2) = add_part context header sep n l1.
Proof.
  intros Hn Hl. unfold add_part. rewrite length_app, take_app_le by done.
  by rewrite !(proj2 (Nat.ltb_lt _ _)) by lia.
Qed.

(** A fragment without its code elements. *)
Definition drop_code (f : Fragment) : Fragment :=
  mkFragment (frag_h1 f) (frag_sections f) [] (frag_questions f).

(** C17: Only the first three code blocks of the document reach the
    context ([slice(0, 3)], line 270): once the page itself has three
    [pre code] elements, the code blocks of the messages shown in the
    chat never change the context sent to the model. *)
Theorem context_ignores_chat_code (p : Page) (fs : list Fragment) :
  3 <= length (page_code p) ->
  getPageContext (live_page p fs) = getPageContext (live_page p (map drop_code fs)).
Proof.
  intros H.
  assert (E : build_context (live_page p fs) = build_context (live_page p (map drop_code fs))).
  { unfold build_context, page_code_text, page_sections_text, page_questions_text, page_title_text.
    cbn [live_page page_code page_h1 page_title page_sections page_questions].
    rewrite !imap_app, !add_part_app by (rewrite ?length_imap; lia).
    rewrite !map_map. reflexivity. }
  unfold getPageContext. by rewrite E.
Qed.

Lemma context_ignores_chat_code_witness :
  getPageContext (live_page (mkPage None (lit "HW") [] [lit "a"; lit "b"; lit "c"] [] [] [])
                            [mkFragment None [] [lit "d"] []])
  = getPageContext (live_page (mkPage None (lit "HW") [] [lit "a"; lit "b"; lit "c"] [] [] [])
                              (map drop_code [mkFragment None [] [lit "d"] []])).
Proof. apply context_ignores_chat_code. cbn. lia. Defined.

(** On a page without [h1] the title comes from [document.title]; a
    section without [h2] or [h3] is left out of the main content, blank
    questions are dropped, and the code blocks are numbered from one. *)
Example getPageContext_example :
  getPageContext
    (mkPage None (lit "HW1") [mkSection (Some (lit "Intro")) (lit "Intro text");
                              mkSection None (lit "no heading")]
            [lit "x = 1"; lit "y = 2"] [lit "  Q1 "; lit "   "] [(0, [9]); (1, [9])] [])
  = lit "# 当前页面：HW1\n\n## 作业问题：\nQ1\n\n## 主要内容：\nIntro: Intro text\n\n"
    ++ lit "## 代码示例：\n代码块1: x = 1\n\n代码块2: y = 2\n\n".
Proof. vm_compute. reflexivity. Qed.
