(* ===== verification/UI.v ===== *)
(** * The markup of [createAssistantUI] and the buttons of [addCodeBlockButtons]

    [createAssistantUI] (lines 16-85) inserts one template literal whose
    only interpolation is the key, in the [value] attribute of the key
    input (line 68).  The template is kept verbatim as the two texts
    around the key.  What an HTML parser makes of the attribute is
    [markup_value]: the text after the first [value=] and double quote of
    the key input, up to the next double quote ([attribute_value]).  The
    model does not decode character references, so it is used only for
    keys without an ampersand, where there is nothing to decode.

    [addCodeBlockButtons] (lines 120-137) gives a [pre code] element a
    button, appended to its parent element, unless some button is already
    inside that parent ([has_button], the [querySelector] of line 124);
    [code_buttons] is the list of the codes the buttons ask about, in the
    order they were added. *)

From stdpp Require Import sets.
From S2P Require Import Prelude JsString PageContext.

(** A text given by its segments between double quotes. *)
Definition quoted (segments : list string) : jstr := js_join [34%N] (map lit segments).

Section Template.
Local Open Scope string_scope.

(** The template up to [${this.apiKey}] (lines 17-68); it ends with the
    double quote that opens the attribute value. *)
Definition ui_before : jstr :=
  quoted
  ["\n            <!-- AI助手浮动按钮 -->\n            <div id=";
   "ai-assistant-btn";
   " class=";
   "ai-assistant-btn";
   " title=";
   "AI助手";
   ">\n                <i class=";
   "fas fa-robot";
   "></i>\n            </div>\n\n            <!-- AI助手面板 -->\n            <div id=";
   "ai-assistant-panel";
   " class=";
   "ai-assistant-panel";
   ">\n                <div class=";
   "ai-assistant-header";
   ">\n                    <div class=";
   "ai-assistant-title";
   ">\n                        <i class=";
   "fas fa-robot";
   "></i>\n                        <span>AI学习助手</span>\n                    </div>\n                    <div class=";
   "ai-assistant-actions";
   ">\n                        <button id=";
   "ai-settings-btn";
   " class=";
   "ai-icon-btn";
   " title=";
   "设置API密钥";
   ">\n                            <i class=";
   "fas fa-cog";
   "></i>\n                        </button>\n                        <button id=";
   "ai-clear-btn";
   " class=";
   "ai-icon-btn";
   " title=";
   "清空对话";
   ">\n                            <i class=";
   "fas fa-trash";
   "></i>\n                        </button>\n                        <button id=";
   "ai-close-btn";
   " class=";
   "ai-icon-btn";
   " title=";
   "关闭";
   ">\n                            <i class=";
   "fas fa-times";
   "></i>\n                        </button>\n                    </div>\n                </div>\n                \n                <div id=";
   "ai-chat-messages";
   " class=";
   "ai-chat-messages";
   ">\n                    <div class=";
   "ai-welcome-message";
   ">\n                        <i class=";
   "fas fa-hand-sparkles";
   "></i>\n                        <p>你好！我是你的AI学习助手，可以帮你解答课程相关的问题。</p>\n                        <p class=";
   "ai-hint";
   ">💡 提示：点击代码块右上角的按钮可以快速提问</p>\n                    </div>\n                </div>\n\n                <div class=";
   "ai-input-area";
   ">\n                    <textarea id=";
   "ai-input";
   " placeholder=";
   "输入你的问题...";
   " rows=";
   "2";
   "></textarea>\n                    <button id=";
   "ai-send-btn";
   " class=";
   "ai-send-btn";
   ">\n                        <i class=";
   "fas fa-paper-plane";
   "></i>\n                    </button>\n                </div>\n            </div>\n\n            <!-- API设置模态框 -->\n            <div id=";
   "ai-settings-modal";
   " class=";
   "ai-modal";
   ">\n                <div class=";
   "ai-modal-content";
   ">\n                    <div class=";
   "ai-modal-header";
   ">\n                        <h3><i class=";
   "fas fa-key";
   "></i> DeepSeek API设置</h3>\n                        <button class=";
   "ai-modal-close";
   ">&times;</button>\n                    </div>\n                    <div class=";
   "ai-modal-body";
   ">\n                        <p>请输入你的DeepSeek API密钥：</p>\n                        <input type=";
   "password";
   " id=";
   "api-key-input";
   " placeholder=";
   "sk-...";
   " value="] ++ [34%N].

(** The template after [${this.apiKey}] (lines 68-81), from the double
    quote that closes the attribute value. *)
Definition ui_after : jstr :=
  [34%N] ++ quoted
  [">\n                        <p class=";
   "ai-hint";
   ">\n                            <i class=";
   "fas fa-info-circle";
   "></i> \n                            API密钥将安全地存储在浏览器本地，不会上传到服务器。\n                            <br>获取API密钥：<a href=";
   "https://platform.deepseek.com";
   " target=";
   "_blank";
   ">DeepSeek平台</a>\n                        </p>\n                    </div>\n                    <div class=";
   "ai-modal-footer";
   ">\n                        <button id=";
   "save-api-key-btn";
   " class=";
   "ai-btn-primary";
   ">保存</button>\n                        <button class=";
   "ai-btn-secondary ai-modal-close";
   ">取消</button>\n                    </div>\n                </div>\n            </div>\n        "].

End Template.

(** [assistantHTML] (lines 17-81). *)
Definition assistantHTML (apiKey : jstr) : jstr := ui_before ++ apiKey ++ ui_after.

(** ** The key input's value *)

(** The value the HTML parser gives to [value="${this.apiKey}"] (line
    68): the key is not escaped, so its text ends at its first double
    quote.  Character references in the key are not decoded by the
    model. *)
Fixpoint attribute_value (v : jstr) : jstr :=
  match v with
  | [] => []
  | c :: v' => if (c =? 34)%N then [] else c :: attribute_value v'
  end.

(** The attributes before the value in the key input, up to the double
    quote that opens the value. *)
Definition key_marker : jstr :=
  lit " placeholder=" ++ [34%N] ++ lit "sk-..." ++ [34%N] ++ lit " value=" ++ [34%N].

(** The value of the key input as the parser reads it from the markup. *)
Definition markup_value (html : jstr) : jstr :=
  match string_index_of html key_marker 0 with
  | Some i => attribute_value (drop (i + length key_marker) html)
  | None => []
  end.

(** ** The buttons of the code blocks *)

(** [pre.querySelector('.code-ai-btn')] (line 124) on the parent [pre]
    of a code element: some button has [pre] among its ancestors. *)
Definition has_button (buttons : list (list nat)) (pre : nat) : bool :=
  existsb (fun ancestors => bool_decide (pre ∈ ancestors)) buttons.

(** A code element: its text, its parent element and the ancestors
    above the parent. *)
Abbreviation code_elem := (jstr * (nat * list nat))%type.

(** The ancestors of the button appended to the parent of a code
    element (line 133): that parent and the parent's ancestors. *)
Definition button_ancestors (x : code_elem) : list nat := x.2.1 :: x.2.2.

(** The loop of [addCodeBlockButtons] (lines 122-136) over the
    [pre code] elements in document order, with the ancestors of the
    buttons in the document: an element whose parent holds no button gets
    one.  The result lists the code elements given a button, in order. *)
Fixpoint add_buttons (buttons : list (list nat)) (codes : list code_elem) : list code_elem :=
  match codes with
  | [] => []
  | x :: rest =>
      if has_button buttons x.2.1 then add_buttons buttons rest
      else x :: add_buttons (button_ancestors x :: buttons) rest
  end.

(** The code elements of the page, and the texts the buttons ask about,
    in the order the buttons were added. *)
Definition code_elems (p : Page) : list code_elem := zip (page_code p) (page_code_at p).

Definition code_buttons (p : Page) : list jstr :=
  map fst (add_buttons (page_buttons p) (code_elems p)).

(** ** Lemmas *)

Lemma attribute_value_quote k r : attribute_value (k ++ 34%N :: r) = attribute_value k.
Proof.
  induction k as [|c k IH]; [reflexivity|]. cbn [app attribute_value].
  by destruct (c =? 34)%N; [|rewrite IH].
Qed.

Lemma attribute_value_avoid k : avoids (fun c => (c =? 34)%N) k = true -> attribute_value k = k.
Proof.
  induction k as [|c k IH]; [done|]. rewrite avoids_cons. intros H.
  apply andb_prop in H as [Hc Hk]. apply negb_true_iff in Hc.
  cbn [attribute_value]. by rewrite Hc, IH.
Qed.

Lemma is_prefix_app_long (pat x r : jstr) :
  length pat <= length x -> is_prefix pat (x ++ r) = is_prefix pat x.
Proof.
  revert x; induction pat as [|a pat IH]; intros x H; [reflexivity|].
  destruct x as [|b x]; cbn in H; [lia|]. cbn. rewrite IH by lia. reflexivity.
Qed.

Lemma is_prefix_drop_app (pat p r : jstr) k :
  k + length pat <= length p -> is_prefix pat (drop k (p ++ r)) = is_prefix pat (drop k p).
Proof.
  intros H. rewrite drop_app_le by lia. apply is_prefix_app_long. rewrite length_drop. lia.
Qed.

(** The marker ends the text before the key and occurs nowhere earlier. *)
Lemma ui_before_marker :
  length key_marker <= length ui_before /\
  is_prefix key_marker (drop (length ui_before - length key_marker) ui_before) = true.
Proof. split; [vm_compute; lia | js_eval]. Qed.

Lemma ui_before_marker_first k :
  k < length ui_before - length key_marker -> is_prefix key_marker (drop k ui_before) = false.
Proof.
  intros Hk.
  assert (H : forallb (fun k => negb (is_prefix key_marker (drop k ui_before)))
                (seq 0 (length ui_before - length key_marker)) = true) by js_eval.
  rewrite forallb_forall in H. specialize (H k). rewrite in_seq in H.
  apply negb_true_iff, H. lia.
Qed.

(** The parser reads back from the markup the key as [attribute_value]
    cuts it. *)
Lemma markup_value_key (key : jstr) : markup_value (assistantHTML key) = attribute_value key.
Proof.
  destruct ui_before_marker as [Hlen Hend].
  unfold markup_value, string_index_of, assistantHTML.
  rewrite (proj2 (Nat.leb_le 0 _)) by lia. rewrite drop_0.
  rewrite (index_from_first _ _ 0 (length ui_before - length key_marker)).
  - cbn [Nat.add]. replace (length ui_before - length key_marker + length key_marker)
      with (length ui_before) by lia.
    rewrite drop_app_length. unfold ui_after. cbn [app]. apply attribute_value_quote.
  - rewrite is_prefix_drop_app by lia. exact Hend.
  - intros k Hk. rewrite is_prefix_drop_app by lia. by apply ui_before_marker_first.
Qed.

Lemma has_button_true buttons pre :
  has_button buttons pre = true <-> exists b, b ∈ buttons /\ pre ∈ b.
Proof.
  unfold has_button. rewrite existsb_exists.
  setoid_rewrite <- list_elem_of_In. setoid_rewrite bool_decide_eq_true. done.
Qed.

(** Every code element ends with a button inside its parent: one of the
    page's, or one the loop added. *)
Lemma add_buttons_cover buttons codes x :
  x ∈ codes -> exists b, b ∈ buttons ++ map button_ancestors (add_buttons buttons codes) /\ x.2.1 ∈ b.
Proof.
  revert buttons; induction codes as [|y codes IH]; intros buttons Hx; [set_solver|].
  cbn [add_buttons]. apply elem_of_cons in Hx as [->|Hx].
  - destruct (has_button buttons y.2.1) eqn:E.
    + apply has_button_true in E as (b & Hb & Hy). exists b. set_solver.
    + exists (button_ancestors y). split; [set_solver | apply elem_of_cons; by left].
  - destruct (has_button buttons y.2.1); [by apply IH|].
    destruct (IH (button_ancestors y :: buttons) Hx) as (b & Hb & Hxb). exists b.
    split; [|done]. cbn [map]. rewrite elem_of_app, elem_of_cons in Hb.
    rewrite elem_of_app, elem_of_cons. tauto.
Qed.

(** The elements given a button have parents without a button before,
    and distinct parents. *)
Lemma add_buttons_fresh buttons codes :
  Forall (fun x => has_button buttons x.2.1 = false) (add_buttons buttons codes) /\
  NoDup (map (fun x : code_elem => x.2.1) (add_buttons buttons codes)).
Proof.
  revert buttons; induction codes as [|y codes IH]; intros buttons; [split; constructor|].
  cbn [add_buttons]. destruct (has_button buttons y.2.1) eqn:E; [apply IH|].
  destruct (IH (button_ancestors y :: buttons)) as [Hf Hnd].
  assert (Hf' : Forall (fun x => has_button buttons x.2.1 = false /\ x.2.1 <> y.2.1)
                  (add_buttons (button_ancestors y :: buttons) codes)).
  { eapply Forall_impl; [exact Hf|]. intros x Hx. cbn in Hx.
    apply orb_false_iff in Hx as [H1 H2]. apply bool_decide_eq_false in H1.
    split; [done|]. intros Heq. apply H1. rewrite Heq. apply elem_of_cons. by left. }
  split.
  - constructor; [done|]. eapply Forall_impl; [exact Hf'|]. by intros x [].
  - cbn [map]. constructor; [|done]. rewrite list_elem_of_In, in_map_iff.
    intros (x & Hxy & Hx). apply list_elem_of_In in Hx.
    rewrite Forall_forall in Hf'. by apply (Hf' x).
Qed.

(** C19: After [addCodeBlockButtons], every [pre code] element of the
    page has a button inside its parent element (one already in the page,
    or one the loop added), and the loop never adds two buttons to the
    same parent. *)
Theorem code_buttons_cover (p : Page) :
  let added := add_buttons (page_buttons p) (code_elems p) in
  (forall x, x ∈ code_elems p ->
     exists b, b ∈ page_buttons p ++ map button_ancestors added /\ x.2.1 ∈ b) /\
  NoDup (map (fun x : code_elem => x.2.1) added).
Proof.
  split; [intros x; apply add_buttons_cover | apply add_buttons_fresh].
Qed.

(** Two code elements in one [pre] get one button, for the first; and a
    code element whose parent holds the parent of an earlier one, as in
    [<pre><span><code>a</code></span><code>b</code></pre>], gets none, as
    [querySelector] finds the button of the earlier one among the
    descendants: the second block cannot be asked about with a button,
    while the context sent to the model lists it. *)
Example code_buttons_shared_parent :
  code_buttons (mkPage None [] [] [lit "a"; lit "b"] [] [(7, [1]); (7, [1])] []) = [lit "a"]
  /\ code_buttons (mkPage None [] [] [lit "a"; lit "b"] [] [(2, [1; 0]); (1, [0])] []) = [lit "a"].
Proof. split; reflexivity. Qed.
