(* ===== verification/Controller.v ===== *)
(** * The controller: class [AIAssistant] (src/ai-assistant.js, lines 1-373)

    The object's fields [apiKey], [chatHistory] and [isOpen], together with
    the parts of the document and of the browser that its methods write,
    form the record [Assistant]: the class of the panel, the display of the
    settings dialog, the children of [#ai-chat-messages], the values of the
    two inputs, the key in [localStorage], the pending [setTimeout]
    callbacks, the [callDeepSeekAPI] calls that wait for their response,
    the texts passed to [alert], and the number of [Date.now()] calls made.
    [Date.now()] is the function [clock] of the section: its value at the
    k-th call.  The document is the section's [doc]: the page as loaded
    and the browser's parser of a message; [getPageContext] reads the
    page followed by the messages of the chat at the time of the call
    ([document_page]).  The methods are written in the state monad [M], so that
    they call each other as the source does.  [sendMessage] is split at its
    [await]: [sendMessage] runs up to the [fetch] and leaves a [Pending]
    call; [sendMessage_resume] runs when the response arrives.  The events
    of [attachEventListeners] and the two kinds of callbacks are the type
    [Event]; [handle] runs one of them. *)

From S2P Require Import Prelude JsString Escape Format PageContext UI.

#[local] Arguments lit : simpl never.

(** ** Data *)

(** An element of [chatHistory] or of the [messages] of a request. *)
Record ChatMsg := mkChatMsg {
  cm_role : jstr;
  cm_content : jstr
}.

(** The document the assistant lives in: the page as it was loaded, and
    what the browser's HTML parser finds in the markup of a message (the
    parser is the browser's; [insertAdjacentHTML] parses each message on
    its own). *)
Record Document := mkDocument {
  doc_page : Page;
  doc_parse : jstr -> Fragment
}.

(** [style.display] of [#ai-settings-modal]; [DisplayUnset] before any
    assignment, when the stylesheet decides. *)
Inductive Display := DisplayUnset | DisplayFlex | DisplayNone.

(** A child of [#ai-chat-messages]: the welcome block (the one of
    [createAssistantUI], or the one [clearChat] writes) or a message of
    [addMessage] with its [id], its [role], the icon of its avatar, the
    HTML made by [formatMessage] and whether it has the class [loading]. *)
Inductive ChatNode :=
  | WelcomeNode (cleared : bool)
  | MessageNode (id role icon html : jstr) (loading : bool).

(** What the selectors of [getPageContext] find in a child of
    [#ai-chat-messages]: the welcome blocks hold none of them; a message
    holds what its HTML holds (the markup around it holds none). *)
Definition node_fragment (parse : jstr -> Fragment) (n : ChatNode) : Fragment :=
  match n with
  | WelcomeNode _ => no_fragment
  | MessageNode _ _ _ html _ => parse html
  end.

(** The document as the selectors see it when [#ai-chat-messages] holds
    [ns]: the page, then the chat, which [createAssistantUI] put at the
    end of the [body]. *)
Definition document_page (doc : Document) (ns : list ChatNode) : Page :=
  live_page (doc_page doc) (map (node_fragment (doc_parse doc)) ns).

(** The callbacks given to [setTimeout] (lines 145 and 223). *)
Inductive Timer := TimerOpenSettings | TimerSendMessage.

(** A call of [sendMessage] suspended at [await this.callDeepSeekAPI]:
    the variables its continuation reads ([message], [loadingId]) and the
    request sent: the [Authorization] header and the [messages] of the
    body (the other fields of the body are constants). *)
Record Pending := mkPending {
  pd_message : jstr;
  pd_loadingId : jstr;
  pd_authorization : jstr;
  pd_messages : list ChatMsg
}.

(** How the awaited [fetch] and [response.json()] end: a successful
    response whose [data.choices[0].message.content] is [content]; a
    response that is not [ok], whose body has [error.message] or not; or
    an exception with its message (the network fails, the body is not
    JSON, or [data.choices[0]] is undefined). *)
Inductive Response :=
  | Answer (content : jstr)
  | ApiError (message : option jstr)
  | Thrown (message : jstr).

Record Assistant := mkAssistant {
  apiKey : jstr;
  chatHistory : list ChatMsg;
  isOpen : bool;
  panelOpen : bool;
  modalDisplay : Display;
  chatNodes : list ChatNode;
  inputValue : jstr;
  keyInputValue : jstr;
  storedKey : option jstr;
  timers : list Timer;
  pending : list Pending;
  alerts : list jstr;
  clockReads : nat
}.

(** ** Field updates *)

Definition set_apiKey v s := mkAssistant v (chatHistory s) (isOpen s) (panelOpen s) (modalDisplay s) (chatNodes s) (inputValue s) (keyInputValue s) (storedKey s) (timers s) (pending s) (alerts s) (clockReads s).
Definition set_chatHistory v s := mkAssistant (apiKey s) v (isOpen s) (panelOpen s) (modalDisplay s) (chatNodes s) (inputValue s) (keyInputValue s) (storedKey s) (timers s) (pending s) (alerts s) (clockReads s).
Definition set_isOpen v s := mkAssistant (apiKey s) (chatHistory s) v (panelOpen s) (modalDisplay s) (chatNodes s) (inputValue s) (keyInputValue s) (storedKey s) (timers s) (pending s) (alerts s) (clockReads s).
Definition set_panelOpen v s := mkAssistant (apiKey s) (chatHistory s) (isOpen s) v (modalDisplay s) (chatNodes s) (inputValue s) (keyInputValue s) (storedKey s) (timers s) (pending s) (alerts s) (clockReads s).
Definition set_modalDisplay v s := mkAssistant (apiKey s) (chatHistory s) (isOpen s) (panelOpen s) v (chatNodes s) (inputValue s) (keyInputValue s) (storedKey s) (timers s) (pending s) (alerts s) (clockReads s).
Definition set_chatNodes v s := mkAssistant (apiKey s) (chatHistory s) (isOpen s) (panelOpen s) (modalDisplay s) v (inputValue s) (keyInputValue s) (storedKey s) (timers s) (pending s) (alerts s) (clockReads s).
Definition set_inputValue v s := mkAssistant (apiKey s) (chatHistory s) (isOpen s) (panelOpen s) (modalDisplay s) (chatNodes s) v (keyInputValue s) (storedKey s) (timers s) (pending s) (alerts s) (clockReads s).
Definition set_keyInputValue v s := mkAssistant (apiKey s) (chatHistory s) (isOpen s) (panelOpen s) (modalDisplay s) (chatNodes s) (inputValue s) v (storedKey s) (timers s) (pending s) (alerts s) (clockReads s).
Definition set_storedKey v s := mkAssistant (apiKey s) (chatHistory s) (isOpen s) (panelOpen s) (modalDisplay s) (chatNodes s) (inputValue s) (keyInputValue s) v (timers s) (pending s) (alerts s) (clockReads s).
Definition set_timers v s := mkAssistant (apiKey s) (chatHistory s) (isOpen s) (panelOpen s) (modalDisplay s) (chatNodes s) (inputValue s) (keyInputValue s) (storedKey s) v (pending s) (alerts s) (clockReads s).
Definition set_pending v s := mkAssistant (apiKey s) (chatHistory s) (isOpen s) (panelOpen s) (modalDisplay s) (chatNodes s) (inputValue s) (keyInputValue s) (storedKey s) (timers s) v (alerts s) (clockReads s).
Definition set_alerts v s := mkAssistant (apiKey s) (chatHistory s) (isOpen s) (panelOpen s) (modalDisplay s) (chatNodes s) (inputValue s) (keyInputValue s) (storedKey s) (timers s) (pending s) v (clockReads s).
Definition set_clockReads v s := mkAssistant (apiKey s) (chatHistory s) (isOpen s) (panelOpen s) (modalDisplay s) (chatNodes s) (inputValue s) (keyInputValue s) (storedKey s) (timers s) (pending s) (alerts s) v.

Arguments set_apiKey _ !_ /.
Arguments set_chatHistory _ !_ /.
Arguments set_isOpen _ !_ /.
Arguments set_panelOpen _ !_ /.
Arguments set_modalDisplay _ !_ /.
Arguments set_chatNodes _ !_ /.
Arguments set_inputValue _ !_ /.
Arguments set_keyInputValue _ !_ /.
Arguments set_storedKey _ !_ /.
Arguments set_timers _ !_ /.
Arguments set_pending _ !_ /.
Arguments set_alerts _ !_ /.
Arguments set_clockReads _ !_ /.

(** ** The state monad of the methods *)

Definition M (A : Type) : Type := Assistant -> A * Assistant.

#[export] Instance M_ret : MRet M := fun A a s => (a, s).
#[export] Instance M_bind : MBind M := fun A B f m s => let '(a, s') := m s in f a s'.

Definition gets {A} (f : Assistant -> A) : M A := fun s => (f s, s).
Definition modify (f : Assistant -> Assistant) : M unit := fun s => (tt, f s).

(** The final state of a run. *)
Definition exec {A} (m : M A) (s : Assistant) : Assistant := snd (m s).

(** [!s] on a string. *)
Definition is_empty (s : jstr) : bool := match s with [] => true | _ => false end.

(** [arr.slice(-n)]: the last [n] elements. *)
Definition slice_last {A} (n : nat) (l : list A) : list A := drop (length l - n) l.

(** ** The methods *)

Section Methods.

(** [Date.now()] at its k-th call, and the document the assistant is loaded in. *)
Variable clock : nat -> N.
Variable doc : Document.

Definition date_now : M N :=
  fun s => (clock (clockReads s), set_clockReads (S (clockReads s)) s).

(** The avatar icon of lines 350-352. *)
Definition message_icon (role : jstr) : jstr :=
  if bool_decide (role = lit "user") then lit "user"
  else if bool_decide (role = lit "error") then lit "exclamation-triangle"
  else lit "robot".

(** [addMessage] (lines 347-366): append the message and return its id. *)
Definition addMessage (role content : jstr) (isLoading : bool) : M jstr :=
  t ← date_now;
  let messageId := lit "msg-" ++ N_to_string t in
  modify (fun s => set_chatNodes (chatNodes s ++
            [MessageNode messageId role (message_icon role) (formatMessage content) isLoading]) s);;
  mret messageId.

Definition node_has_id (id : jstr) (n : ChatNode) : bool :=
  match n with
  | MessageNode id' _ _ _ _ => bool_decide (id' = id)
  | WelcomeNode _ => false
  end.

(** [document.getElementById(id)] finds the first element in document
    order; [remove()] takes it out. *)
Fixpoint remove_first (id : jstr) (ns : list ChatNode) : list ChatNode :=
  match ns with
  | [] => []
  | n :: ns' => if node_has_id id n then ns' else n :: remove_first id ns'
  end.

(** [removeMessage] (lines 368-373). *)
Definition removeMessage (messageId : jstr) : M unit :=
  modify (fun s => set_chatNodes (remove_first messageId (chatNodes s)) s).

Definition openSettings : M unit := modify (set_modalDisplay DisplayFlex).
Definition closeSettings : M unit := modify (set_modalDisplay DisplayNone).

Definition schedule (t : Timer) : M unit := modify (fun s => set_timers (timers s ++ [t]) s).

(** [togglePanel] (lines 139-148). *)
Definition togglePanel : M unit :=
  modify (fun s => set_isOpen (negb (isOpen s)) s);;
  modify (fun s => set_panelOpen (isOpen s) s);;
  s ← gets id;
  if isOpen s && is_empty (apiKey s) then schedule TimerOpenSettings else mret tt.

Definition key_saved_text : jstr := lit "API密钥已保存！现在可以开始提问了。".
Definition invalid_key_text : jstr := lit "请输入有效的API密钥".

(** [saveApiKey] (lines 158-167). *)
Definition saveApiKey : M unit :=
  key ← gets (fun s => js_trim (keyInputValue s));
  if is_empty key then modify (fun s => set_alerts (alerts s ++ [invalid_key_text]) s)
  else
    modify (set_apiKey key);;
    modify (set_storedKey (Some key));;
    closeSettings;;
    _ ← addMessage (lit "system") key_saved_text false;
    mret tt.

(** [clearChat] (lines 169-181); [confirmed] is the answer to [confirm]. *)
Definition clearChat (confirmed : bool) : M unit :=
  if confirmed then
    modify (set_chatHistory []);;
    modify (set_chatNodes [WelcomeNode true])
  else mret tt.

(** The system message of [callDeepSeekAPI] (lines 286-301). *)
Definition system_prompt (context : jstr) : jstr :=
  lit "你是一个专业的AI课程学习助手，专门帮助学生理解" ++ [34%N] ++ lit "高级人工智能" ++ [34%N]
  ++ lit "课程的内容。\n\n当前学习材料的完整内容如下：\n" ++ context
  ++ lit "\n\n你的任务：\n1. 基于上述完整的课程内容回答学生的问题\n2. 如果问题涉及代码，请结合上下文中的代码示例进行解释\n3. 如果问题涉及算法或概念，请参考上下文中的详细说明\n4. 用清晰、易懂的方式回答，必要时使用公式、代码示例或类比\n5. 如果上下文中没有相关信息，请诚实地说明，并提供你的一般性知识\n\n回答风格：\n- 简洁明了，重点突出\n- 使用markdown格式（代码块、加粗、列表等）\n- 适当使用emoji增加可读性\n- 如果是复杂概念，先给出简单解释，再深入细节".

Definition request_messages (history : list ChatMsg) (message context : jstr) : list ChatMsg :=
  [mkChatMsg (lit "system") (system_prompt context)] ++ history ++ [mkChatMsg (lit "user") message].

(** [callDeepSeekAPI] up to [await fetch] (lines 282-318): the messages
    copy the history at the time of the call. *)
Definition callDeepSeekAPI (message context loadingId : jstr) : M unit :=
  s ← gets id;
  let messages := request_messages (chatHistory s) message context in
  modify (fun s => set_pending (pending s ++
            [mkPending message loadingId (lit "Bearer " ++ apiKey s) messages]) s).

Definition thinking_text : jstr := lit "正在思考...".

(** [sendMessage] up to its [await] (lines 183-205). *)
Definition sendMessage : M unit :=
  message ← gets (fun s => js_trim (inputValue s));
  if is_empty message then mret tt
  else
    key ← gets apiKey;
    if is_empty key then openSettings
    else
      _ ← addMessage (lit "user") message false;
      modify (set_inputValue []);;
      ns ← gets chatNodes;
      let context := getPageContext (document_page doc ns) in
      loadingId ← addMessage (lit "assistant") thinking_text true;
      callDeepSeekAPI message context loadingId.

(** Lines 334-342: push the exchange, keep the last twenty entries. *)
Definition push_exchange (message assistantMessage : jstr) (h : list ChatMsg) : list ChatMsg :=
  let h' := h ++ [mkChatMsg (lit "user") message; mkChatMsg (lit "assistant") assistantMessage] in
  if 20 <? length h' then slice_last 20 h' else h'.

Definition request_failed_text : jstr := lit "请求失败".

(** [callDeepSeekAPI] after its [await]s (lines 320-345): the answer, or
    the message of the exception it throws. *)
Definition callDeepSeekAPI_resume (message : jstr) (r : Response) : M (jstr + jstr) :=
  match r with
  | Answer assistantMessage =>
      modify (fun s => set_chatHistory (push_exchange message assistantMessage (chatHistory s)) s);;
      mret (inr assistantMessage)
  | ApiError m => mret (inl (opt_or m request_failed_text))
  | Thrown e => mret (inl e)
  end.

(** [sendMessage] after its [await] (lines 205-211). *)
Definition sendMessage_resume (p : Pending) (r : Response) : M unit :=
  result ← callDeepSeekAPI_resume (pd_message p) r;
  match result with
  | inr response =>
      removeMessage (pd_loadingId p);;
      _ ← addMessage (lit "assistant") response false; mret tt
  | inl err =>
      removeMessage (pd_loadingId p);;
      _ ← addMessage (lit "error") (lit "错误: " ++ err) false; mret tt
  end.

(** [askAboutCode] (lines 214-224). *)
Definition askAboutCode (code : jstr) : M unit :=
  o ← gets isOpen;
  (if negb o then togglePanel else mret tt);;
  modify (set_inputValue (lit "请解释以下代码：\n```\n" ++ code ++ lit "\n```"));;
  schedule TimerSendMessage.

End Methods.

(** ** Construction and events *)

(** The constructor with [init] (lines 3-14), given the value of
    [localStorage.getItem('deepseek_api_key')]. *)
Definition init (stored : option jstr) : Assistant :=
  let key := opt_or stored [] in
  mkAssistant key [] false false DisplayUnset [WelcomeNode false] []
              (markup_value (assistantHTML key)) stored [] [] [] 0.



(** The listeners of [attachEventListeners] (lines 88-117) and of the
    buttons of [addCodeBlockButtons] (lines 120-137), and the two
    asynchronous continuations: the oldest timer fires (all have the same
    delay of 300 ms), or the response of the [i]-th pending call arrives
    (responses may arrive in any order).  Typing in an input is
    [TypeInput] or [TypeKey] with the new value. *)
Inductive Event :=
  | ClickAssistantButton
  | ClickCloseButton
  | ClickSend
  | KeyDownEnter (shiftKey : bool)
  | ClickClear (confirmed : bool)
  | ClickSettings
  | ClickSave
  | ClickModalClose
  | ClickModal (onBackdrop : bool)
  | TypeInput (value : jstr)
  | TypeKey (value : jstr)
  | ClickCodeButton (index : nat)
  | FireTimer
  | Respond (index : nat) (r : Response).

Definition take_timer : M (option Timer) := fun s =>
  match timers s with
  | [] => (None, s)
  | t :: ts => (Some t, set_timers ts s)
  end.

Definition take_pending (i : nat) : M (option Pending) := fun s =>
  match nth_error (pending s) i with
  | Some p => (Some p, set_pending (delete i (pending s)) s)
  | None => (None, s)
  end.

Section Events.
Variable clock : nat -> N.
Variable doc : Document.

Definition run_timer (t : Timer) : M unit :=
  match t with
  | TimerOpenSettings => openSettings
  | TimerSendMessage => sendMessage clock doc
  end.

Definition handle (e : Event) : M unit :=
  match e with
  | ClickAssistantButton | ClickCloseButton => togglePanel
  | ClickSend => sendMessage clock doc
  | KeyDownEnter shiftKey => if shiftKey then mret tt else sendMessage clock doc
  | ClickClear confirmed => clearChat confirmed
  | ClickSettings => openSettings
  | ClickSave => saveApiKey clock
  | ClickModalClose => closeSettings
  | ClickModal onBackdrop => if onBackdrop then closeSettings else mret tt
  | TypeInput v => modify (set_inputValue v)
  | TypeKey v => modify (set_keyInputValue v)
  | ClickCodeButton i =>
      match nth_error (code_buttons (doc_page doc)) i with
      | Some code => askAboutCode code
      | None => mret tt
      end
  | FireTimer =>
      o ← take_timer;
      match o with Some t => run_timer t | None => mret tt end
  | Respond i r =>
      o ← take_pending i;
      match o with Some p => sendMessage_resume clock p r | None => mret tt end
  end.

(** The states of a page's life: from the constructor, any sequence of
    events. *)
Inductive reachable : Assistant -> Prop :=
  | reachable_init stored : reachable (init stored)
  | reachable_step s e : reachable s -> reachable (exec (handle e) s).

Definition run (es : list Event) (s : Assistant) : Assistant :=
  fold_left (fun s e => exec (handle e) s) es s.

End Events.

(** ** The methods as functions of the state *)

Definition msg_id (t : N) : jstr := lit "msg-" ++ N_to_string t.

Definition message_node (t : N) (role content : jstr) (loading : bool) : ChatNode :=
  MessageNode (msg_id t) role (message_icon role) (formatMessage content) loading.

(** Running a method on a state: the monad's operations are unfolded,
    and the texts the methods compute are left folded. *)
Ltac m_unfold :=
  unfold exec, mbind, M_bind, gets, modify, mret, M_ret, date_now; cbn zeta.
Ltac m_simpl :=
  cbn -[formatMessage getPageContext document_page lit N_to_string js_trim system_prompt message_icon].

Section Specs.
Variable clock : nat -> N.
Variable doc : Document.

Lemma addMessage_spec role content l s :
  addMessage clock role content l s
  = (msg_id (clock (clockReads s)),
     set_chatNodes (chatNodes s ++ [message_node (clock (clockReads s)) role content l])
                   (set_clockReads (S (clockReads s)) s)).
Proof. reflexivity. Qed.

(** [sendMessage] on each of its three paths: nothing when the trimmed
    input is empty, the settings dialog when there is no key, otherwise
    two messages, an empty input and one more pending request. *)
Lemma sendMessage_spec s :
  exec (sendMessage clock doc) s =
  let message := js_trim (inputValue s) in
  if is_empty message then s
  else if is_empty (apiKey s) then set_modalDisplay DisplayFlex s
  else
    let k := clockReads s in
    mkAssistant (apiKey s) (chatHistory s) (isOpen s) (panelOpen s) (modalDisplay s)
      (chatNodes s ++ [message_node (clock k) (lit "user") message false;
                       message_node (clock (S k)) (lit "assistant") thinking_text true])
      [] (keyInputValue s) (storedKey s) (timers s)
      (pending s ++ [mkPending message (msg_id (clock (S k))) (lit "Bearer " ++ apiKey s)
                       (request_messages (chatHistory s) message
                          (getPageContext (document_page doc
                             (chatNodes s ++ [message_node (clock k) (lit "user") message false]))))])
      (alerts s) (S (S k)).
Proof.
  unfold sendMessage, addMessage, callDeepSeekAPI. m_unfold.
  destruct (is_empty (js_trim (inputValue s))); [reflexivity|].
  destruct (is_empty (apiKey s)); [reflexivity|].
  destruct s; m_simpl. rewrite <- ?app_assoc. reflexivity.
Qed.

Lemma togglePanel_spec s :
  exec togglePanel s =
  let o := negb (isOpen s) in
  let s1 := set_panelOpen o (set_isOpen o s) in
  if o && is_empty (apiKey s) then set_timers (timers s ++ [TimerOpenSettings]) s1 else s1.
Proof. unfold togglePanel, schedule. m_unfold. destruct s; m_simpl. by case_match. Qed.

(** [saveApiKey] on its two paths: an alert for a blank key; otherwise
    the trimmed key is kept and stored, the dialog closed and a system
    message added. *)
Lemma saveApiKey_spec s :
  exec (saveApiKey clock) s =
  let key := js_trim (keyInputValue s) in
  if is_empty key then set_alerts (alerts s ++ [invalid_key_text]) s
  else
    let k := clockReads s in
    mkAssistant key (chatHistory s) (isOpen s) (panelOpen s) DisplayNone
      (chatNodes s ++ [message_node (clock k) (lit "system") key_saved_text false])
      (inputValue s) (keyInputValue s) (Some key) (timers s) (pending s) (alerts s) (S k).
Proof.
  unfold saveApiKey, addMessage, closeSettings. m_unfold.
  destruct (is_empty (js_trim (keyInputValue s))); [reflexivity|]. destruct s; reflexivity.
Qed.

Definition code_question (code : jstr) : jstr := lit "请解释以下代码：\n```\n" ++ code ++ lit "\n```".

Lemma askAboutCode_spec code s :
  exec (askAboutCode code) s =
  let s1 := if isOpen s then s else exec togglePanel s in
  set_timers (timers s1 ++ [TimerSendMessage]) (set_inputValue (code_question code) s1).
Proof.
  unfold askAboutCode, togglePanel, schedule, code_question. m_unfold.
  destruct s as [? ? [|] ? ? ? ? ? ? ? ? ? ?]; m_simpl; [reflexivity|]. by case_match.
Qed.

(** The three outcomes of the awaited call: the history after it, the
    role of the message shown and its text. *)
Definition resume_result (message : jstr) (r : Response) (h : list ChatMsg)
  : list ChatMsg * jstr * jstr :=
  match r with
  | Answer a => (push_exchange message a h, lit "assistant", a)
  | ApiError m => (h, lit "error", lit "错误: " ++ opt_or m request_failed_text)
  | Thrown e => (h, lit "error", lit "错误: " ++ e)
  end.

(** [sendMessage] after its [await]: the loading message is removed by
    its id, the answer or the error is appended. *)
Lemma sendMessage_resume_spec p r s :
  exec (sendMessage_resume clock p r) s =
  let '(h, role, text) := resume_result (pd_message p) r (chatHistory s) in
  let k := clockReads s in
  mkAssistant (apiKey s) h (isOpen s) (panelOpen s) (modalDisplay s)
    (remove_first (pd_loadingId p) (chatNodes s) ++ [message_node (clock k) role text false])
    (inputValue s) (keyInputValue s) (storedKey s) (timers s) (pending s) (alerts s) (S k).
Proof.
  unfold sendMessage_resume, callDeepSeekAPI_resume, removeMessage, addMessage. m_unfold.
  destruct r; destruct s; reflexivity.
Qed.

End Specs.

(** ** The invariant of the controller *)

(** The history alternates a user entry and an assistant entry. *)
Fixpoint alternating (h : list ChatMsg) : bool :=
  match h with
  | [] => true
  | u :: a :: h' =>
      bool_decide (cm_role u = lit "user") && bool_decide (cm_role a = lit "assistant")
      && alternating h'
  | [_] => false
  end.

Definition history_wf (h : list ChatMsg) : Prop := alternating h = true /\ length h <= 20.

(** A pending request sends a non-empty message with a non-empty key,
    after the system message and a well-formed history; the context of
    the system message was read from the document when the last child of
    the chat was the user's message of this request. *)
Definition request_wf (doc : Document) (p : Pending) : Prop :=
  exists h key ns t, history_wf h /\ key <> [] /\ pd_message p <> [] /\
    pd_authorization p = lit "Bearer " ++ key /\
    pd_messages p = request_messages h (pd_message p)
      (getPageContext (document_page doc (ns ++ [message_node t (lit "user") (pd_message p) false]))).

Record wf (doc : Document) (s : Assistant) : Prop := {
  wf_history : history_wf (chatHistory s);
  wf_panel : panelOpen s = isOpen s;
  wf_key : apiKey s = opt_or (storedKey s) [];
  wf_pending : Forall (request_wf doc) (pending s)
}.

(** ** Lemmas on the history *)

Lemma alternating_ind (P : list ChatMsg -> Prop) :
  P [] ->
  (forall u a h, cm_role u = lit "user" -> cm_role a = lit "assistant" ->
                 alternating h = true -> P h -> P (u :: a :: h)) ->
  forall h, alternating h = true -> P h.
Proof.
  intros H0 H2. fix IH 1. intros [|u [|a h]] Hh; [done|done|].
  cbn in Hh. apply andb_prop in Hh as [Hh Hrest]. apply andb_prop in Hh as [Hu Ha].
  apply bool_decide_eq_true in Hu, Ha. apply H2; auto.
Qed.

Lemma alternating_app h1 h2 :
  alternating h1 = true -> alternating (h1 ++ h2) = alternating h2.
Proof.
  revert h1. apply alternating_ind; [done|]. intros u a h1 Hu Ha _ IH.
  cbn. rewrite IH, Hu, Ha. by rewrite !bool_decide_eq_true_2.
Qed.

Lemma alternating_even h : alternating h = true -> exists k, length h = 2 * k.
Proof.
  revert h. apply alternating_ind; [by exists 0|]. intros u a h _ _ _ [k Hk].
  exists (S k). cbn. lia.
Qed.

Lemma alternating_exchange m a : alternating [mkChatMsg (lit "user") m; mkChatMsg (lit "assistant") a] = true.
Proof. reflexivity. Qed.

Lemma alternating_drop2 h : alternating h = true -> alternating (drop 2 h) = true.
Proof. revert h. apply alternating_ind; [done|]. intros u a h _ _ Hh _. by cbn. Qed.

(** The history stays alternating and at most twenty entries long. *)
Lemma push_exchange_wf m a h : history_wf h -> history_wf (push_exchange m a h).
Proof.
  intros [Halt Hlen]. unfold push_exchange, slice_last.
  assert (Happ : alternating (h ++ [mkChatMsg (lit "user") m; mkChatMsg (lit "assistant") a]) = true)
    by (rewrite alternating_app; auto using alternating_exchange).
  destruct (alternating_even _ Happ) as [k Hk]. rewrite length_app in Hk |- *. cbn [length] in Hk |- *.
  destruct (20 <? length h + 2) eqn:E; apply Nat.ltb_lt in E || apply Nat.ltb_ge in E.
  - replace (length h + 2 - 20) with 2 by lia. split; [by apply alternating_drop2|].
    rewrite length_drop, length_app. cbn [length]. lia.
  - split; [done|]. rewrite length_app. cbn [length]. lia.
Qed.

Lemma history_wf_nil : history_wf [].
Proof. split; [done|]. cbn [length]. lia. Qed.

Lemma is_empty_false (s : jstr) : is_empty s = false -> s <> [].
Proof. by destruct s. Qed.

Lemma opt_or_key (k : jstr) : k <> [] -> opt_or (Some k) [] = k.
Proof. intros H. unfold opt_or, js_or. by rewrite bool_decide_eq_false_2. Qed.

(** ** Every event keeps the invariant *)

Section Invariant.
Variable clock : nat -> N.
Variable doc : Document.

(** The invariant reads six fields; a step that keeps them keeps it. *)
Lemma wf_frame s s' :
  wf doc s ->
  chatHistory s' = chatHistory s -> panelOpen s' = panelOpen s -> isOpen s' = isOpen s ->
  apiKey s' = apiKey s -> storedKey s' = storedKey s -> pending s' = pending s ->
  wf doc s'.
Proof. intros [H1 H2 H3 H4] E1 E2 E3 E4 E5 E6. split; congruence. Qed.

Ltac frame := eapply wf_frame; [eassumption|reflexivity..].

Lemma togglePanel_wf s : wf doc s -> wf doc (exec togglePanel s).
Proof.
  intros [H1 H2 H3 H4]. rewrite togglePanel_spec. cbv zeta.
  case_match; split; cbn; auto.
Qed.

Lemma sendMessage_wf s : wf doc s -> wf doc (exec (sendMessage clock doc) s).
Proof.
  intros Hwf. rewrite sendMessage_spec. cbv zeta.
  destruct (is_empty (js_trim (inputValue s))) eqn:E1; [done|].
  destruct (is_empty (apiKey s)) eqn:E2; [by frame|].
  destruct Hwf as [H1 H2 H3 H4]. split; cbn; auto.
  apply Forall_app_2; [done|]. apply Forall_singleton.
  exists (chatHistory s), (apiKey s), (chatNodes s), (clock (clockReads s)).
  cbn. auto using is_empty_false.
Qed.

Lemma saveApiKey_wf s : wf doc s -> wf doc (exec (saveApiKey clock) s).
Proof.
  intros Hwf. rewrite saveApiKey_spec. cbv zeta.
  destruct (is_empty (js_trim (keyInputValue s))) eqn:E; [by frame|].
  destruct Hwf as [H1 H2 H3 H4]. split; cbn [apiKey storedKey chatHistory panelOpen isOpen pending]; auto.
  symmetry. auto using opt_or_key, is_empty_false.
Qed.

Lemma askAboutCode_wf code s : wf doc s -> wf doc (exec (askAboutCode code) s).
Proof.
  intros Hwf. rewrite askAboutCode_spec. cbv zeta.
  assert (wf doc (if isOpen s then s else exec togglePanel s)) as H
    by (destruct (isOpen s); auto using togglePanel_wf).
  by frame.
Qed.

Lemma sendMessage_resume_wf p r s : wf doc s -> wf doc (exec (sendMessage_resume clock p r) s).
Proof.
  intros [H1 H2 H3 H4]. rewrite sendMessage_resume_spec.
  destruct r; split; cbn; auto using push_exchange_wf.
Qed.

Lemma handle_FireTimer s :
  exec (handle clock doc FireTimer) s =
  match timers s with
  | [] => s
  | t :: ts => exec (run_timer clock doc t) (set_timers ts s)
  end.
Proof. unfold handle, take_timer. m_unfold. by destruct (timers s). Qed.

Lemma handle_Respond i r s :
  exec (handle clock doc (Respond i r)) s =
  match nth_error (pending s) i with
  | Some p => exec (sendMessage_resume clock p r) (set_pending (delete i (pending s)) s)
  | None => s
  end.
Proof. unfold handle, take_pending. m_unfold. by destruct (nth_error (pending s) i). Qed.

Lemma handle_wf e s : wf doc s -> wf doc (exec (handle clock doc e) s).
Proof.
  intros Hwf. destruct e as [| | |[|]|[|]| | | |[|]| | | | |i r].
  all: try rewrite handle_FireTimer; try rewrite handle_Respond.
  all: try solve [unfold exec, handle, mret, M_ret; cbn; by frame].
  all: try solve [apply togglePanel_wf || apply sendMessage_wf || apply saveApiKey_wf; done].
  - unfold exec, handle, clearChat, mbind, M_bind, modify. cbn.
    destruct Hwf as [H1 H2 H3 H4]. split; cbn; auto using history_wf_nil.
  - unfold handle. case_match; [by apply askAboutCode_wf|].
    unfold exec, mret, M_ret. cbn. by frame.
  - destruct (timers s) as [|[] ts]; [done| |]; [unfold exec, run_timer, openSettings, modify; cbn|];
      [by frame|apply sendMessage_wf; by frame].
  - destruct (nth_error (pending s) i) eqn:E; [|done]. apply sendMessage_resume_wf.
    destruct Hwf as [H1 H2 H3 H4]. split; cbn; auto. by apply Forall_delete.
Qed.

End Invariant.

(** The states reached from the constructor satisfy the invariant. *)
Lemma init_wf doc stored : wf doc (init stored).
Proof. split; cbn; auto using history_wf_nil. Qed.

Lemma reachable_wf clock doc s : reachable clock doc s -> wf doc s.
Proof. induction 1; auto using init_wf, handle_wf. Qed.

(** ** The history keeps the last ten exchanges *)

Definition exchange (m a : jstr) : list ChatMsg :=
  [mkChatMsg (lit "user") m; mkChatMsg (lit "assistant") a].

Lemma slice_last_app {A} n (l x : list A) :
  slice_last n (slice_last n l ++ x) = slice_last n (l ++ x).
Proof.
  unfold slice_last. rewrite !length_app, length_drop.
  rewrite <- drop_app_le by lia. rewrite drop_drop. f_equal. lia.
Qed.

Lemma push_exchange_slice m a h : push_exchange m a h = slice_last 20 (h ++ exchange m a).
Proof.
  unfold push_exchange, slice_last. fold (exchange m a).
  destruct (20 <? length (h ++ exchange m a)) eqn:E; [done|].
  apply Nat.ltb_ge in E. by replace (length (h ++ exchange m a) - 20) with 0 by lia.
Qed.

(** What changes the history: an answered request or a confirmed clear. *)
Inductive ConvEvent := Exchanged (message answer : jstr) | Cleared.

(** The implementation: [callDeepSeekAPI] pushes and trims, [clearChat]
    empties. *)
Definition conv_step (h : list ChatMsg) (e : ConvEvent) : list ChatMsg :=
  match e with Exchanged m a => push_exchange m a h | Cleared => [] end.

(** The specification: the log of every exchange since the last clear. *)
Definition log_step (log : list ChatMsg) (e : ConvEvent) : list ChatMsg :=
  match e with Exchanged m a => log ++ exchange m a | Cleared => [] end.

Lemma conv_fold_slice es h log :
  h = slice_last 20 log ->
  fold_left conv_step es h = slice_last 20 (fold_left log_step es log).
Proof.
  revert h log; induction es as [|[m a|] es IH]; intros h log ->; cbn; [done| |by apply IH].
  apply IH. by rewrite push_exchange_slice, slice_last_app.
Qed.

(** ** Sending and answering *)

Lemma remove_first_app id l r :
  Forall (fun n => node_has_id id n = false) l -> remove_first id (l ++ r) = l ++ remove_first id r.
Proof. induction 1 as [|n l Hn _ IH]; [done|]. cbn. by rewrite Hn, IH. Qed.

Lemma nth_error_snoc {A} (l : list A) x : nth_error (l ++ [x]) (length l) = Some x.
Proof. rewrite nth_error_app2, Nat.sub_diag by lia. reflexivity. Qed.

Section Send.
Variable clock : nat -> N.
Variable doc : Document.

(** A message sent, then its answer: the nodes removed and added. *)
Lemma send_then_answer s a :
  is_empty (js_trim (inputValue s)) = false -> is_empty (apiKey s) = false ->
  Forall (fun n => node_has_id (msg_id (clock (S (clockReads s)))) n = false) (chatNodes s) ->
  let k := clockReads s in
  chatNodes (exec (handle clock doc (Respond (length (pending s)) (Answer a)))
               (exec (handle clock doc ClickSend) s))
  = chatNodes s
    ++ remove_first (msg_id (clock (S k)))
         [message_node (clock k) (lit "user") (js_trim (inputValue s)) false;
          message_node (clock (S k)) (lit "assistant") thinking_text true]
    ++ [message_node (clock (S (S k))) (lit "assistant") a false].
Proof.
  intros E1 E2 Hfresh. cbv zeta. change (exec (handle clock doc ClickSend) s)
    with (exec (sendMessage clock doc) s).
  rewrite handle_Respond, sendMessage_spec. cbv zeta. rewrite E1, E2.
  cbn [pending]. rewrite nth_error_snoc, sendMessage_resume_spec. cbn.
  rewrite remove_first_app by done. by rewrite <- app_assoc.
Qed.

End Send.

(** ** Properties of the controller *)

(** C4: In every state reached from the constructor by any sequence of
    events, [chatHistory] alternates user and assistant entries, starting
    with a user entry, and holds at most twenty entries. *)
Theorem reachable_history clock doc s :
  reachable clock doc s ->
  alternating (chatHistory s) = true /\ length (chatHistory s) <= 20.
Proof. intros H. apply (wf_history doc), (reachable_wf clock), H. Qed.

(** C5: In every reachable state, each request waiting for its response
    was sent with a non-empty message and a non-empty key in its
    [Authorization] header, and its messages are the system message, a
    history that alternates user and assistant entries, and the user's
    message; the context in the system message was read from the live
    document after the user's message was added to the chat, as its last
    child. *)
Theorem reachable_requests clock doc s :
  reachable clock doc s -> Forall (request_wf doc) (pending s).
Proof. intros H. apply (wf_pending doc), (reachable_wf clock), H. Qed.

(** C14: In every reachable state the key in memory is the key in
    [localStorage], or the empty string when none is stored. *)
Theorem reachable_key clock doc s :
  reachable clock doc s -> apiKey s = opt_or (storedKey s) [].
Proof. intros H. apply (wf_key doc), (reachable_wf clock), H. Qed.

(** C15: In every reachable state the panel has the class [open] exactly
    when [isOpen] is true. *)
Theorem reachable_panel clock doc s :
  reachable clock doc s -> panelOpen s = isOpen s.
Proof. intros H. apply (wf_panel doc), (reachable_wf clock), H. Qed.

(** C6: Pushing each exchange and trimming to twenty entries implements
    the specification: after any sequence of answered requests and
    clears, the history is the last twenty entries of the log of all
    exchanges since the last clear. *)
Theorem conversation_refines (es : list ConvEvent) :
  fold_left conv_step es [] = slice_last 20 (fold_left log_step es []).
Proof. by apply conv_fold_slice. Qed.

Lemma is_empty_nonempty (s : jstr) : s <> [] -> is_empty s = false.
Proof. by destruct s. Qed.

(** C12: Sending with a non-blank input and a key: the input is cleared,
    the user's message (trimmed) and the loading message are appended
    with the ids of two successive [Date.now()] readings, the history is
    unchanged, and one request is issued with the key in its
    [Authorization] header and the messages system prompt, history, user
    message; the context of the system prompt is read from the document
    holding the chat with the user's message and without the loading
    message, so the code blocks of the chat, the user's own among them,
    are read as code of the page. *)
Theorem send_request clock doc s :
  js_trim (inputValue s) <> [] -> apiKey s <> [] ->
  let s' := exec (handle clock doc ClickSend) s in
  let message := js_trim (inputValue s) in
  let k := clockReads s in
  let user := message_node (clock k) (lit "user") message false in
  inputValue s' = [] /\ chatHistory s' = chatHistory s /\
  chatNodes s' = chatNodes s ++ [user; message_node (clock (S k)) (lit "assistant") thinking_text true] /\
  pending s' = pending s ++ [mkPending message (msg_id (clock (S k))) (lit "Bearer " ++ apiKey s)
                               (request_messages (chatHistory s) message
                                  (getPageContext (document_page doc (chatNodes s ++ [user]))))].
Proof.
  intros H1 H2. cbv zeta. change (handle clock doc ClickSend) with (sendMessage clock doc).
  rewrite sendMessage_spec. cbv zeta. rewrite !is_empty_nonempty by done. done.
Qed.

(** C21: Sending a non-blank message without a key only shows the settings
    dialog: nothing is sent, and the message stays in the input. *)
Theorem send_without_key clock doc s :
  js_trim (inputValue s) <> [] -> apiKey s = [] ->
  exec (handle clock doc ClickSend) s = set_modalDisplay DisplayFlex s.
Proof.
  intros H1 H2. change (handle clock doc ClickSend) with (sendMessage clock doc).
  rewrite sendMessage_spec. cbv zeta. by rewrite is_empty_nonempty, H2.
Qed.

(** C11: When the response of the [i]-th pending request arrives, that
    request leaves the pending list, the loading message is removed by
    its id, and on success the exchange is pushed to the history (trimmed
    to twenty entries) and the answer shown; on an HTTP error the
    [error.message] of the body or the fallback text, and on an exception
    its message, is shown after [错误: ], with the history unchanged. *)
Theorem respond_spec clock doc i p r s :
  nth_error (pending s) i = Some p ->
  exec (handle clock doc (Respond i r)) s =
  let '(h, role, text) := resume_result (pd_message p) r (chatHistory s) in
  let k := clockReads s in
  mkAssistant (apiKey s) h (isOpen s) (panelOpen s) (modalDisplay s)
    (remove_first (pd_loadingId p) (chatNodes s) ++ [message_node (clock k) role text false])
    (inputValue s) (keyInputValue s) (storedKey s) (timers s) (delete i (pending s)) (alerts s) (S k).
Proof. intros H. rewrite handle_Respond, H, sendMessage_resume_spec. by destruct r. Qed.

(** ** Concrete states for the witnesses *)

Definition demo_clock (k : nat) : N := (1700000000000 + N.of_nat k)%N.
(** A parser that finds the code blocks the renderer writes
    ([code_block_html]) and nothing else, enough for the examples: the
    text of each is its markup with the five entities decoded. *)
Definition pre_code_open : jstr := lit "<pre><code class=" ++ [34%N] ++ lit "language-".
Definition pre_code_close : jstr := lit "</code></pre>".

Fixpoint rendered_code (fuel : nat) (html : jstr) : list jstr :=
  match fuel with
  | 0 => []
  | S fuel' =>
      match string_index_of html pre_code_open 0 with
      | None => []
      | Some i =>
          let rest := drop (i + length pre_code_open) html in
          match string_index_of rest [34%N; 62%N] 0, string_index_of rest pre_code_close 0 with
          | Some j, Some k =>
              html_unescape (take (k - (j + 2)) (drop (j + 2) rest))
                :: rendered_code fuel' (drop (k + length pre_code_close) rest)
          | _, _ => []
          end
      end
  end.

Definition demo_parse (html : jstr) : Fragment :=
  mkFragment None [] (rendered_code (length html) html) [].

Definition demo_page : Page := mkPage None (lit "HW") [] [lit "x = 1"] [] [(0, [])] [].
Definition demo_doc : Document := mkDocument demo_page demo_parse.
(** The context of the request of [demo_sent]. *)
Definition demo_context : jstr :=
  getPageContext (document_page demo_doc
    [WelcomeNode false; message_node 1700000000000 (lit "user") (lit "hi") false]).

Definition demo_ready : Assistant := set_inputValue (lit " hi ") (init (Some (lit "sk-1"))).
Definition demo_sent : Assistant := exec (handle demo_clock demo_doc ClickSend) demo_ready.

Lemma reachable_demo_sent : reachable demo_clock demo_doc demo_sent.
Proof.
  apply reachable_step. change demo_ready
    with (exec (handle demo_clock demo_doc (TypeInput (lit " hi "))) (init (Some (lit "sk-1")))).
  apply reachable_step, reachable_init.
Qed.

Lemma reachable_history_witness :
  alternating (chatHistory demo_sent) = true /\ length (chatHistory demo_sent) <= 20.
Proof. apply (reachable_history demo_clock demo_doc), reachable_demo_sent. Defined.

Lemma reachable_requests_witness : Forall (request_wf demo_doc) (pending demo_sent).
Proof. apply (reachable_requests demo_clock demo_doc), reachable_demo_sent. Defined.

Lemma reachable_key_witness : apiKey demo_sent = opt_or (storedKey demo_sent) [].
Proof. apply (reachable_key demo_clock demo_doc), reachable_demo_sent. Defined.

Lemma reachable_panel_witness : panelOpen demo_sent = isOpen demo_sent.
Proof. apply (reachable_panel demo_clock demo_doc), reachable_demo_sent. Defined.

Lemma send_request_witness :
  inputValue demo_sent = [] /\ chatHistory demo_sent = [] /\
  chatNodes demo_sent = [WelcomeNode false;
                         message_node 1700000000000 (lit "user") (lit "hi") false;
                         message_node 1700000000001 (lit "assistant") thinking_text true] /\
  pending demo_sent = [mkPending (lit "hi") (msg_id 1700000000001) (lit "Bearer sk-1")
                         (request_messages [] (lit "hi") demo_context)].
Proof. apply (send_request demo_clock demo_doc demo_ready); vm_compute; discriminate. Defined.

Lemma send_without_key_witness :
  exec (handle demo_clock demo_doc ClickSend) (set_inputValue (lit "hi") (init None))
  = set_modalDisplay DisplayFlex (set_inputValue (lit "hi") (init None)).
Proof. apply send_without_key; vm_compute; [discriminate|reflexivity]. Defined.

Lemma respond_spec_witness :
  exec (handle demo_clock demo_doc (Respond 0 (ApiError None))) demo_sent =
  mkAssistant (lit "sk-1") [] false false DisplayUnset
    ([WelcomeNode false; message_node 1700000000000 (lit "user") (lit "hi") false]
     ++ [message_node 1700000000002 (lit "error") (lit "错误: " ++ request_failed_text) false])
    [] (lit "sk-1") (Some (lit "sk-1")) [] [] [] 3.
Proof. apply (respond_spec demo_clock demo_doc 0 (mkPending (lit "hi") (msg_id 1700000000001) (lit "Bearer sk-1") (request_messages [] (lit "hi") demo_context))). vm_compute. reflexivity. Defined.
