(* ===== verification/Session.v ===== *)
(** * Sessions of the assistant: what a user sees over several events

    Consequences of the controller's model ([Controller]) over short
    sequences of events: the removal of the loading message by an id made
    from [Date.now()], a response that arrives after the conversation was
    cleared, a stored key with a double quote, the settings dialog that
    opens after the panel, the code buttons, and two requests in flight. *)

From S2P Require Import Prelude JsString Format PageContext UI Controller.

#[local] Arguments lit : simpl never.

(** ** The sessions *)

Section Sessions.
Variable clock : nat -> N.
Variable doc : Document.

(** A click on the send button, then the response to the request it
    issued. *)
Definition send_then_respond (s : Assistant) (r : Response) : Assistant :=
  run clock doc [ClickSend; Respond (length (pending s)) r] s.

(** A confirmed clear, then the response of the [i]-th pending request. *)
Definition clear_then_respond (s : Assistant) (i : nat) (r : Response) : Assistant :=
  run clock doc [ClickClear true; Respond i r] s.

(** A click on the assistant button, then the timer it may have set. *)
Definition open_then_timer (s : Assistant) : Assistant :=
  run clock doc [ClickAssistantButton; FireTimer] s.

(** A click on the [i]-th code button, then the timer it set. *)
Definition code_button_then_timer (i : nat) (s : Assistant) : Assistant :=
  run clock doc [ClickCodeButton i; FireTimer] s.

(** A page load with [stored] in [localStorage], then a click on the
    save button of the settings dialog. *)
Definition reload_then_save (stored : option jstr) : Assistant :=
  run clock doc [ClickSave] (init stored).

(** Two questions sent one after the other, and their answers in the
    reverse order. *)
Definition two_sends (q1 q2 : jstr) (s : Assistant) : Assistant :=
  run clock doc [TypeInput q1; ClickSend; TypeInput q2; ClickSend] s.

Definition answers_reversed (a1 a2 : jstr) (s : Assistant) : Assistant :=
  run clock doc [Respond 1 (Answer a2); Respond 0 (Answer a1)] s.

(** C13: When [Date.now()] returns the same value at the two [addMessage]
    calls of one [sendMessage] (both run within the same millisecond),
    the user's message and the loading message get the same id; when the
    answer arrives, [removeMessage] takes out the first element with that
    id, the user's message, and the loading message stays on the page
    next to the answer. *)
Theorem loading_id_collision s a :
  js_trim (inputValue s) <> [] -> apiKey s <> [] ->
  Forall (fun n => node_has_id (msg_id (clock (clockReads s))) n = false) (chatNodes s) ->
  clock (S (clockReads s)) = clock (clockReads s) ->
  chatNodes (send_then_respond s (Answer a))
  = chatNodes s ++ [message_node (clock (clockReads s)) (lit "assistant") thinking_text true;
                    message_node (clock (S (S (clockReads s)))) (lit "assistant") a false].
Proof.
  intros H1 H2 Hfresh Hclock. unfold send_then_respond, run. cbn [fold_left].
  rewrite send_then_answer; rewrite ?Hclock;
    auto using is_empty_nonempty.
  cbn. by rewrite bool_decide_eq_true_2.
Qed.

(** When the two readings of [Date.now()] differ and no element has
    the loading message's id yet, the answer replaces the loading message
    and the user's message stays. *)
Theorem answer_replaces_loading s a :
  js_trim (inputValue s) <> [] -> apiKey s <> [] ->
  Forall (fun n => node_has_id (msg_id (clock (S (clockReads s)))) n = false) (chatNodes s) ->
  msg_id (clock (clockReads s)) <> msg_id (clock (S (clockReads s))) ->
  chatNodes (send_then_respond s (Answer a))
  = chatNodes s ++ [message_node (clock (clockReads s)) (lit "user") (js_trim (inputValue s)) false;
                    message_node (clock (S (S (clockReads s)))) (lit "assistant") a false].
Proof.
  intros H1 H2 Hfresh Hid. unfold send_then_respond, run. cbn [fold_left].
  rewrite send_then_answer by auto using is_empty_nonempty.
  cbn. rewrite bool_decide_eq_false_2 by done. by rewrite bool_decide_eq_true_2.
Qed.

(** C22: Clearing the conversation does not cancel a request in flight:
    when its answer arrives, the old exchange becomes the whole history
    of the new conversation and the answer is shown below the welcome
    text of the cleared panel. *)
Theorem clear_then_answer s i p a :
  nth_error (pending s) i = Some p ->
  let s' := clear_then_respond s i (Answer a) in
  chatHistory s' = exchange (pd_message p) a /\
  chatNodes s' = [WelcomeNode true;
                  message_node (clock (clockReads s)) (lit "assistant") a false].
Proof.
  intros H. cbv zeta. unfold clear_then_respond, run. cbn [fold_left].
  rewrite handle_Respond.
  change (pending (exec (handle clock doc (ClickClear true)) s)) with (pending s).
  rewrite H, sendMessage_resume_spec. by cbn.
Qed.

(** C23: Opening the panel without a key shows the settings dialog: the
    click opens the panel and starts a timer, and when the timer fires
    the dialog is displayed. *)
Theorem open_without_key_shows_settings s :
  isOpen s = false -> apiKey s = [] -> timers s = [] ->
  let s' := open_then_timer s in
  isOpen s' = true /\ panelOpen s' = true /\ modalDisplay s' = DisplayFlex /\ timers s' = [].
Proof.
  intros H1 H2 H3. cbv zeta. unfold open_then_timer, run. cbn [fold_left]. rewrite handle_FireTimer.
  change (handle clock doc ClickAssistantButton) with togglePanel.
  rewrite togglePanel_spec. rewrite H1, H2, H3. by cbn.
Qed.

Lemma code_question_trim code : js_trim (code_question code) = code_question code.
Proof.
  unfold code_question.
  assert (E1 : lit "请解释以下代码：\n```\n" = 35831%N :: lit "解释以下代码：\n```\n") by js_eval.
  assert (E2 : lit "\n```" = [10%N; 96%N; 96%N] ++ [96%N]) by js_eval.
  rewrite E1, E2, <- app_comm_cons, !app_assoc. by apply js_trim_fixed.
Qed.

Lemma code_question_not_empty code : is_empty (code_question code) = false.
Proof. reflexivity. Qed.

(** C24: A code button sends a question about its code block: with the
    panel closed and a key set, the click opens the panel and fills the
    input, and when the timer fires the question, the code between two
    fences, is sent. *)
Theorem ask_code_sends s i code :
  nth_error (code_buttons (doc_page doc)) i = Some code -> isOpen s = false -> apiKey s <> [] -> timers s = [] ->
  let s' := code_button_then_timer i s in
  isOpen s' = true /\ inputValue s' = [] /\
  map pd_message (pending s') = map pd_message (pending s) ++ [code_question code].
Proof.
  intros Hc H1 H2 H3. unfold code_button_then_timer, run. cbn [fold_left].
  destruct s; cbn in H1, H2, H3; subst. cbv zeta.
  assert (E : forall s, exec (handle clock doc (ClickCodeButton i)) s = exec (askAboutCode code) s)
    by (intros; unfold handle; by rewrite Hc).
  rewrite handle_FireTimer, E, askAboutCode_spec, togglePanel_spec. cbn -[code_question sendMessage].
  rewrite (is_empty_nonempty _ H2). cbn -[code_question sendMessage].
  change (run_timer clock doc TimerSendMessage) with (sendMessage clock doc).
  rewrite sendMessage_spec. cbn -[code_question js_trim getPageContext formatMessage].
  rewrite code_question_trim, code_question_not_empty.
  rewrite (is_empty_nonempty _ H2). cbn -[code_question js_trim getPageContext formatMessage].
  by rewrite map_app.
Qed.

End Sessions.

(** ** Concrete sessions *)

(** The key is written into the settings input without escaping
    ([value="${this.apiKey}"]): a stored key with a double quote shows
    only its part before the quote, and saving the dialog then replaces
    the stored key by that part. *)
Example stored_key_with_quote :
  let s := reload_then_save demo_clock demo_doc (Some (lit "sk-ab" ++ [34%N] ++ lit "cd")) in
  keyInputValue (init (Some (lit "sk-ab" ++ [34%N] ++ lit "cd"))) = lit "sk-ab" /\
  storedKey s = Some (lit "sk-ab") /\ apiKey s = lit "sk-ab".
Proof. vm_compute. auto. Qed.

(** Two questions sent before the first answer: the second request
    carries no history (the system message and the question only), and
    when the answers arrive in the reverse order the history records the
    second exchange before the first. *)
Example concurrent_sends :
  let s := two_sends demo_clock demo_doc (lit "q1") (lit "q2") (init (Some (lit "sk-1"))) in
  let s' := answers_reversed demo_clock demo_doc (lit "a1") (lit "a2") s in
  map (fun p => length (pd_messages p)) (pending s) = [2; 2] /\
  chatHistory s' = exchange (lit "q2") (lit "a2") ++ exchange (lit "q1") (lit "a1").
Proof. vm_compute. auto. Qed.

(** A question asked with the button of the page's code block [x = 1]:
    the question shown in the chat holds the code in a fenced block, which
    the renderer turns into a [pre code] element before the context is
    read, so the context lists the code twice, as the page's first and
    second code blocks. *)
Example ask_code_context :
  let s' := code_button_then_timer demo_clock demo_doc 0 (init (Some (lit "sk-1"))) in
  map pd_messages (pending s') =
    [request_messages [] (code_question (lit "x = 1"))
       (getPageContext (mkPage None (lit "HW") [] [lit "x = 1"; lit "x = 1"] [] [] []))].
Proof. vm_compute. reflexivity. Qed.

(** ** Witnesses *)

Lemma loading_id_collision_witness :
  chatNodes (send_then_respond (fun _ => 1000%N) demo_doc demo_ready (Answer (lit "ok")))
  = [WelcomeNode false] ++ [message_node 1000 (lit "assistant") thinking_text true;
                            message_node 1000 (lit "assistant") (lit "ok") false].
Proof.
  apply (loading_id_collision (fun _ => 1000%N) demo_doc demo_ready (lit "ok"));
    vm_compute; try discriminate; repeat constructor.
Defined.

Lemma answer_replaces_loading_witness :
  chatNodes (send_then_respond demo_clock demo_doc demo_ready (Answer (lit "ok")))
  = [WelcomeNode false] ++ [message_node 1700000000000 (lit "user") (lit "hi") false;
                            message_node 1700000000002 (lit "assistant") (lit "ok") false].
Proof.
  apply (answer_replaces_loading demo_clock demo_doc demo_ready (lit "ok"));
    vm_compute; try discriminate; repeat constructor.
Defined.

Lemma clear_then_answer_witness :
  let s' := clear_then_respond demo_clock demo_doc demo_sent 0 (Answer (lit "ok")) in
  chatHistory s' = exchange (lit "hi") (lit "ok") /\
  chatNodes s' = [WelcomeNode true; message_node 1700000000002 (lit "assistant") (lit "ok") false].
Proof.
  apply (clear_then_answer demo_clock demo_doc demo_sent 0
           (mkPending (lit "hi") (msg_id 1700000000001) (lit "Bearer sk-1")
              (request_messages [] (lit "hi") demo_context))).
  vm_compute. reflexivity.
Defined.

Lemma open_without_key_shows_settings_witness :
  let s' := open_then_timer demo_clock demo_doc (init None) in
  isOpen s' = true /\ panelOpen s' = true /\ modalDisplay s' = DisplayFlex /\ timers s' = [].
Proof. apply open_without_key_shows_settings; reflexivity. Defined.

Lemma ask_code_sends_witness :
  let s' := code_button_then_timer demo_clock demo_doc 0 (init (Some (lit "sk-1"))) in
  isOpen s' = true /\ inputValue s' = [] /\
  map pd_message (pending s') = [] ++ [code_question (lit "x = 1")].
Proof. apply (ask_code_sends demo_clock demo_doc); vm_compute; (reflexivity || discriminate). Defined.
